(** * fc-capacity-bottleneck: hourly fulfilment-centre model and its analytics

    A shallow embedding of the computational core of the repository:

    - [src/generate_data.py]  ([generate_hourly_demand], [generate_step_data])
    - [src/preprocess.py]     ([validate_schema])
    - [src/capacity.py]       ([compute_utilization], [compute_service_level],
                               [aggregate_daily_metrics])
    - [src/bottleneck.py]     ([detect_bottlenecks], [get_bottleneck_step])
    - [src/recommendations.py] ([compute_staffing_recommendations])

    Conventions of the embedding.

    - A pandas DataFrame is a list of rows in index order; a row is a record
      of its columns.
    - float64 columns are idealised as rationals ([Q]).  Not-a-number and
      the infinities have no counterpart: where the source would produce one
      and then fail on it, the model fails; where the source would go on
      with one (a quotient by zero that is not cast to an integer), the
      quotient of the model says nothing about the source, and every
      property that reads such a quotient assumes its divisor is not zero.
    - int64 columns are [Z] with the range of int64 written out: the cast
      of a float past the range gives the most negative int64, and int64
      arithmetic wraps around.
    - A timestamp is a number of hours, a date a proleptic Gregorian ordinal
      (as [datetime.toordinal]).
    - An exception is a value of [exn]; fallible code returns [result].
    - numpy's global random generator is an explicit state. *)

From Stdlib Require Import ZArith QArith Qround Qminmax Lqa Lia.
From Stdlib Require Import String Ascii Bool List.
From Stdlib Require OrderedTypeEx.
Import ListNotations.

Local Open Scope Q_scope.

(** ** Numeric helpers *)

(** The guard added to every denominator, [1e-6]. *)
Definition eps : Q := 1 # 1000000.

(** Python's [min(a, b)] returns [a] unless [b < a]. *)
Definition pymin (a b : Q) : Q := if Qle_bool a b then a else b.

(** Python's [max(a, b)] returns [a] unless [b > a]. *)
Definition pymax (a b : Q) : Q := if Qle_bool b a then a else b.

(** [np.clip(x, lo, hi)] and [Series.clip(lo, hi)]:
    [minimum(maximum(x, lo), hi)]. *)
Definition clip (x lo hi : Q) : Q := pymin (pymax x lo) hi.

(** [Series.clip(lo, None)]. *)
Definition clip_lower (x lo : Q) : Q := pymax x lo.

(** ** int64 *)

Definition int64_min : Z := (- 2 ^ 63)%Z.
Definition int64_max : Z := (2 ^ 63 - 1)%Z.

Definition in_int64 (z : Z) : bool :=
  ((int64_min <=? z) && (z <=? int64_max))%Z.

(** The result of an int64 operation whose exact result is [z]: it wraps
    around modulo 2^64. *)
Definition wrap64 (z : Z) : Z := ((z + 2 ^ 63) mod 2 ^ 64 - 2 ^ 63)%Z.

(** [.astype(int)] on a finite float of integral value [z].  Past the range
    of int64 the conversion is the one of the processor; on x86-64, where
    numpy compiles it to [cvttsd2si], it gives the most negative int64. *)
Definition astype_int (z : Z) : Z := if in_int64 z then z else int64_min.

(** [np.ceil(x).astype(int)] on a finite [x]. *)
Definition ceil (x : Q) : Z := astype_int (Qceiling x).

(** A Python number passed where the source annotates [float]: read from
    the YAML configuration it is an [int] or a [float]. *)
Inductive number : Type :=
| PyInt (z : Z)
| PyFloat (x : Q).

Definition number_value (n : number) : Q :=
  match n with
  | PyInt z => inject_Z z
  | PyFloat x => x
  end.

(** An int64 column times a Python number: int64 again, wrapping around,
    for an [int] (taken within int64); float64 for a [float]. *)
Definition int64_times (col : Z) (n : number) : Q :=
  match n with
  | PyInt z => inject_Z (wrap64 (col * z))
  | PyFloat x => inject_Z col * x
  end.

Definition Qlt_bool (a b : Q) : bool := negb (Qle_bool b a).

Definition Qsum (l : list Q) : Q := fold_right Qplus 0 l.
Definition Zsum (l : list Z) : Z := fold_right Z.add 0%Z l.

(** [Series.mean()] / [ndarray.mean()]. *)
Definition Qmean (l : list Q) : Q := Qsum l / inject_Z (Z.of_nat (length l)).

(** ** The hourly-per-step table *)

(** One record of the hourly-per-step table.  The first twelve columns are
    written by the simulator and by [create_features] ([date]); the last
    four are written by [compute_service_level].  A function that assigns a
    column adds it or overwrites it alike, so a table that does not have one
    of the last four columns yet is any table whatever its value there. *)
Record Row : Type := mkRow {
  timestamp : Z;
  step : string;
  date : Z;
  demand_units : Q;
  capacity_units : Q;
  processed_units : Q;
  backlog_units : Q;
  utilization : Q;
  cycle_time_min : Q;
  uph : Q;
  labor_hours_used : Q;
  headcount_used : Z;
  backlog_in : Q;
  total_demand : Q;
  service_level_hourly : Q;
  throughput_loss_units : Q
}.

Definition DataFrame : Type := list Row.

(** Column assignments [df[col] = ...], row by row. *)
Definition set_utilization (v : Q) (r : Row) : Row :=
  mkRow (timestamp r) (step r) (date r) (demand_units r) (capacity_units r)
        (processed_units r) (backlog_units r) v (cycle_time_min r) (uph r)
        (labor_hours_used r) (headcount_used r) (backlog_in r)
        (total_demand r) (service_level_hourly r) (throughput_loss_units r).

Definition set_backlog_in (v : Q) (r : Row) : Row :=
  mkRow (timestamp r) (step r) (date r) (demand_units r) (capacity_units r)
        (processed_units r) (backlog_units r) (utilization r)
        (cycle_time_min r) (uph r) (labor_hours_used r) (headcount_used r)
        v (total_demand r) (service_level_hourly r) (throughput_loss_units r).

Definition set_total_demand (v : Q) (r : Row) : Row :=
  mkRow (timestamp r) (step r) (date r) (demand_units r) (capacity_units r)
        (processed_units r) (backlog_units r) (utilization r)
        (cycle_time_min r) (uph r) (labor_hours_used r) (headcount_used r)
        (backlog_in r) v (service_level_hourly r) (throughput_loss_units r).

Definition set_service_level_hourly (v : Q) (r : Row) : Row :=
  mkRow (timestamp r) (step r) (date r) (demand_units r) (capacity_units r)
        (processed_units r) (backlog_units r) (utilization r)
        (cycle_time_min r) (uph r) (labor_hours_used r) (headcount_used r)
        (backlog_in r) (total_demand r) v (throughput_loss_units r).

Definition set_throughput_loss_units (v : Q) (r : Row) : Row :=
  mkRow (timestamp r) (step r) (date r) (demand_units r) (capacity_units r)
        (processed_units r) (backlog_units r) (utilization r)
        (cycle_time_min r) (uph r) (labor_hours_used r) (headcount_used r)
        (backlog_in r) (total_demand r) (service_level_hourly r) v.

Definition set_uph (v : Q) (r : Row) : Row :=
  mkRow (timestamp r) (step r) (date r) (demand_units r) (capacity_units r)
        (processed_units r) (backlog_units r) (utilization r)
        (cycle_time_min r) v (labor_hours_used r) (headcount_used r)
        (backlog_in r) (total_demand r) (service_level_hourly r)
        (throughput_loss_units r).

(** ** [sort_values(['step', 'timestamp'])]

    With more than one key pandas sorts by a lexicographic, stable sort:
    rows with equal keys keep their relative order. *)

Definition step_ts_leb (a b : Row) : bool :=
  match String.compare (step a) (step b) with
  | Lt => true
  | Eq => (timestamp a <=? timestamp b)%Z
  | Gt => false
  end.

Section StableSort.
Context {A : Type}.
Variable leb : A -> A -> bool.

(** [x] goes in front of the first element that is not smaller, hence in
    front of every element with an equal key. *)
Fixpoint insert_sorted (x : A) (l : list A) : list A :=
  match l with
  | [] => [x]
  | y :: l' => if leb x y then x :: l else y :: insert_sorted x l'
  end.

Fixpoint stable_sort (l : list A) : list A :=
  match l with
  | [] => []
  | x :: l' => insert_sorted x (stable_sort l')
  end.

(** Adjacent elements are in order. *)
Fixpoint locally_sorted (l : list A) : Prop :=
  match l with
  | [] => True
  | x :: l' =>
      match l' with
      | [] => True
      | y :: _ => leb x y = true /\ locally_sorted l'
      end
  end.
End StableSort.

Definition sort_by_step_timestamp (df : DataFrame) : DataFrame :=
  stable_sort step_ts_leb df.

(** ** [groupby('step')[col].shift(1)] and [.diff()]

    Within each group a row receives the value of the previous row of the
    same group; the first row of a group receives not-a-number ([None]).
    The scan keeps the value last seen for every step. *)

Definition last_seen : Type := list (string * Q).

Fixpoint lookup_step (s : string) (m : last_seen) : option Q :=
  match m with
  | [] => None
  | (k, v) :: m' => if String.eqb s k then Some v else lookup_step s m'
  end.

Fixpoint groupby_step_shift_from (col : Row -> Q) (seen : last_seen)
    (df : DataFrame) : list (option Q) :=
  match df with
  | [] => []
  | r :: df' =>
      lookup_step (step r) seen
        :: groupby_step_shift_from col ((step r, col r) :: seen) df'
  end.

Definition groupby_step_shift (col : Row -> Q) (df : DataFrame)
    : list (option Q) :=
  groupby_step_shift_from col [] df.

(** [.fillna(v)] *)
Definition fillna (v : Q) (x : option Q) : Q :=
  match x with Some y => y | None => v end.

(** [groupby('step')[col].diff()]: the value minus the shifted value. *)
Definition groupby_step_diff (col : Row -> Q) (df : DataFrame)
    : list (option Q) :=
  map (fun p => match snd p with
                | Some prev => Some (col (fst p) - prev)
                | None => None
                end)
      (combine df (groupby_step_shift col df)).

(** ** src/capacity.py *)

(** [compute_utilization]:
    [df['utilization'] = (processed / (capacity + 1e-6)).clip(0, 1)].
    On a record whose [capacity_units + 1e-6] is zero the source divides by
    zero and leaves 1.0, 0.0 or not-a-number; the quotient of the model
    says nothing about the source there. *)
Definition compute_utilization (df : DataFrame) : DataFrame :=
  map (fun r =>
         set_utilization
           (clip (processed_units r / (capacity_units r + eps)) 0 1) r)
      df.

(** The four column assignments of [compute_service_level] on one record,
    given the value of its [backlog_in].  In the source the [.clip(0, 1)]
    of the service-level line is applied to the denominator
    [(df['total_demand'] + 1e-6)], not to the quotient. *)
Definition with_service_level (p : Row * Q) : Row :=
  let r := set_backlog_in (snd p) (fst p) in
  let r := set_total_demand (demand_units r + backlog_in r) r in
  let r :=
    set_service_level_hourly
      (processed_units r / clip (total_demand r + eps) 0 1) r in
  set_throughput_loss_units
    (clip_lower (total_demand r - processed_units r) 0) r.

(** [compute_service_level]. *)
Definition compute_service_level (df : DataFrame) : DataFrame :=
  let df := sort_by_step_timestamp df in
  let backlog_ins := map (fillna 0) (groupby_step_shift backlog_units df) in
  map with_service_level (combine df backlog_ins).

(** [groupby(keys)]: the groups in increasing key order, each with its rows
    in table order. *)
Section GroupBy.
Context {K : Type}.
Variable key : Row -> K.
Variable key_eqb : K -> K -> bool.
Variable key_leb : K -> K -> bool.

(** The keys of the table, each once, at its first occurrence. *)
Fixpoint distinct (ks : list K) : list K :=
  match ks with
  | [] => []
  | k :: ks' => k :: filter (fun k' => negb (key_eqb k' k)) (distinct ks')
  end.

Definition group_keys (df : DataFrame) : list K :=
  stable_sort key_leb (distinct (map key df)).

Definition group_rows (k : K) (df : DataFrame) : DataFrame :=
  filter (fun r => key_eqb (key r) k) df.

Definition groupby (df : DataFrame) : list (K * DataFrame) :=
  map (fun k => (k, group_rows k df)) (group_keys df).
End GroupBy.

Definition date_step_eqb (a b : Z * string) : bool :=
  (fst a =? fst b)%Z && String.eqb (snd a) (snd b).

Definition date_step_leb (a b : Z * string) : bool :=
  match (fst a ?= fst b)%Z with
  | Lt => true
  | Eq => String.leb (snd a) (snd b)
  | Gt => false
  end.

(** One record of the daily-per-step table. *)
Module Daily.
Record t : Type := mk {
  date : Z;
  step : string;
  demand_units : Q;
  capacity_units : Q;
  processed_units : Q;
  backlog_units : Q;
  utilization : Q;
  cycle_time_min : Q;
  service_level_hourly : Q;
  throughput_loss_units : Q;
  labor_hours_used : Q;
  headcount_used : Z
}.
End Daily.

(** [aggregate_daily_metrics]:
    [df.groupby(['date', 'step']).agg({...}).reset_index()]. *)
Definition aggregate_daily_metrics (df : DataFrame) : list Daily.t :=
  map (fun kg : (Z * string) * DataFrame =>
         let g := snd kg in
         Daily.mk (fst (fst kg)) (snd (fst kg))
           (Qsum (map demand_units g))
           (Qsum (map capacity_units g))
           (Qsum (map processed_units g))
           (Qmean (map backlog_units g))
           (Qmean (map utilization g))
           (Qmean (map cycle_time_min g))
           (Qmean (map service_level_hourly g))
           (Qsum (map throughput_loss_units g))
           (Qsum (map labor_hours_used g))
           (Zsum (map headcount_used g)))
      (groupby (fun r => (date r, step r)) date_step_eqb date_step_leb df).

(** ** Exceptions *)

Inductive exn : Type :=
  (** [ValueError(f"Missing required columns: {missing}")] *)
| MissingRequiredColumns (missing : list string)
  (** [ValueError("<column> must be numeric")] *)
| MustBeNumeric (column : string)
  (** [astype(int)] on a column holding not-a-number or an infinity *)
| NonFiniteToInteger
  (** [np.random.seed]: the seed must be between 0 and 2**32 - 1 *)
| SeedOutOfRange
  (** [np.random.choice]: population not positive while samples are taken *)
| EmptyPopulation
  (** [np.random.choice(.., replace=False)]: sample larger than population *)
| SampleLargerThanPopulation
  (** [np.random.choice]: negative size *)
| NegativeDimensions
  (** [np.random.normal]: scale < 0 *)
| NegativeScale
  (** [ValueError("Length mismatch: ...")]: column names assigned to a
      table that has another number of columns *)
| LengthMismatch.

Inductive result (A : Type) : Type :=
| Ok (a : A)
| Raise (e : exn).
Arguments Ok {A} a.
Arguments Raise {A} e.

Definition bind {A B : Type} (m : result A) (k : A -> result B) : result B :=
  match m with
  | Ok a => k a
  | Raise e => Raise e
  end.

Notation "x <- m ;; k" := (bind m (fun x => k))
  (at level 61, m at next level, right associativity).

Definition is_ok {A : Type} (m : result A) : bool :=
  match m with Ok _ => true | Raise _ => false end.

(** The first exception wins. *)
Fixpoint collect {A : Type} (l : list (result A)) : result (list A) :=
  match l with
  | [] => Ok []
  | m :: l' => a <- m ;; rest <- collect l' ;; Ok (a :: rest)
  end.

(** ** src/bottleneck.py *)

(** [Series.max()]: [None] on an empty series. *)
Fixpoint series_max (col : Row -> Q) (g : DataFrame) : option Q :=
  match g with
  | [] => None
  | r :: g' =>
      match series_max col g' with
      | None => Some (col r)
      | Some m => Some (pymax (col r) m)
      end
  end.

(** [Series.idxmax()] followed by [group.loc[..]]: the row of the first
    occurrence of the maximum. *)
Fixpoint idxmax_from (col : Row -> Q) (best : Row) (g : DataFrame) : Row :=
  match g with
  | [] => best
  | r :: g' =>
      if Qlt_bool (col best) (col r) then idxmax_from col r g'
      else idxmax_from col best g'
  end.

Definition idxmax (col : Row -> Q) (g : DataFrame) : option Row :=
  match g with
  | [] => None
  | r :: g' => Some (idxmax_from col r g')
  end.

(** A comparison with the maximum of an empty series is false. *)
Definition max_ge (m : option Q) (x : Q) : bool :=
  match m with Some v => Qle_bool x v | None => false end.

Definition max_gt (m : option Q) (x : Q) : bool :=
  match m with Some v => Qlt_bool x v | None => false end.

(** The inner function [get_bottleneck_step(group)] of
    [detect_bottlenecks]. *)
Definition get_bottleneck_step (threshold_util : Q) (group : DataFrame)
    : option string :=
  if max_ge (series_max utilization group) threshold_util then
    option_map step (idxmax utilization group)
  else if max_gt (series_max throughput_loss_units group) 0 then
    option_map step (idxmax throughput_loss_units group)
  else None.

(** One record of the table once the two flag columns are assigned
    (bottleneck.py, lines 47 to 57): the input record, [backlog_change] and
    [is_bottleneck]. *)
Record FlaggedRow : Type := mkFlaggedRow {
  f_row : Row;
  f_backlog_change : Q;
  f_is_bottleneck : bool
}.

(** One record of the table returned by [detect_bottlenecks]: the input
    record and the three columns added. *)
Record BottleneckRow : Type := mkBottleneckRow {
  b_row : Row;
  backlog_change : Q;
  is_bottleneck : bool;
  bottleneck_step : option string
}.

(** The first statements of [detect_bottlenecks]: the sort, then
    [backlog_change] and [is_bottleneck]. *)
Definition flag_bottlenecks (df : DataFrame) (threshold_util : Q)
    : list FlaggedRow :=
  let df1 := sort_by_step_timestamp df in
  let changes := map (fillna 0) (groupby_step_diff backlog_units df1) in
  map (fun p : Row * Q =>
         let r := fst p in
         let change := snd p in
         mkFlaggedRow r change
           (Qle_bool threshold_util (utilization r)
            && (Qlt_bool 0 change || Qlt_bool 0 (throughput_loss_units r))))
      (combine df1 changes).

(** [df.groupby('timestamp').apply(get_bottleneck_step)]: one value per
    timestamp, in increasing order of the timestamps. *)
Definition apply_get_bottleneck_step (threshold_util : Q) (df : DataFrame)
    : list (Z * option string) :=
  map (fun kg : Z * DataFrame =>
         (fst kg, get_bottleneck_step threshold_util (snd kg)))
      (groupby timestamp Z.eqb Z.leb df).

Definition is_some {A : Type} (o : option A) : bool :=
  match o with Some _ => true | None => false end.

(** [.reset_index()] and the assignment of the two column names.  When
    some group returned a step, pandas builds a series of the values,
    [None] included, and the reset table has the two columns.  When every
    group returned [None], and when there is no group, pandas builds an
    empty frame instead, the reset table has one column, and the assignment
    of two names raises. *)
Definition hourly_bottleneck (threshold_util : Q) (df : DataFrame)
    : result (list (Z * option string)) :=
  let applied := apply_get_bottleneck_step threshold_util df in
  if existsb (fun kv => is_some (snd kv)) applied then Ok applied
  else Raise LengthMismatch.

(** [df.merge(hourly_bottleneck, on='timestamp', how='left')]: the right
    table has one line per timestamp, so every row of the left table is kept
    once, with the value of its timestamp. *)
Fixpoint merge_lookup (ts : Z) (hb : list (Z * option string))
    : option string :=
  match hb with
  | [] => None
  | (k, v) :: hb' => if (ts =? k)%Z then v else merge_lookup ts hb'
  end.

Definition merge_bottleneck_step (df : list FlaggedRow)
    (hb : list (Z * option string)) : list BottleneckRow :=
  map (fun f =>
         mkBottleneckRow (f_row f) (f_backlog_change f) (f_is_bottleneck f)
           (merge_lookup (timestamp (f_row f)) hb))
      df.

Definition detect_bottlenecks (df : DataFrame) (threshold_util : Q)
    : result (list BottleneckRow) :=
  let df1 := flag_bottlenecks df threshold_util in
  hb <- hourly_bottleneck threshold_util (map f_row df1) ;;
  Ok (merge_bottleneck_step df1 hb).

(** ** src/recommendations.py *)

(** [uph_by_step], a dict. *)
Definition uph_table : Type := list (string * Q).

Fixpoint dict_get (s : string) (d : uph_table) : option Q :=
  match d with
  | [] => None
  | (k, v) :: d' => if String.eqb s k then Some v else dict_get s d'
  end.

(** One record of the table returned by
    [compute_staffing_recommendations]: the input record, with [backlog_in]
    and [uph] assigned, and the six columns added. *)
Record StaffingRow : Type := mkStaffingRow {
  s_row : Row;
  required_units : Q;
  required_capacity_units : Q;
  required_labor_hours : Q;
  recommended_headcount : Z;
  headcount_gap : Z;
  labor_cost_impact : Q
}.

(** The columns of one record, given its [backlog_in].  A step that
    [uph_by_step] does not have maps to not-a-number, and a zero divisor
    gives an infinity or not-a-number; either makes
    [np.ceil(..).astype(int)], a cast by pandas, raise.
    [recommended_headcount], [headcount_used] and [headcount_gap] are int64
    columns: the cast gives the most negative int64 past the range, and the
    difference wraps around.  [np.maximum(0, gap) * wage_per_hour] is an
    int64 product for an [int] wage and a float64 product for a [float]
    one. *)
Definition staffing_row (service_target : Q) (uph_by_step : uph_table)
    (wage_per_hour : number) (r : Row) (bin : Q) : result StaffingRow :=
  let r1 := set_backlog_in bin r in
  let required := demand_units r1 + backlog_in r1 in
  let required_capacity := required / service_target in
  match dict_get (step r1) uph_by_step with
  | None => Raise NonFiniteToInteger
  | Some u =>
      let r2 := set_uph u r1 in
      if Qeq_bool service_target 0 || Qeq_bool (uph r2 + eps) 0 then
        Raise NonFiniteToInteger
      else
        let labor := required_capacity / (uph r2 + eps) in
        let recommended := ceil labor in
        let gap := wrap64 (recommended - headcount_used r2) in
        Ok (mkStaffingRow r2 required required_capacity labor recommended gap
              (int64_times (Z.max 0 gap) wage_per_hour))
  end.

Definition compute_staffing_recommendations (df : DataFrame)
    (service_target : Q) (uph_by_step : uph_table) (wage_per_hour : number)
    : result (list StaffingRow) :=
  let df1 := sort_by_step_timestamp df in
  let backlog_ins := map (fillna 0) (groupby_step_shift backlog_units df1) in
  collect
    (map (fun p : Row * Q =>
            staffing_row service_target uph_by_step wage_per_hour
              (fst p) (snd p))
         (combine df1 backlog_ins)).

(** ** src/preprocess.py *)

(** The dtype of a column, as far as [is_numeric_dtype] tells them apart. *)
Inductive dtype : Type :=
| int64 | float64 | bool_ | object_ | datetime64.

Definition is_numeric_dtype (d : dtype) : bool :=
  match d with
  | int64 | float64 | bool_ => true
  | object_ | datetime64 => false
  end.

(** What [validate_schema] reads of a table: its column names, each with
    the dtype of the column. *)
Definition Schema : Type := list (string * dtype).

Definition columns (df : Schema) : list string := map fst df.

Definition mem (s : string) (l : list string) : bool :=
  existsb (String.eqb s) l.

Fixpoint column_dtype (c : string) (df : Schema) : option dtype :=
  match df with
  | [] => None
  | (k, d) :: df' => if String.eqb c k then Some d else column_dtype c df'
  end.

Definition column_is_numeric (c : string) (df : Schema) : bool :=
  match column_dtype c df with
  | Some d => is_numeric_dtype d
  | None => false
  end.

Definition required_columns : list string :=
  ["timestamp"; "step"; "demand_units"; "capacity_units";
   "processed_units"; "backlog_units"; "utilization";
   "cycle_time_min"; "uph"; "labor_hours_used"; "headcount_used"]%string.

(** [validate_schema]: [set(required_columns) - set(df.columns)], then the
    three dtype checks one after the other, each with its own [raise]. *)
Definition validate_schema (df : Schema) : result unit :=
  let missing :=
    filter (fun c => negb (mem c (columns df))) required_columns in
  match missing with
  | _ :: _ => Raise (MissingRequiredColumns missing)
  | [] =>
      if negb (column_is_numeric "demand_units" df) then
        Raise (MustBeNumeric "demand_units")
      else if negb (column_is_numeric "capacity_units" df) then
        Raise (MustBeNumeric "capacity_units")
      else if negb (column_is_numeric "processed_units" df) then
        Raise (MustBeNumeric "processed_units")
      else Ok tt
  end.

(** ** src/generate_data.py *)

(** [hourly_seasonality] and [day_of_week], the two dicts of the
    configuration read by [generate_hourly_demand]. *)
Record HourlySeasonality : Type := mkHourlySeasonality {
  peak_hours : list Z;
  peak_multiplier : Q;
  off_peak_multiplier : Q
}.

Record DayOfWeek : Type := mkDayOfWeek {
  weekday_multiplier : Q;
  weekend_multiplier : Q
}.

(** One record of the table returned by [generate_hourly_demand]. *)
Module Demand.
Record t : Type := mk {
  timestamp : Z;
  demand_units : Q
}.
End Demand.

(** One record of the table returned by [generate_step_data]. *)
Module Sim.
Record t : Type := mk {
  timestamp : Z;
  step : string;
  demand_units : Q;
  capacity_units : Q;
  processed_units : Q;
  backlog_units : Q;
  utilization : Q;
  cycle_time_min : Q;
  uph : Q;
  labor_hours_used : Q;
  headcount_used : Z
}.
End Sim.

(** [l[i] = v] on an array: nothing else changes. *)
Fixpoint set_item (l : list Q) (i : nat) (v : Q) : list Q :=
  match l, i with
  | [], _ => []
  | _ :: l', O => v :: l'
  | x :: l', S i' => x :: set_item l' i' v
  end.

(** [l[i]] for an index in range. *)
Definition get_item (l : list Q) (i : nat) : Q := nth i l 0.

(** [np.zeros(n)] *)
Definition zeros (n : nat) : list Q := repeat 0 n.

(** [datetime.weekday()] of the day with ordinal [d]: Monday is 0, and
    ordinal 1 is a Monday. *)
Definition weekday (d : Z) : Z := ((d + 6) mod 7)%Z.

(** [range(n)] *)
Definition range (n : Z) : list Z := map Z.of_nat (seq 0 (Z.to_nat n)).

(** The body of the loop [for i in range(len(df))] of [generate_step_data],
    on the two arrays [processed_units] and [backlog_units]. *)
Definition process_hour (step_demand capacity_units : list Q)
    (st : list Q * list Q) (i : nat) : list Q * list Q :=
  let processed_units := fst st in
  let backlog_units := snd st in
  let demand_in := get_item step_demand i in
  let backlog_in :=
    match i with
    | O => 0
    | S i' => get_item backlog_units i'
    end in
  let total_demand := demand_in + backlog_in in
  let processed := pymin total_demand (get_item capacity_units i) in
  let processed_units := set_item processed_units i processed in
  let backlog_units :=
    set_item backlog_units i (pymax 0 (total_demand - processed)) in
  (processed_units, backlog_units).

(** The whole loop, from the two arrays of zeros. *)
Definition process_hours (n : nat) (step_demand capacity_units : list Q)
    : list Q * list Q :=
  fold_left (process_hour step_demand capacity_units) (seq 0 n)
            (zeros n, zeros n).

(** The returned table: row [i] holds element [i] of every column. *)
Definition build_rows (n : nat) (step : string) (uph : Q) (ts : list Z)
    (demand capacity processed backlog util cycle labor : list Q)
    (headcount : list Z) : list Sim.t :=
  map (fun i =>
         Sim.mk (nth i ts 0%Z) step (get_item demand i)
           (get_item capacity i) (get_item processed i) (get_item backlog i)
           (get_item util i) (get_item cycle i) uph (get_item labor i)
           (nth i headcount 0%Z))
      (seq 0 n).

Section Generator.
(** numpy's legacy global generator: its state, the state after seeding,
    one standard normal draw, one uniform draw in [0, 1), and
    [permutation(n)]. *)
Variable rng : Type.
Variable seed_state : Z -> rng.
Variable gauss : rng -> Q * rng.
Variable random_sample : rng -> Q * rng.
Variable permutation : rng -> Z -> list Z * rng.

(** The builtin [hash] on strings of the running interpreter.  CPython
    salts it with a value chosen when the process starts (unless
    PYTHONHASHSEED is set), so it is fixed within a process but differs
    from one process to the next. *)
Variable py_hash : string -> Z.

(** [np.random.seed(s)]: whatever the state was, it is reset. *)
Definition np_random_seed (s : Z) (g : rng) : result rng :=
  if ((0 <=? s) && (s <? 2 ^ 32))%Z then Ok (seed_state s)
  else Raise SeedOutOfRange.

(** [np.random.choice(a, size=size, replace=False)] for an integer [a]. *)
Definition np_random_choice (a size : Z) (g : rng)
    : result (list Z * rng) :=
  if ((a <=? 0) && negb (size =? 0))%Z then Raise EmptyPopulation
  else if (a <? size)%Z then Raise SampleLargerThanPopulation
  else if (size <? 0)%Z then Raise NegativeDimensions
  else
    let (p, g') := permutation g a in
    Ok (firstn (Z.to_nat size) p, g').

(** [np.random.normal(loc, scale)] with a checked scale: one draw. *)
Definition normal_draw (loc scale : Q) (g : rng) : Q * rng :=
  let (z, g') := gauss g in (loc + scale * z, g').

(** [np.random.normal(loc, scales)] over an array of scales: the scales
    are checked first, then one draw per element, in order. *)
Fixpoint normal_draws (loc : Q) (scales : list Q) (g : rng)
    : list Q * rng :=
  match scales with
  | [] => ([], g)
  | s :: scales' =>
      let (x, g1) := normal_draw loc s g in
      let (xs, g2) := normal_draws loc scales' g1 in
      (x :: xs, g2)
  end.

Definition np_random_normal (loc : Q) (scales : list Q) (g : rng)
    : result (list Q * rng) :=
  if existsb (fun s => Qlt_bool s 0) scales then Raise NegativeScale
  else Ok (normal_draws loc scales g).

(** [np.random.random(n)] *)
Fixpoint np_random_random (n : nat) (g : rng) : list Q * rng :=
  match n with
  | O => ([], g)
  | S n' =>
      let (x, g1) := random_sample g in
      let (xs, g2) := np_random_random n' g1 in
      (x :: xs, g2)
  end.

(** [np.random.normal(loc, scale, n)] with a scalar scale. *)
Definition np_random_normal_n (loc scale : Q) (n : nat) (g : rng)
    : result (list Q * rng) :=
  if Qlt_bool scale 0 then Raise NegativeScale
  else Ok (normal_draws loc (repeat scale n) g).

(** The body of [for hour in range(24)]. *)
Definition hour_demand (base_demand_mean dow_multiplier promo_mult : Q)
    (hourly_seasonality : HourlySeasonality) (hour : Z) (g : rng)
    : Q * rng :=
  let hour_mult :=
    if existsb (Z.eqb hour) (peak_hours hourly_seasonality)
    then peak_multiplier hourly_seasonality
    else off_peak_multiplier hourly_seasonality in
  let hourly_demand :=
    (base_demand_mean / 24) * dow_multiplier * hour_mult * promo_mult in
  let (noise, g') := normal_draw 1 (1 # 10) g in
  (pymax 0 (hourly_demand * noise), g').

Fixpoint hours_loop (base_demand_mean dow_multiplier promo_mult : Q)
    (hourly_seasonality : HourlySeasonality) (current_date : Z)
    (hours : list Z) (g : rng) : list Demand.t * rng :=
  match hours with
  | [] => ([], g)
  | hour :: hours' =>
      let (d, g1) :=
        hour_demand base_demand_mean dow_multiplier promo_mult
          hourly_seasonality hour g in
      let (rest, g2) :=
        hours_loop base_demand_mean dow_multiplier promo_mult
          hourly_seasonality current_date hours' g1 in
      (Demand.mk (current_date * 24 + hour)%Z d :: rest, g2)
  end.

(** The loop [for day in range(num_days)]. *)
Fixpoint days_loop (start : Z) (base_demand_mean : Q)
    (hourly_seasonality : HourlySeasonality) (day_of_week : DayOfWeek)
    (promo_dates : list Z) (promo_multiplier : Q) (days : list Z)
    (g : rng) : list Demand.t * rng :=
  match days with
  | [] => ([], g)
  | day :: days' =>
      let current_date := (start + day)%Z in
      let is_weekend := (5 <=? weekday current_date)%Z in
      let is_promo := existsb (Z.eqb current_date) promo_dates in
      let dow_multiplier :=
        if is_weekend then weekend_multiplier day_of_week
        else weekday_multiplier day_of_week in
      let promo_mult := if is_promo then promo_multiplier else 1 in
      let (today, g1) :=
        hours_loop base_demand_mean dow_multiplier promo_mult
          hourly_seasonality current_date (range 24) g in
      let (rest, g2) :=
        days_loop start base_demand_mean hourly_seasonality day_of_week
          promo_dates promo_multiplier days' g1 in
      (today ++ rest, g2)
  end.

(** [generate_hourly_demand]; [start] is the ordinal of the parsed
    [start_date], [g] the state of the global generator at the call. *)
Definition generate_hourly_demand (start num_days : Z)
    (base_demand_mean : Q) (hourly_seasonality : HourlySeasonality)
    (day_of_week : DayOfWeek) (promo_days : Z) (promo_multiplier : Q)
    (random_state : Z) (g : rng) : result (list Demand.t * rng) :=
  g0 <- np_random_seed random_state g ;;
  pc <- np_random_choice num_days promo_days g0 ;;
  let promo_day_indices := fst pc in
  let promo_dates := map (fun d => (start + d)%Z) promo_day_indices in
  Ok (days_loop start base_demand_mean hourly_seasonality day_of_week
        promo_dates promo_multiplier (range num_days) (snd pc)).

(** The seed of a step's stream, the argument of [np.random.seed] in
    [generate_step_data]. *)
Definition step_seed (random_state : Z) (step : string) : Z :=
  (random_state + py_hash step mod 1000)%Z.

(** The demand a step sees. *)
Definition step_demand_of (step : string) (demand : list Q) (g : rng)
    : result (list Q * rng) :=
  if String.eqb step "receive" then Ok (demand, g)
  else
    let lag : Q :=
      if String.eqb step "pick" then 1
      else if String.eqb step "pack" then 2 else 3 in
    let sd := map (fun d => d * (1 - (5 # 100) * lag)) demand in
    dn <- np_random_normal 0 (map (fun d => d * (5 # 100)) sd) g ;;
    Ok (map (fun p => pymax 0 (fst p + snd p)) (combine sd (fst dn)),
        snd dn).

(** [generate_step_data]. *)
Definition generate_step_data (demand_df : list Demand.t) (step : string)
    (step_capacity_base capacity_variability_std downtime_probability
     downtime_severity uph cycle_time_base congestion_multiplier_max : Q)
    (random_state : Z) (g : rng) : result (list Sim.t * rng) :=
  g0 <- np_random_seed (step_seed random_state step) g ;;
  let n := length demand_df in
  sd <- step_demand_of step (map Demand.demand_units demand_df) g0 ;;
  let step_demand := fst sd in
  let base_capacity := Qmean step_demand * step_capacity_base in
  cn <- np_random_normal_n 0 capacity_variability_std n (snd sd) ;;
  let capacity_units := map (fun x => base_capacity * (1 + x)) (fst cn) in
  let dm := np_random_random n (snd cn) in
  let downtime_mask :=
    map (fun x => Qlt_bool x downtime_probability) (fst dm) in
  let capacity_units :=
    map (fun p : Q * bool =>
           if snd p then fst p * (1 - downtime_severity) else fst p)
        (combine capacity_units downtime_mask) in
  let capacity_units := map (fun c => pymax 0 c) capacity_units in
  let pb := process_hours n step_demand capacity_units in
  let processed_units := fst pb in
  let backlog_units := snd pb in
  let utilization :=
    map (fun p => clip (fst p / (snd p + eps)) 0 1)
        (combine processed_units capacity_units) in
  let congestion_factor :=
    map (fun u =>
           clip (1 + (u - (7 # 10)) * (congestion_multiplier_max - 1)
                      / (3 # 10))
                1 congestion_multiplier_max)
        utilization in
  let cycle_time_min :=
    map (fun c => cycle_time_base * c) congestion_factor in
  let labor_hours_used :=
    map (fun p => p / (uph + eps)) processed_units in
  let headcount_used := map ceil labor_hours_used in
  Ok (build_rows n step uph (map Demand.timestamp demand_df) step_demand
        capacity_units processed_units backlog_units utilization
        cycle_time_min labor_hours_used headcount_used,
      snd dm).
End Generator.

(** A small congruential generator standing for numpy's, to run the
    simulator on concrete inputs. *)
Module Lcg.
Definition rng : Type := Z.
Definition next (g : rng) : rng := ((g * 75 + 74) mod 65537)%Z.
Definition seed_state (s : Z) : rng := next s.
Definition gauss (g : rng) : Q * rng := ((g mod 7 - 3)%Z # 2, next g).
Definition random_sample (g : rng) : Q * rng := ((g mod 10)%Z # 10, next g).
Definition permutation (g : rng) (n : Z) : list Z * rng :=
  (map (fun i => ((i + g) mod n)%Z) (range n), next g).
End Lcg.


(** ** Reading the tables *)

(** The record of step [s] that comes last in [before]: for a row at
    position [i] of a table [df], the previous record of its step is
    [previous_of_step (firstn i df) (step r)]. *)
Definition previous_of_step (before : DataFrame) (s : string) : option Row :=
  find (fun r => String.eqb (step r) s) (rev before).

(** The backlog carried into a record: the [backlog_units] of the previous
    record of its step, 0 for the first record of a step. *)
Definition carried_backlog (before : DataFrame) (s : string) : Q :=
  match previous_of_step before s with
  | Some p => backlog_units p
  | None => 0
  end.

(** A record of the hourly-per-step table from the columns that matter in
    the examples. *)
Definition hourly_row (ts : Z) (s : string)
    (demand capacity processed backlog util loss : Q) (headcount : Z) : Row :=
  mkRow ts s (ts / 24)%Z demand capacity processed backlog util 0 0 0
        headcount 0 0 0 loss.

(** The first scenario of the specification: step "receive", one hour,
    demand 100, capacity 80, processed 80, backlog 20. *)
Definition receive_one_hour : DataFrame :=
  [hourly_row 0 "receive" 100 80 80 20 1 0 8].

(** [backlog_in[t]] of the recurrence, read off the [backlog_units] column:
    the previous element, 0 at the first hour. *)
Definition backlog_in_at (backlog_units : list Q) (t : nat) : Q :=
  match t with
  | O => 0
  | S t' => get_item backlog_units t'
  end.

(** The same on the returned table. *)
Definition sim_backlog_in (out : list Sim.t) (t : nat) : Q :=
  match t with
  | O => 0
  | S t' =>
      match nth_error out t' with
      | Some p => Sim.backlog_units p
      | None => 0
      end
  end.

(** What the loop of [generate_step_data] has established once the hours
    below [k] are done: the two arrays have their [n] elements, and every
    hour below [k] satisfies the recurrence. *)
Definition hours_done (step_demand capacity_units : list Q) (n k : nat)
    (st : list Q * list Q) : Prop :=
  length (fst st) = n /\ length (snd st) = n
  /\ forall t, (t < k)%nat ->
       get_item (fst st) t =
         pymin (get_item step_demand t + backlog_in_at (snd st) t)
               (get_item capacity_units t)
       /\ get_item (snd st) t =
            pymax 0 (get_item step_demand t + backlog_in_at (snd st) t
                     - get_item (fst st) t).

(** ** Concrete runs of the generator *)

(** The demand of three hours. *)
Definition three_hours : list Demand.t :=
  [Demand.mk 0 100; Demand.mk 1 50; Demand.mk 2 120].

(** The hash of an interpreter that sends every string to 0, and of one
    that sends every string to 1. *)
Definition hash_of_process_a (s : string) : Z := 0%Z.
Definition hash_of_process_b (s : string) : Z := 1%Z.

(** Step "pick" over [three_hours] with seed 42: capacity base 1.1, capacity
    noise 0.1, downtime probability 0.3 of severity 0.5, 10 units per hour
    and worker, base cycle time 5 minutes, congestion up to 2. *)
Definition run_pick (py_hash : string -> Z) (g : Lcg.rng)
    : result (list Sim.t * Lcg.rng) :=
  generate_step_data Lcg.rng Lcg.seed_state Lcg.gauss Lcg.random_sample
    py_hash three_hours "pick" (11 # 10) (1 # 10) (3 # 10) (1 # 2) 10 5 2
    42 g.

Definition table_of {A : Type} (m : result (list A * Lcg.rng)) : list A :=
  match m with
  | Ok (out, _) => out
  | Raise _ => []
  end.

Definition state_of {A : Type} (m : result (list A * Lcg.rng)) : Lcg.rng :=
  match m with
  | Ok (_, g) => g
  | Raise _ => 0%Z
  end.

(** A demand profile: peak hours 9 to 11 at 1.5, the others at 0.5,
    weekends at 0.7; 2400 units a day from the day of ordinal 738000 on,
    promotion days doubled, seed 42. *)
Definition office_hours : HourlySeasonality :=
  mkHourlySeasonality [9; 10; 11]%Z (3 # 2) (1 # 2).

Definition week : DayOfWeek := mkDayOfWeek 1 (7 # 10).

Definition run_demand (num_days promo_days : Z) (g : Lcg.rng)
    : result (list Demand.t * Lcg.rng) :=
  generate_hourly_demand Lcg.rng Lcg.seed_state Lcg.gauss Lcg.permutation
    738000 num_days 2400 office_hours week promo_days 2 42 g.

(** [backlog_change] as the specification has it: [backlog_units] minus the
    [backlog_units] of the previous record of the step, 0 for the first
    record of a step. *)
Definition backlog_change_of (before : DataFrame) (r : Row) : Q :=
  match previous_of_step before (step r) with
  | Some p => backlog_units r - backlog_units p
  | None => 0
  end.

(** The records of one timestamp, in table order. *)
Definition rows_at (ts : Z) (df : DataFrame) : DataFrame :=
  group_rows timestamp Z.eqb ts df.

(** [r] is the first record of [g] at which column [col] is maximal: the
    records before it are strictly smaller, those after it are not
    larger. *)
Definition first_max (col : Row -> Q) (g : DataFrame) (r : Row) : Prop :=
  exists pre post,
    g = pre ++ r :: post
    /\ (forall x, In x pre -> col x < col r)
    /\ (forall x, In x post -> col x <= col r).

(** Two steps over two hours; "pick" runs at utilization 0.96 in both hours
    and its backlog grows from 10 to 15 in the second. *)
Definition two_steps : DataFrame :=
  [hourly_row 1 "receive" 50 80 70 0 (7 # 8) 0 7;
   hourly_row 0 "pick" 90 80 80 10 (96 # 100) 10 8;
   hourly_row 0 "receive" 100 80 80 20 1 20 8;
   hourly_row 1 "pick" 60 80 70 15 (96 # 100) 0 7].

(** What the previous-record lookups read of a record. *)
Definition step_ts_backlog (r : Row) : string * Z * Q :=
  (step r, timestamp r, backlog_units r).

(** The staffing scenario of the specification: demand 95, nothing carried
    in, 9 workers used; with 10 units per hour and worker and a target of
    0.95 one more worker is recommended. *)
Definition staffing_hour : DataFrame :=
  [hourly_row 0 "receive" 95 100 90 5 (9 # 10) 5 9;
   hourly_row 1 "receive" 20 100 25 0 (1 # 4) 0 9].

Definition receive_uph : uph_table := [("receive"%string, 10)].

(** One quiet hour: utilization 0.5 and nothing lost. *)
Definition calm_hour : DataFrame :=
  [hourly_row 0 "receive" 40 80 40 0 (1 # 2) 0 4].

(** The two hours of [two_steps] followed by a quiet third hour. *)
Definition two_steps_then_calm : DataFrame :=
  two_steps
  ++ [hourly_row 2 "receive" 40 80 40 0 (1 # 2) 0 4;
      hourly_row 2 "pick" 30 80 30 0 (3 # 8) 0 3].

(** One hour with a demand of 1e20 units and 9 workers used, for a step
    at one unit per hour and worker: more labor hours than int64 counts. *)
Definition heavy_hour : DataFrame :=
  [hourly_row 0 "receive" (inject_Z (10 ^ 20)) 100 90 0 (9 # 10) 0 9].

Definition unit_uph : uph_table := [("receive"%string, 1)].

(** The assignment of [compute_utilization] on one record. *)
Definition with_utilization (r : Row) : Row :=
  set_utilization (clip (processed_units r / (capacity_units r + eps)) 0 1) r.

(** The recomputation stage of [compute_capacity_metrics]:
    [df = compute_utilization(df)] then [df = compute_service_level(df)]. *)
Definition recompute (df : DataFrame) : DataFrame :=
  compute_service_level (compute_utilization df).


(** Two steps over two days, for the daily aggregation. *)
Definition two_days : DataFrame :=
  [mkRow 0 "pick" 0 90 80 80 10 (96 # 100) 5 10 8 8 0 90 (8 # 9) 10;
   mkRow 1 "pick" 0 60 80 70 0 (7 # 8) 4 10 7 7 10 70 1 0;
   mkRow 24 "pick" 1 50 80 50 0 (5 # 8) 4 10 5 5 0 50 1 0;
   mkRow 0 "pack" 0 40 50 40 0 (4 # 5) 3 10 4 4 0 40 1 0].

(** The columns an exception names in its message. *)
Definition names (e : exn) (c : string) : bool :=
  match e with
  | MissingRequiredColumns missing => mem c missing
  | MustBeNumeric column => String.eqb c column
  | _ => false
  end.

(** The schema of the raw table as the generator writes it. *)
Definition raw_schema : Schema :=
  [("timestamp", object_); ("step", object_); ("demand_units", float64);
   ("capacity_units", float64); ("processed_units", float64);
   ("backlog_units", float64); ("utilization", float64);
   ("cycle_time_min", float64); ("uph", float64);
   ("labor_hours_used", float64); ("headcount_used", int64)]%string.

(** The same with [demand_units] and [capacity_units] read as text. *)
Definition two_text_columns : Schema :=
  [("timestamp", object_); ("step", object_); ("demand_units", object_);
   ("capacity_units", object_); ("processed_units", float64);
   ("backlog_units", float64); ("utilization", float64);
   ("cycle_time_min", float64); ("uph", float64);
   ("labor_hours_used", float64); ("headcount_used", int64)]%string.

(** A table without [uph] and [headcount_used] whose [demand_units] is
    text. *)
Definition two_missing_one_text : Schema :=
  [("timestamp", object_); ("step", object_); ("demand_units", object_);
   ("capacity_units", float64); ("processed_units", float64);
   ("backlog_units", float64); ("utilization", float64);
   ("cycle_time_min", float64); ("labor_hours_used", float64)]%string.

(** * Further definitions *)

(** ** The simulator after its random draws *)

(** What [generate_step_data] computes once the demand of the step and the
    capacity of every hour are drawn: the loop and the derived columns. *)
Definition sim_table (n : nat) (step : string) (uph : Q) (ts : list Z)
    (step_demand capacity_units : list Q)
    (cycle_time_base congestion_multiplier_max : Q) : list Sim.t :=
  let pb := process_hours n step_demand capacity_units in
  let utilization :=
    map (fun p => clip (fst p / (snd p + eps)) 0 1)
        (combine (fst pb) capacity_units) in
  let congestion_factor :=
    map (fun u =>
           clip (1 + (u - (7 # 10)) * (congestion_multiplier_max - 1)
                      / (3 # 10))
                1 congestion_multiplier_max)
        utilization in
  let labor_hours_used := map (fun p => p / (uph + eps)) (fst pb) in
  build_rows n step uph ts step_demand capacity_units (fst pb) (snd pb)
    utilization (map (fun c => cycle_time_base * c) congestion_factor)
    labor_hours_used (map ceil labor_hours_used).

(** ** Tables that differ in computed columns only *)

(** The columns of a record that [compute_utilization] reads or keeps:
    everything but [utilization]. *)
Definition without_utilization (r : Row) : Row := set_utilization 0 r.

(** The columns of a record that [compute_service_level] reads or keeps:
    everything but the four it assigns. *)
Definition without_service_level (r : Row) : Row :=
  set_throughput_loss_units 0
    (set_service_level_hourly 0 (set_total_demand 0 (set_backlog_in 0 r))).

(** The columns of the raw table in a record of the hourly-per-step
    table. *)
Definition raw_of_row (r : Row) : Sim.t :=
  Sim.mk (timestamp r) (step r) (demand_units r) (capacity_units r)
         (processed_units r) (backlog_units r) (utilization r)
         (cycle_time_min r) (uph r) (labor_hours_used r) (headcount_used r).

(** A record of the raw table as a record of the hourly-per-step table
    whose computed columns are still to be assigned (held at 0), dated by
    the day of its timestamp. *)
Definition row_of_raw (s : Sim.t) : Row :=
  mkRow (Sim.timestamp s) (Sim.step s) (Sim.timestamp s / 24)%Z
        (Sim.demand_units s) (Sim.capacity_units s) (Sim.processed_units s)
        (Sim.backlog_units s) (Sim.utilization s) (Sim.cycle_time_min s)
        (Sim.uph s) (Sim.labor_hours_used s) (Sim.headcount_used s)
        0 0 0 0.

(** ** src/capacity.py, the other two roll-ups *)

(** One record of the hourly table of [aggregate_hourly_metrics]. *)
Module Hourly.
Record t : Type := mk {
  timestamp : Z;
  step : string;
  demand_units : Q;
  capacity_units : Q;
  processed_units : Q;
  backlog_units : Q;
  utilization : Q;
  cycle_time_min : Q;
  service_level_hourly : Q;
  throughput_loss_units : Q;
  labor_hours_used : Q;
  headcount_used : Z
}.
End Hourly.

(** One record of the site table of [aggregate_site_daily_metrics]. *)
Module Site.
Record t : Type := mk {
  date : Z;
  demand_units : Q;
  capacity_units : Q;
  processed_units : Q;
  backlog_units : Q;
  utilization : Q;
  cycle_time_min : Q;
  service_level_hourly : Q;
  throughput_loss_units : Q;
  labor_hours_used : Q;
  headcount_used : Z
}.
End Site.

(** The key of [groupby(['timestamp', 'step'])] is compared as the key of
    [groupby(['date', 'step'])] is: the number first, then the step. *)
Definition timestamp_step_eqb : Z * string -> Z * string -> bool :=
  date_step_eqb.
Definition timestamp_step_leb : Z * string -> Z * string -> bool :=
  date_step_leb.

(** [aggregate_hourly_metrics]:
    [df.groupby(['timestamp', 'step']).agg({...}).reset_index()]. *)
Definition aggregate_hourly_metrics (df : DataFrame) : list Hourly.t :=
  map (fun kg : (Z * string) * DataFrame =>
         let g := snd kg in
         Hourly.mk (fst (fst kg)) (snd (fst kg))
           (Qsum (map demand_units g))
           (Qsum (map capacity_units g))
           (Qsum (map processed_units g))
           (Qmean (map backlog_units g))
           (Qmean (map utilization g))
           (Qmean (map cycle_time_min g))
           (Qmean (map service_level_hourly g))
           (Qsum (map throughput_loss_units g))
           (Qsum (map labor_hours_used g))
           (Zsum (map headcount_used g)))
      (groupby (fun r => (timestamp r, step r)) timestamp_step_eqb
         timestamp_step_leb df).

(** [aggregate_site_daily_metrics]:
    [df.groupby('date').agg({...}).reset_index()]. *)
Definition aggregate_site_daily_metrics (df : DataFrame) : list Site.t :=
  map (fun kg : Z * DataFrame =>
         let g := snd kg in
         Site.mk (fst kg)
           (Qsum (map demand_units g))
           (Qsum (map capacity_units g))
           (Qsum (map processed_units g))
           (Qmean (map backlog_units g))
           (Qmean (map utilization g))
           (Qmean (map cycle_time_min g))
           (Qmean (map service_level_hourly g))
           (Qsum (map throughput_loss_units g))
           (Qsum (map labor_hours_used g))
           (Zsum (map headcount_used g)))
      (groupby date Z.eqb Z.leb df).

(** ** Summaries: grouping by step, counting, the largest records *)

From Stdlib Require Import Permutation.

(** [groupby('step')] on any of the tables: the steps in increasing order,
    each with its records in table order. *)
Section GroupByStep.
Context {A : Type}.
Variable step_of : A -> string.

Definition step_keys (l : list A) : list string :=
  stable_sort String.leb (distinct String.eqb (map step_of l)).

Definition step_group (s : string) (l : list A) : list A :=
  filter (fun a => String.eqb (step_of a) s) l.

Definition groupby_step (l : list A) : list (string * list A) :=
  map (fun s => (s, step_group s l)) (step_keys l).
End GroupByStep.

(** A dict with step names for keys. *)
Fixpoint lookup {V : Type} (s : string) (d : list (string * V)) : option V :=
  match d with
  | [] => None
  | (k, v) :: d' => if String.eqb s k then Some v else lookup s d'
  end.

(** [Series.value_counts()]: how often each value occurs, the most
    frequent first (values of equal frequency in the order in which they
    first occur). *)
Definition value_counts (l : list string) : list (string * Z) :=
  stable_sort (fun a b : string * Z => (snd b <=? snd a)%Z)
    (map (fun s => (s, Z.of_nat (length (filter (String.eqb s) l))))
       (distinct String.eqb l)).

(** [df.nlargest(n, col)]: the [n] records that come first when the table
    is ordered by decreasing [col], records of equal [col] in table order.
    [geb a b] tells that [col] of [a] is at least [col] of [b]. *)
Definition nlargest {A : Type} (n : nat) (geb : A -> A -> bool)
    (df : list A) : list A :=
  firstn n (stable_sort geb df).

(** *** src/bottleneck.py, [summarize_bottlenecks] *)

(** One record of [top_10_worst_hours]. *)
Record WorstHour : Type := mkWorstHour {
  w_timestamp : Z;
  w_step : string;
  w_utilization : Q;
  w_throughput_loss_units : Q;
  w_backlog_units : Q
}.

Record BottleneckSummary : Type := mkBottleneckSummary {
  total_bottleneck_hours : Z;
  bottleneck_hours_by_step : list (string * Z);
  top_10_worst_hours : list WorstHour;
  bottleneck_step_distribution : list (string * Z)
}.

Definition loss_geb (a b : BottleneckRow) : bool :=
  Qle_bool (throughput_loss_units (b_row b)) (throughput_loss_units (b_row a)).

Definition summarize_bottlenecks (df : list BottleneckRow)
    : BottleneckSummary :=
  let flagged := filter is_bottleneck df in
  mkBottleneckSummary
    (Z.of_nat (length flagged))
    (map (fun kg : string * list BottleneckRow =>
            (fst kg, Z.of_nat (length (snd kg))))
         (groupby_step (fun b => step (b_row b)) flagged))
    (map (fun b =>
            mkWorstHour (timestamp (b_row b)) (step (b_row b))
              (utilization (b_row b)) (throughput_loss_units (b_row b))
              (backlog_units (b_row b)))
         (nlargest 10 loss_geb df))
    (value_counts (map (fun b => step (b_row b)) flagged)).

(** *** src/recommendations.py, [summarize_staffing] *)

(** One record of [top_20_gaps]. *)
Record TopGap : Type := mkTopGap {
  t_timestamp : Z;
  t_step : string;
  t_headcount_used : Z;
  t_recommended_headcount : Z;
  t_headcount_gap : Z;
  t_labor_cost_impact : Q;
  t_utilization : Q
}.

Record StaffingSummary : Type := mkStaffingSummary {
  total_headcount_gap_hours : Z;
  total_positive_gap_hours : Z;
  total_cost_impact : Q;
  headcount_gap_by_step : list (string * Z);
  top_20_gaps : list TopGap;
  avg_gap_by_step : list (string * Q)
}.

Definition gap_geb (a b : StaffingRow) : bool :=
  (headcount_gap b <=? headcount_gap a)%Z.

Definition summarize_staffing (df : list StaffingRow) : StaffingSummary :=
  mkStaffingSummary
    (Zsum (map headcount_gap df))
    (Zsum (map headcount_gap
             (filter (fun s => (0 <? headcount_gap s)%Z) df)))
    (Qsum (map labor_cost_impact df))
    (map (fun kg : string * list StaffingRow =>
            (fst kg, Zsum (map headcount_gap (snd kg))))
         (groupby_step (fun s => step (s_row s)) df))
    (map (fun s =>
            mkTopGap (timestamp (s_row s)) (step (s_row s))
              (headcount_used (s_row s)) (recommended_headcount s)
              (headcount_gap s) (labor_cost_impact s)
              (utilization (s_row s)))
         (nlargest 20 gap_geb df))
    (map (fun kg : string * list StaffingRow =>
            (fst kg,
             inject_Z (Zsum (map headcount_gap (snd kg)))
             / inject_Z (Z.of_nat (length (snd kg)))))
         (groupby_step (fun s => step (s_row s)) df)).

(** The number of flagged records of a step. *)
Definition flagged_hours (s : string) (df : list BottleneckRow) : Z :=
  Z.of_nat
    (length (filter (fun b => is_bottleneck b && String.eqb (step (b_row b)) s)
               df)).

(** The staffing table of the scenario. *)
Definition staffing_table : list StaffingRow :=
  match compute_staffing_recommendations staffing_hour (95 # 100)
          receive_uph (PyFloat 20) with
  | Ok out => out
  | Raise _ => []
  end.

(** The bottleneck table of [two_steps] at the threshold 0.95. *)
Definition bottleneck_table : list BottleneckRow :=
  match detect_bottlenecks two_steps (95 # 100) with
  | Ok out => out
  | Raise _ => []
  end.

(** ** src/kpis.py, [compute_kpis] *)

(** [Series.quantile(q)] with linear interpolation, on a series that is not
    empty: the value at position [(n - 1) * q] of the sorted values, taken
    between its two neighbours when the position is not whole. *)
Definition quantile (q : Q) (l : list Q) : Q :=
  let v := stable_sort Qle_bool l in
  let pos := inject_Z (Z.of_nat (length v - 1)) * q in
  let lo := Z.to_nat (Qfloor pos) in
  let frac := pos - inject_Z (Qfloor pos) in
  if Qeq_bool frac 0 then nth lo v 0
  else nth lo v 0 + (nth (S lo) v 0 - nth lo v 0) * frac.

(** The tables [load_all_data] found; a file that does not exist leaves no
    entry in the dict. *)
Record KpiData : Type := mkKpiData {
  d_site_daily : option (list Site.t);
  d_step_daily : option (list Daily.t);
  d_bottlenecks : option (list BottleneckRow);
  d_staffing : option (list StaffingRow)
}.

(** The dict [compute_kpis] returns; [None] for a key it did not set. *)
Record Kpis : Type := mkKpis {
  avg_utilization_by_step : option (list (string * Q));
  total_throughput_processed : option Q;
  total_throughput_loss : option Q;
  avg_cycle_time_by_step : option (list (string * Q));
  p90_cycle_time_by_step : option (list (string * Q));
  bottleneck_share_by_step : option (list (string * Q));
  extra_headcount_hours_needed : option Z;
  estimated_cost_to_hit_target : option Q;
  overall_avg_utilization : option Q;
  overall_avg_service_level : option Q;
  total_days : option Z
}.

(** [df.groupby('step')[col].agg(f).to_dict()] on the daily-per-step
    table. *)
Definition by_step (agg : list Q -> Q) (col : Daily.t -> Q)
    (df : list Daily.t) : list (string * Q) :=
  map (fun kg : string * list Daily.t => (fst kg, agg (map col (snd kg))))
      (groupby_step Daily.step df).

(** The bottleneck share of every step, in percent. *)
Definition bottleneck_share (df : list BottleneckRow) : list (string * Q) :=
  let bottleneck_steps :=
    value_counts (map (fun b => step (b_row b)) (filter is_bottleneck df)) in
  let total_bottlenecks := Zsum (map snd bottleneck_steps) in
  if (0 <? total_bottlenecks)%Z then
    map (fun sc : string * Z =>
           (fst sc, inject_Z (snd sc) / inject_Z total_bottlenecks * 100))
        bottleneck_steps
  else [].

Definition compute_kpis (data : KpiData) : Kpis :=
  let positive_gaps :=
    option_map (filter (fun s => (0 <? headcount_gap s)%Z))
               (d_staffing data) in
  mkKpis
    (option_map (by_step Qmean Daily.utilization) (d_step_daily data))
    (option_map (fun df => Qsum (map Daily.processed_units df))
                (d_step_daily data))
    (option_map (fun df => Qsum (map Daily.throughput_loss_units df))
                (d_step_daily data))
    (option_map (by_step Qmean Daily.cycle_time_min) (d_step_daily data))
    (option_map (by_step (quantile (90 # 100)) Daily.cycle_time_min)
                (d_step_daily data))
    (option_map bottleneck_share (d_bottlenecks data))
    (option_map (fun df => Zsum (map headcount_gap df)) positive_gaps)
    (option_map (fun df => Qsum (map labor_cost_impact df)) positive_gaps)
    (option_map (fun df => Qmean (map Site.utilization df))
                (d_site_daily data))
    (option_map (fun df => Qmean (map Site.service_level_hourly df))
                (d_site_daily data))
    (option_map (fun df => Z.of_nat (length df)) (d_site_daily data)).

(** ** src/generate_data.py, the whole dataset *)

(** The configuration [generate_fc_data] reads, with the sections of
    config/config.yaml; the three tables keyed by step are dicts, and a
    step of [steps] may be missing from any of them. *)
Module Config.
Record demand_t : Type := mk_demand {
  base_demand_mean : Q;
  hourly_seasonality : HourlySeasonality;
  day_of_week : DayOfWeek;
  promo_days : Z;
  promo_multiplier : Q
}.

Record capacity_t : Type := mk_capacity {
  step_capacity_base : uph_table;
  variability_std : Q;
  downtime_probability : Q;
  downtime_severity : Q
}.

Record cycle_time_t : Type := mk_cycle_time {
  base_min : uph_table;
  congestion_multiplier_max : Q
}.

Record t : Type := mk {
  start_date : Z;
  num_days : Z;
  random_state : Z;
  steps : list string;
  demand : demand_t;
  capacity : capacity_t;
  uph_by_step : uph_table;
  cycle_time : cycle_time_t
}.
End Config.

(** What [generate_fc_data] can raise: what the two generators raise, the
    [KeyError] of a step missing from a dict, and the [ValueError] of
    [pd.concat] on an empty list. *)
Inductive fc_exn : Type :=
| Generator (e : exn)
| KeyError (key : string)
| NoObjectsToConcatenate.

Inductive outcome (A : Type) : Type :=
| Returns (a : A)
| Raises (e : fc_exn).
Arguments Returns {A} a.
Arguments Raises {A} e.

(** The order of [sort_values(['timestamp', 'step'])]. *)
Definition ts_step_leb (a b : Sim.t) : bool :=
  match (Sim.timestamp a ?= Sim.timestamp b)%Z with
  | Lt => true
  | Eq =>
      match String.compare (Sim.step a) (Sim.step b) with
      | Gt => false
      | _ => true
      end
  | Gt => false
  end.

Section Dataset.
Variable rng : Type.
Variable seed_state : Z -> rng.
Variable gauss : rng -> Q * rng.
Variable random_sample : rng -> Q * rng.
Variable permutation : rng -> Z -> list Z * rng.
Variable py_hash : string -> Z.

(** The loop [for step in steps]: the three lookups of the keyword
    arguments, then the call, then [all_data.append]. *)
Fixpoint steps_loop (config : Config.t) (demand_df : list Demand.t)
    (steps : list string) (g : rng) : outcome (list (list Sim.t) * rng) :=
  match steps with
  | [] => Returns ([], g)
  | step :: steps' =>
      match dict_get step
              (Config.step_capacity_base (Config.capacity config)) with
      | None => Raises (KeyError step)
      | Some step_capacity_base =>
      match dict_get step (Config.uph_by_step config) with
      | None => Raises (KeyError step)
      | Some uph =>
      match dict_get step (Config.base_min (Config.cycle_time config)) with
      | None => Raises (KeyError step)
      | Some cycle_time_base =>
      match generate_step_data rng seed_state gauss random_sample py_hash
              demand_df step step_capacity_base
              (Config.variability_std (Config.capacity config))
              (Config.downtime_probability (Config.capacity config))
              (Config.downtime_severity (Config.capacity config))
              uph cycle_time_base
              (Config.congestion_multiplier_max (Config.cycle_time config))
              (Config.random_state config) g with
      | Raise e => Raises (Generator e)
      | Ok (step_df, g1) =>
          match steps_loop config demand_df steps' g1 with
          | Raises e => Raises e
          | Returns (all_data, g2) => Returns (step_df :: all_data, g2)
          end
      end end end end
  end.

(** [generate_fc_data] on a given configuration; [g] is the state of the
    global generator at the call.  The progress lines it prints are left
    out. *)
Definition generate_fc_data (config : Config.t) (g : rng)
    : outcome (list Sim.t * rng) :=
  match generate_hourly_demand rng seed_state gauss permutation
          (Config.start_date config) (Config.num_days config)
          (Config.base_demand_mean (Config.demand config))
          (Config.hourly_seasonality (Config.demand config))
          (Config.day_of_week (Config.demand config))
          (Config.promo_days (Config.demand config))
          (Config.promo_multiplier (Config.demand config))
          (Config.random_state config) g with
  | Raise e => Raises (Generator e)
  | Ok (demand_df, g0) =>
      match steps_loop config demand_df (Config.steps config) g0 with
      | Raises e => Raises e
      | Returns (all_data, g1) =>
          match all_data with
          | [] => Raises NoObjectsToConcatenate
          | _ :: _ => Returns (stable_sort ts_step_leb (concat all_data), g1)
          end
      end
  end.
End Dataset.

(** A configuration of two steps over one day on the stand-in generator. *)
Definition two_step_config : Config.t :=
  Config.mk 738000 1 42 ["receive"; "pick"]%string
    (Config.mk_demand 2400 office_hours week 0 2)
    (Config.mk_capacity [("receive"%string, 12 # 10); ("pick"%string, 11 # 10)]
       (1 # 10) (3 # 10) (1 # 2))
    [("receive"%string, 12); ("pick"%string, 10)]
    (Config.mk_cycle_time [("receive"%string, 4); ("pick"%string, 5)] 2).

Definition run_fc (config : Config.t) (g : Lcg.rng)
    : outcome (list Sim.t * Lcg.rng) :=
  generate_fc_data Lcg.rng Lcg.seed_state Lcg.gauss Lcg.random_sample
    Lcg.permutation hash_of_process_a config g.

Definition dataset_of (m : outcome (list Sim.t * Lcg.rng)) : list Sim.t :=
  match m with
  | Returns (out, _) => out
  | Raises _ => []
  end.

Definition returned {A : Type} (m : outcome A) : bool :=
  match m with Returns _ => true | Raises _ => false end.

Definition generator_of (m : outcome (list Sim.t * Lcg.rng)) : Lcg.rng :=
  match m with
  | Returns (_, g) => g
  | Raises _ => 0%Z
  end.

(** The same configuration with no step listed. *)
Definition no_step_config : Config.t :=
  Config.mk 738000 1 42 []
    (Config.demand two_step_config) (Config.capacity two_step_config)
    (Config.uph_by_step two_step_config) (Config.cycle_time two_step_config).
(** * Properties *)

(** ** The numeric helpers *)

Lemma Qle_bool_false (a b : Q) : Qle_bool a b = false -> b < a.
Proof.
  intros H. apply Qnot_le_lt. intros Hle.
  apply Qle_bool_iff in Hle. congruence.
Qed.

Lemma Qlt_bool_iff (a b : Q) : Qlt_bool a b = true <-> a < b.
Proof.
  unfold Qlt_bool. split.
  - intros H. apply negb_true_iff in H. now apply Qle_bool_false.
  - intros H. apply negb_true_iff.
    destruct (Qle_bool b a) eqn:E; [|reflexivity].
    apply Qle_bool_iff in E. exfalso. exact (Qlt_not_le _ _ H E).
Qed.

Lemma Qlt_bool_false (a b : Q) : Qlt_bool a b = false <-> b <= a.
Proof.
  unfold Qlt_bool. rewrite negb_false_iff. apply Qle_bool_iff.
Qed.

Lemma pymin_le_l (a b : Q) : pymin a b <= a.
Proof.
  unfold pymin. destruct (Qle_bool a b) eqn:E.
  - apply Qle_refl.
  - apply Qlt_le_weak. now apply Qle_bool_false.
Qed.

Lemma pymin_le_r (a b : Q) : pymin a b <= b.
Proof.
  unfold pymin. destruct (Qle_bool a b) eqn:E.
  - now apply Qle_bool_iff.
  - apply Qle_refl.
Qed.

Lemma pymax_ge_l (a b : Q) : a <= pymax a b.
Proof.
  unfold pymax. destruct (Qle_bool b a) eqn:E.
  - apply Qle_refl.
  - apply Qlt_le_weak. now apply Qle_bool_false.
Qed.

Lemma pymax_ge_r (a b : Q) : b <= pymax a b.
Proof.
  unfold pymax. destruct (Qle_bool b a) eqn:E.
  - now apply Qle_bool_iff.
  - apply Qle_refl.
Qed.

(** ** The stable sort *)

Section SortFacts.
Context {A : Type}.
Variable leb : A -> A -> bool.
Hypothesis leb_total : forall a b, leb a b = false -> leb b a = true.

Lemma insert_sorted_head (x : A) (l : list A) :
  exists y l', insert_sorted leb x l = y :: l'
               /\ (y = x \/ exists t, l = y :: t).
Proof.
  destruct l as [|z l]; simpl.
  - exists x, []. auto.
  - destruct (leb x z).
    + exists x, (z :: l). auto.
    + exists z, (insert_sorted leb x l). split; [reflexivity|].
      right. now exists l.
Qed.

Lemma insert_sorted_locally_sorted (x : A) (l : list A) :
  locally_sorted leb l -> locally_sorted leb (insert_sorted leb x l).
Proof.
  induction l as [|y l IH]; intros Hs.
  - exact I.
  - simpl. destruct (leb x y) eqn:E.
    + split; assumption.
    + assert (Hl : locally_sorted leb l).
      { destruct l; [exact I | apply Hs]. }
      specialize (IH Hl).
      destruct (insert_sorted_head x l) as (z & l' & Heq & Hz).
      rewrite Heq in *. split; [|exact IH].
      destruct Hz as [-> | [t ->]].
      * now apply leb_total.
      * apply Hs.
Qed.

Lemma stable_sort_locally_sorted (l : list A) :
  locally_sorted leb (stable_sort leb l).
Proof.
  induction l as [|x l IH]; [exact I|].
  simpl. now apply insert_sorted_locally_sorted.
Qed.

(** Sorting a sorted table leaves it as it is. *)
Lemma stable_sort_sorted (l : list A) :
  locally_sorted leb l -> stable_sort leb l = l.
Proof.
  induction l as [|x l IH]; intros Hs; [reflexivity|].
  simpl. destruct l as [|y l]; [reflexivity|].
  destruct Hs as [Hxy Hs]. rewrite (IH Hs). simpl. now rewrite Hxy.
Qed.

Lemma insert_sorted_In (x y : A) (l : list A) :
  In y (insert_sorted leb x l) <-> y = x \/ In y l.
Proof.
  induction l as [|z l IH]; simpl.
  - intuition.
  - destruct (leb x z); simpl; [intuition|].
    rewrite IH. intuition.
Qed.

Lemma stable_sort_In (y : A) (l : list A) :
  In y (stable_sort leb l) <-> In y l.
Proof.
  induction l as [|x l IH]; simpl; [tauto|].
  rewrite insert_sorted_In, IH. intuition.
Qed.

Lemma insert_sorted_length (x : A) (l : list A) :
  length (insert_sorted leb x l) = S (length l).
Proof.
  induction l as [|z l IH]; simpl; [reflexivity|].
  destruct (leb x z); simpl; [reflexivity | now rewrite IH].
Qed.

Lemma stable_sort_length (l : list A) :
  length (stable_sort leb l) = length l.
Proof.
  induction l as [|x l IH]; simpl; [reflexivity|].
  now rewrite insert_sorted_length, IH.
Qed.

Lemma insert_sorted_NoDup (x : A) (l : list A) :
  ~ In x l -> NoDup l -> NoDup (insert_sorted leb x l).
Proof.
  induction l as [|z l IH]; simpl; intros Hin Hnd.
  - constructor; [tauto | constructor].
  - destruct (leb x z).
    + constructor; [simpl; tauto | assumption].
    + inversion Hnd; subst. constructor.
      * rewrite insert_sorted_In. intros [-> | H]; tauto.
      * apply IH; tauto.
Qed.

Lemma stable_sort_NoDup (l : list A) :
  NoDup l -> NoDup (stable_sort leb l).
Proof.
  induction l as [|x l IH]; simpl; intros Hnd; [constructor|].
  inversion Hnd; subst. apply insert_sorted_NoDup; [|auto].
  now rewrite stable_sort_In.
Qed.
End SortFacts.

(** ** [groupby('step').shift(1)] *)

Lemma find_app_last {A : Type} (f : A -> bool) (l : list A) (a : A) :
  find f (l ++ [a]) =
  match find f l with
  | Some x => Some x
  | None => if f a then Some a else None
  end.
Proof.
  induction l as [|x l IH]; simpl; [reflexivity|].
  destruct (f x); [reflexivity | exact IH].
Qed.

Lemma previous_of_step_cons (a : Row) (l : DataFrame) (s : string) :
  previous_of_step (a :: l) s =
  match previous_of_step l s with
  | Some p => Some p
  | None => if String.eqb (step a) s then Some a else None
  end.
Proof.
  unfold previous_of_step. simpl rev.
  exact (find_app_last (fun r => String.eqb (step r) s) (rev l) a).
Qed.

(** The scan gives every row the value of the previous row of its step. *)
Lemma groupby_step_shift_from_nth (col : Row -> Q) (df : DataFrame) :
  forall (seen : last_seen) (i : nat) (r : Row),
    nth_error df i = Some r ->
    nth_error (groupby_step_shift_from col seen df) i =
    Some match previous_of_step (firstn i df) (step r) with
         | Some p => Some (col p)
         | None => lookup_step (step r) seen
         end.
Proof.
  induction df as [|a df IH]; intros seen i r Hi.
  - destruct i; discriminate.
  - destruct i as [|i]; simpl in Hi.
    + injection Hi as ->. reflexivity.
    + simpl groupby_step_shift_from. simpl nth_error.
      rewrite (IH _ _ _ Hi). f_equal.
      simpl firstn. rewrite previous_of_step_cons.
      destruct (previous_of_step (firstn i df) (step r)); [reflexivity|].
      simpl. rewrite String.eqb_sym. now destruct (String.eqb (step a) (step r)).
Qed.

Lemma groupby_step_shift_nth (col : Row -> Q) (df : DataFrame) (i : nat)
    (r : Row) :
  nth_error df i = Some r ->
  nth_error (groupby_step_shift col df) i =
  Some (option_map col (previous_of_step (firstn i df) (step r))).
Proof.
  intros Hi. unfold groupby_step_shift.
  rewrite (groupby_step_shift_from_nth col df [] i r Hi).
  now destruct (previous_of_step (firstn i df) (step r)).
Qed.

Lemma groupby_step_shift_from_length (col : Row -> Q) (df : DataFrame) :
  forall seen, length (groupby_step_shift_from col seen df) = length df.
Proof.
  induction df as [|a df IH]; intros seen; simpl; [reflexivity|].
  now rewrite IH.
Qed.

Lemma nth_error_combine {A B : Type} (l : list A) (l' : list B) :
  forall i a b,
    nth_error l i = Some a -> nth_error l' i = Some b ->
    nth_error (combine l l') i = Some (a, b).
Proof.
  revert l'. induction l as [|x l IH]; intros l' i a b Ha Hb.
  - destruct i; discriminate.
  - destruct l' as [|y l']; [destruct i; discriminate|].
    destruct i as [|i]; simpl in *.
    + congruence.
    + now apply IH.
Qed.

(** A column computed from the table and the shifted backlog, read at one
    position. *)
Lemma nth_error_with_shift {B : Type} (f : Row * Q -> B) (df : DataFrame)
    (i : nat) (r : Row) :
  nth_error df i = Some r ->
  nth_error
    (map f (combine df (map (fillna 0) (groupby_step_shift backlog_units df))))
    i
  = Some (f (r, carried_backlog (firstn i df) (step r))).
Proof.
  intros Hi. rewrite nth_error_map.
  rewrite (nth_error_combine _ _ i r
             (carried_backlog (firstn i df) (step r)) Hi).
  - reflexivity.
  - rewrite nth_error_map, (groupby_step_shift_nth _ _ _ _ Hi).
    unfold carried_backlog.
    now destruct (previous_of_step (firstn i df) (step r)).
Qed.

(** ** The order of [sort_values(['step', 'timestamp'])] *)

Lemma string_compare_refl (s : string) : String.compare s s = Eq.
Proof.
  pose proof (String.compare_antisym s s) as H.
  destruct (String.compare s s); simpl in H; congruence.
Qed.

Lemma step_ts_leb_total (a b : Row) :
  step_ts_leb a b = false -> step_ts_leb b a = true.
Proof.
  unfold step_ts_leb. rewrite (String.compare_antisym (step b) (step a)).
  destruct (String.compare (step a) (step b)); simpl; try congruence.
  intros H. apply Z.leb_gt in H. apply Z.leb_le. lia.
Qed.

(** ** [compute_service_level], record by record *)

Lemma compute_service_level_nth (df : DataFrame) (i : nat) (r : Row) :
  nth_error (sort_by_step_timestamp df) i = Some r ->
  nth_error (compute_service_level df) i =
  Some (with_service_level
          (r, carried_backlog (firstn i (sort_by_step_timestamp df)) (step r))).
Proof. intros Hi. unfold compute_service_level. now apply nth_error_with_shift. Qed.

(** C1 (divergence of the code): on the one-record table of the first
    scenario (demand 100, processed 80, no carried backlog)
    [compute_service_level] sets [service_level_hourly] to 80, not to
    80 / (100 + 1e-6) clamped to [0, 1]: the clamp is applied to the
    denominator [total_demand + 1e-6], which it turns into 1, and the
    quotient is left unclamped, above 1. *)
Theorem C1_service_level_clamps_the_denominator :
  exists r : Row,
    compute_service_level receive_one_hour = [r]
    /\ backlog_in r = 0
    /\ total_demand r == 100
    /\ service_level_hourly r == 80
    /\ 1 < service_level_hourly r
    /\ ~ service_level_hourly r
         == clip (processed_units r / (total_demand r + eps)) 0 1.
Proof.
  eexists. split; [reflexivity|]. vm_compute.
  repeat split; try reflexivity; discriminate.
Qed.

(** ** The hour-by-hour loop of [generate_step_data] *)

Lemma set_item_length (l : list Q) :
  forall i v, length (set_item l i v) = length l.
Proof.
  induction l as [|x l IH]; intros [|i] v; simpl; auto.
Qed.

Lemma get_set_item_same (l : list Q) :
  forall i v, (i < length l)%nat -> get_item (set_item l i v) i = v.
Proof.
  unfold get_item.
  induction l as [|x l IH]; intros [|i] v Hi; simpl in *; try lia.
  - reflexivity.
  - apply IH. lia.
Qed.

Lemma get_set_item_other (l : list Q) :
  forall i j v, i <> j -> get_item (set_item l i v) j = get_item l j.
Proof.
  unfold get_item.
  induction l as [|x l IH]; intros [|i] [|j] v Hij; simpl; try reflexivity.
  - congruence.
  - apply IH. congruence.
Qed.

Section Recurrence.
Variables step_demand capacity_units : list Q.
Variable n : nat.

Local Abbreviation hours_done := (hours_done step_demand capacity_units n).

Lemma process_hour_step (k : nat) (st : list Q * list Q) :
  (k < n)%nat -> hours_done k st ->
  hours_done (S k) (process_hour step_demand capacity_units st k).
Proof.
  intros Hk (Hlp & Hlb & Hrec). destruct st as [p b]. simpl in *.
  assert (Hbin : forall t, (t <= k)%nat ->
            backlog_in_at
              (set_item b k
                 (pymax 0 (get_item step_demand k + backlog_in_at b k
                           - pymin (get_item step_demand k
                                    + backlog_in_at b k)
                                   (get_item capacity_units k)))) t
            = backlog_in_at b t).
  { intros [|t] Ht; simpl; [reflexivity|].
    apply get_set_item_other. lia. }
  unfold hours_done, process_hour. simpl.
  fold (backlog_in_at b k).
  rewrite !set_item_length. repeat split; try assumption.
  - destruct (Nat.eq_dec t k) as [-> | Hne].
    + rewrite get_set_item_same by lia. now rewrite Hbin by lia.
    + rewrite get_set_item_other by congruence.
      rewrite Hbin by lia. apply Hrec. lia.
  - destruct (Nat.eq_dec t k) as [-> | Hne].
    + rewrite !get_set_item_same by lia. now rewrite Hbin by lia.
    + rewrite !get_set_item_other by congruence.
      rewrite Hbin by lia. apply Hrec. lia.
Qed.

Lemma process_hours_from (m : nat) :
  forall k st, (k + m <= n)%nat -> hours_done k st ->
    hours_done (k + m)
      (fold_left (process_hour step_demand capacity_units) (seq k m) st).
Proof.
  induction m as [|m IH]; intros k st Hkm Hdone; simpl.
  - now rewrite Nat.add_0_r.
  - replace (k + S m)%nat with (S k + m)%nat by lia.
    apply IH; [lia|]. apply process_hour_step; [lia | assumption].
Qed.

(** Every hour of the finished arrays satisfies the recurrence. *)
Lemma process_hours_spec :
  hours_done n (process_hours n step_demand capacity_units).
Proof.
  unfold process_hours.
  apply (process_hours_from n 0 (zeros n, zeros n)); [lia|].
  unfold hours_done, zeros. simpl. rewrite repeat_length.
  repeat split; intros; lia.
Qed.
End Recurrence.

(** The two scenarios of the specification for step "receive": demand 100
    against capacity 80 processes 80 and leaves 20; the next hour, demand 50
    and the 20 carried in make 70, all processed, nothing left.  The guard
    in the denominator keeps the first utilization just below 1; the second
    is 0.875 to three decimals. *)
Example process_hours_scenario :
  process_hours 2 [100; 50] [80; 80] = ([80; 70], [20; 0])
  /\ clip (80 / (80 + eps)) 0 1 < 1
  /\ Qceiling (clip (70 / (80 + eps)) 0 1 * 1000) = 875%Z.
Proof. vm_compute. repeat split. Qed.

Lemma nth_error_seq_0 (n t i : nat) :
  nth_error (seq 0 n) t = Some i -> i = t /\ (t < n)%nat.
Proof.
  intros H.
  assert (Ht : (t < n)%nat).
  { rewrite <- (length_seq n 0). apply nth_error_Some. congruence. }
  split; [|exact Ht].
  apply (nth_error_nth _ _ 0%nat) in H. now rewrite seq_nth in H.
Qed.

Lemma nth_error_seq_lt (n t : nat) :
  (t < n)%nat -> nth_error (seq 0 n) t = Some t.
Proof.
  intros Ht. destruct (nth_error (seq 0 n) t) as [i|] eqn:E.
  - now destruct (nth_error_seq_0 _ _ _ E) as [-> _].
  - apply nth_error_None in E. rewrite length_seq in E. lia.
Qed.

Section BuildRows.
Variables (n : nat) (step : string) (uph : Q) (ts : list Z).
Variables demand capacity processed backlog util cycle labor : list Q.
Variable headcount : list Z.

Local Abbreviation rows :=
  (build_rows n step uph ts demand capacity processed backlog util cycle
     labor headcount).
Local Abbreviation row_at t :=
  (Sim.mk (nth t ts 0%Z) step (get_item demand t) (get_item capacity t)
     (get_item processed t) (get_item backlog t) (get_item util t)
     (get_item cycle t) uph (get_item labor t) (nth t headcount 0%Z)).

Lemma build_rows_length : length rows = n.
Proof. unfold build_rows. now rewrite length_map, length_seq. Qed.

Lemma build_rows_nth (t : nat) (r : Sim.t) :
  nth_error rows t = Some r -> (t < n)%nat /\ r = row_at t.
Proof.
  unfold build_rows. rewrite nth_error_map.
  destruct (nth_error (seq 0 n) t) as [i|] eqn:E; [|discriminate].
  destruct (nth_error_seq_0 _ _ _ E) as [-> Ht].
  simpl. intros H. injection H as <-. now split.
Qed.

Lemma build_rows_nth_lt (t : nat) :
  (t < n)%nat -> nth_error rows t = Some (row_at t).
Proof.
  intros Ht. unfold build_rows.
  now rewrite nth_error_map, (nth_error_seq_lt _ _ Ht).
Qed.

Lemma build_rows_backlog_in (t : nat) :
  (t < n)%nat -> sim_backlog_in rows t = backlog_in_at backlog t.
Proof.
  intros Ht. destruct t as [|t]; simpl; [reflexivity|].
  rewrite build_rows_nth_lt by lia. reflexivity.
Qed.
End BuildRows.

Section GeneratorFacts.
Variable rng : Type.
Variable seed_state : Z -> rng.
Variable gauss : rng -> Q * rng.
Variable random_sample : rng -> Q * rng.
Variable permutation : rng -> Z -> list Z * rng.
Variable py_hash : string -> Z.

Local Abbreviation step_data :=
  (generate_step_data rng seed_state gauss random_sample py_hash).
Local Abbreviation hourly_demand :=
  (generate_hourly_demand rng seed_state gauss permutation).

(** C2: in the table returned by [generate_step_data], one record per
    hour of the demand, every hour [t] has
    [processed_units[t] = min(demand_units[t] + backlog_in[t],
    capacity_units[t])] and
    [backlog_units[t] = max(0, demand_units[t] + backlog_in[t]
    - processed_units[t])], where [backlog_in[t]] is [backlog_units[t-1]],
    and 0 at the first hour; hence
    [processed_units[t] <= demand_units[t] + backlog_in[t]]. *)
Theorem C2_backlog_recurrence (demand_df : list Demand.t) (step : string)
    (step_capacity_base capacity_variability_std downtime_probability
     downtime_severity uph cycle_time_base congestion_multiplier_max : Q)
    (random_state : Z) (g : rng) (out : list Sim.t) (g' : rng) :
  step_data demand_df step step_capacity_base capacity_variability_std
    downtime_probability downtime_severity uph cycle_time_base
    congestion_multiplier_max random_state g
  = Ok (out, g') ->
  length out = length demand_df
  /\ forall (t : nat) (r : Sim.t),
       nth_error out t = Some r ->
       Sim.processed_units r =
         pymin (Sim.demand_units r + sim_backlog_in out t)
               (Sim.capacity_units r)
       /\ Sim.backlog_units r =
            pymax 0 (Sim.demand_units r + sim_backlog_in out t
                     - Sim.processed_units r)
       /\ Sim.processed_units r
          <= Sim.demand_units r + sim_backlog_in out t.
Proof.
  unfold generate_step_data, bind.
  destruct (np_random_seed rng seed_state _ g) as [g0|]; [|discriminate].
  destruct (step_demand_of rng gauss step _ g0) as [[sd g1]|];
    [|discriminate].
  simpl fst; simpl snd.
  destruct (np_random_normal_n rng gauss 0 capacity_variability_std _ g1)
    as [[cn g2]|]; [|discriminate].
  simpl fst; simpl snd.
  intros H. injection H as <- _.
  split; [apply build_rows_length|].
  intros t r Hr.
  destruct (build_rows_nth _ _ _ _ _ _ _ _ _ _ _ _ _ _ Hr) as [Ht ->].
  rewrite (build_rows_backlog_in _ _ _ _ _ _ _ _ _ _ _ _ _ Ht).
  simpl.
  match goal with
  | |- context [process_hours ?n ?d ?c] =>
      destruct (process_hours_spec d c n) as (_ & _ & Hrec)
  end.
  destruct (Hrec t Ht) as [Hp Hb].
  split; [exact Hp|]. split; [exact Hb|].
  rewrite Hp. apply pymin_le_l.
Qed.

(** [generate_hourly_demand] seeds the generator before it draws: what it
    returns does not depend on the state the generator was in. *)
Lemma generate_hourly_demand_reseeds (start num_days : Z)
    (base_demand_mean : Q) (hs : HourlySeasonality) (dow : DayOfWeek)
    (promo_days : Z) (promo_multiplier : Q) (random_state : Z)
    (g1 g2 : rng) :
  hourly_demand start num_days base_demand_mean hs dow promo_days
    promo_multiplier random_state g1
  = hourly_demand start num_days base_demand_mean hs dow promo_days
      promo_multiplier random_state g2.
Proof. reflexivity. Qed.

(** So does [generate_step_data], within one interpreter: with the same
    [hash], two runs return the same table. *)
Lemma generate_step_data_reseeds (demand_df : list Demand.t)
    (step : string)
    (step_capacity_base capacity_variability_std downtime_probability
     downtime_severity uph cycle_time_base congestion_multiplier_max : Q)
    (random_state : Z) (g1 g2 : rng) :
  step_data demand_df step step_capacity_base capacity_variability_std
    downtime_probability downtime_severity uph cycle_time_base
    congestion_multiplier_max random_state g1
  = step_data demand_df step step_capacity_base capacity_variability_std
      downtime_probability downtime_severity uph cycle_time_base
      congestion_multiplier_max random_state g2.
Proof. reflexivity. Qed.

Lemma hours_loop_length (base dow_mult promo_mult : Q)
    (hs : HourlySeasonality) (current_date : Z) (hours : list Z) :
  forall g,
    length (fst (hours_loop rng gauss base dow_mult promo_mult hs
                   current_date hours g))
    = length hours.
Proof.
  induction hours as [|h hours IH]; intros g; simpl; [reflexivity|].
  destruct (hour_demand rng gauss base dow_mult promo_mult hs h g)
    as [d g1].
  specialize (IH g1).
  destruct (hours_loop rng gauss base dow_mult promo_mult hs current_date
              hours g1) as [rest g2].
  simpl in *. now rewrite IH.
Qed.

Lemma days_loop_length (start : Z) (base : Q) (hs : HourlySeasonality)
    (dow : DayOfWeek) (promo_dates : list Z) (promo_multiplier : Q)
    (days : list Z) :
  forall g,
    length (fst (days_loop rng gauss start base hs dow promo_dates
                   promo_multiplier days g))
    = (24 * length days)%nat.
Proof.
  induction days as [|d days IH]; intros g; [reflexivity|].
  cbn [days_loop].
  match goal with
  | |- context [hours_loop rng gauss ?b ?m ?p ?h ?c ?hrs g] =>
      pose proof (hours_loop_length b m p h c hrs g) as Hh;
      destruct (hours_loop rng gauss b m p h c hrs g) as [today g1]
  end.
  specialize (IH g1).
  destruct (days_loop rng gauss start base hs dow promo_dates
              promo_multiplier days g1) as [rest g2].
  cbn [fst] in *. rewrite length_app, Hh, IH.
  change (length (range 24)) with 24%nat. cbn [length]. lia.
Qed.

Lemma range_length (n : Z) : length (range n) = Z.to_nat n.
Proof. unfold range. now rewrite length_map, length_seq. Qed.

(** C10: [generate_hourly_demand] raises when [promo_days] exceeds
    [num_days]; whenever it returns a table, 0 <= promo_days <= num_days
    held and the table has 24 * num_days records; and with
    0 <= promo_days <= num_days (and a seed numpy accepts) it does return
    one. *)
Theorem C10_promo_days_within_num_days (start num_days : Z)
    (base_demand_mean : Q) (hs : HourlySeasonality) (dow : DayOfWeek)
    (promo_days : Z) (promo_multiplier : Q) (random_state : Z) (g : rng) :
  let run :=
    hourly_demand start num_days base_demand_mean hs dow promo_days
      promo_multiplier random_state g in
  ((num_days < promo_days)%Z -> exists e, run = Raise e)
  /\ (forall out g', run = Ok (out, g') ->
        (0 <= promo_days <= num_days)%Z
        /\ length out = Z.to_nat (24 * num_days))
  /\ ((0 <= promo_days <= num_days)%Z ->
      (0 <= random_state < 2 ^ 32)%Z ->
      exists out g', run = Ok (out, g')
                     /\ length out = Z.to_nat (24 * num_days)).
Proof.
  unfold generate_hourly_demand, bind, np_random_seed, np_random_choice.
  cbv zeta.
  destruct ((0 <=? random_state) && (random_state <? 2 ^ 32))%Z eqn:Hseed.
  - destruct ((num_days <=? 0) && negb (promo_days =? 0))%Z eqn:Hpop.
    { repeat split; try discriminate; [eauto|].
      intros H _. exfalso.
      apply andb_true_iff in Hpop as [H1 H2].
      apply Z.leb_le in H1. apply negb_true_iff, Z.eqb_neq in H2. lia. }
    destruct (num_days <? promo_days)%Z eqn:Hlarge.
    { apply Z.ltb_lt in Hlarge.
      repeat split; try discriminate; [eauto | intros; lia]. }
    apply Z.ltb_ge in Hlarge.
    destruct (promo_days <? 0)%Z eqn:Hneg.
    { apply Z.ltb_lt in Hneg.
      repeat split; try discriminate; [eauto | intros; lia]. }
    apply Z.ltb_ge in Hneg.
    destruct (permutation (seed_state random_state) num_days) as [p g1].
    simpl fst; simpl snd.
    assert (Hlen : forall out g',
              days_loop rng gauss start base_demand_mean hs dow
                (map (fun d => (start + d)%Z)
                     (firstn (Z.to_nat promo_days) p))
                promo_multiplier (range num_days) g1 = (out, g') ->
              length out = Z.to_nat (24 * num_days)).
    { intros out g' E.
      pose proof (days_loop_length start base_demand_mean hs dow
                    (map (fun d => (start + d)%Z)
                         (firstn (Z.to_nat promo_days) p))
                    promo_multiplier (range num_days) g1) as Hd.
      rewrite E in Hd. simpl in Hd. rewrite Hd, range_length. lia. }
    repeat split.
    + intros; lia.
    + lia.
    + lia.
    + injection H as H. eapply Hlen. exact H.
    + intros _ _.
      destruct (days_loop rng gauss start base_demand_mean hs dow
                  (map (fun d => (start + d)%Z)
                       (firstn (Z.to_nat promo_days) p))
                  promo_multiplier (range num_days) g1) as [out g'] eqn:E.
      exists out, g'. split; [reflexivity | now apply (Hlen out g')].
  - repeat split; try discriminate; [eauto|].
    intros _ H. exfalso.
    apply andb_false_iff in Hseed as [H1 | H1].
    + apply Z.leb_gt in H1. lia.
    + apply Z.ltb_ge in H1. lia.
Qed.
End GeneratorFacts.

Lemma C2_backlog_recurrence_witness :
  let out := table_of (run_pick hash_of_process_a 7%Z) in
  length out = length three_hours
  /\ forall (t : nat) (r : Sim.t),
       nth_error out t = Some r ->
       Sim.processed_units r =
         pymin (Sim.demand_units r + sim_backlog_in out t)
               (Sim.capacity_units r)
       /\ Sim.backlog_units r =
            pymax 0 (Sim.demand_units r + sim_backlog_in out t
                     - Sim.processed_units r)
       /\ Sim.processed_units r
          <= Sim.demand_units r + sim_backlog_in out t.
Proof.
  apply (C2_backlog_recurrence Lcg.rng Lcg.seed_state Lcg.gauss
           Lcg.random_sample hash_of_process_a three_hours "pick"
           (11 # 10) (1 # 10) (3 # 10) (1 # 2) 10 5 2 42%Z 7%Z
           (table_of (run_pick hash_of_process_a 7%Z))
           (state_of (run_pick hash_of_process_a 7%Z))).
  vm_compute. reflexivity.
Defined.

Lemma C10_promo_days_within_num_days_witness :
  (exists e, run_demand 2 3 7%Z = Raise e)
  /\ (exists out g', run_demand 2 1 7%Z = Ok (out, g')
                     /\ length out = 48%nat).
Proof.
  split.
  - apply (proj1 (C10_promo_days_within_num_days Lcg.rng Lcg.seed_state
                    Lcg.gauss Lcg.permutation 738000 2 2400 office_hours
                    week 3 2 42 7%Z)).
    lia.
  - apply (proj2 (proj2 (C10_promo_days_within_num_days Lcg.rng
                           Lcg.seed_state Lcg.gauss Lcg.permutation 738000
                           2 2400 office_hours week 1 2 42 7%Z))); lia.
Defined.

(** C3 (divergence of the code): the seed of a step's stream is
    [random_state + hash(step) % 1000], and [hash] of a string differs from
    one interpreter process to the next.  With the same demand, step name,
    parameters and [random_state], an interpreter whose [hash("pick")] is 0
    modulo 1000 and one where it is 1 seed the generator with 42 and with
    43, and return tables that differ from the first record on. *)
Theorem C3_step_table_depends_on_process_hash :
  step_seed hash_of_process_a 42 "pick" = 42%Z
  /\ step_seed hash_of_process_b 42 "pick" = 43%Z
  /\ is_ok (run_pick hash_of_process_a 7%Z) = true
  /\ is_ok (run_pick hash_of_process_b 7%Z) = true
  /\ exists ra rb : Sim.t,
       hd_error (table_of (run_pick hash_of_process_a 7%Z)) = Some ra
       /\ hd_error (table_of (run_pick hash_of_process_b 7%Z)) = Some rb
       /\ ~ Sim.demand_units ra == Sim.demand_units rb
       /\ ~ Sim.capacity_units ra == Sim.capacity_units rb.
Proof.
  repeat split; try reflexivity.
  eexists. eexists.
  split; [vm_compute; reflexivity|].
  split; [vm_compute; reflexivity|].
  split; intros H; vm_compute in H; discriminate H.
Qed.

(** ** Sorted tables *)

Lemma string_compare_lt_trans (a b c : string) :
  String.compare a b = Lt -> String.compare b c = Lt ->
  String.compare a c = Lt.
Proof.
  intros Hab Hbc.
  apply OrderedTypeEx.String_as_OT.cmp_lt.
  apply OrderedTypeEx.String_as_OT.lt_trans with b;
    now apply OrderedTypeEx.String_as_OT.cmp_lt.
Qed.

Lemma step_ts_leb_trans (a b c : Row) :
  step_ts_leb a b = true -> step_ts_leb b c = true ->
  step_ts_leb a c = true.
Proof.
  unfold step_ts_leb.
  destruct (String.compare (step a) (step b)) eqn:Hab; try discriminate;
    destruct (String.compare (step b) (step c)) eqn:Hbc; try discriminate;
    intros H1 H2.
  - apply String.compare_eq_iff in Hab, Hbc. rewrite Hab, Hbc.
    rewrite string_compare_refl.
    apply Z.leb_le in H1, H2. apply Z.leb_le. lia.
  - apply String.compare_eq_iff in Hab. rewrite Hab, Hbc. reflexivity.
  - apply String.compare_eq_iff in Hbc. rewrite <- Hbc, Hab. reflexivity.
  - now rewrite (string_compare_lt_trans _ _ _ Hab Hbc).
Qed.

Lemma locally_sorted_tail {A : Type} (leb : A -> A -> bool) (x : A)
    (l : list A) :
  locally_sorted leb (x :: l) -> locally_sorted leb l.
Proof. destruct l; [intros; exact I | intros [_ H]; exact H]. Qed.

Lemma locally_sorted_head_le {A : Type} (leb : A -> A -> bool)
    (leb_trans : forall a b c, leb a b = true -> leb b c = true ->
                               leb a c = true)
    (l : list A) :
  forall x y, locally_sorted leb (x :: l) -> In y l -> leb x y = true.
Proof.
  induction l as [|z l IH]; intros x y Hs Hy; [contradiction|].
  destruct Hs as [Hxz Hs]. destruct Hy as [-> | Hy]; [exact Hxz|].
  apply leb_trans with z; [exact Hxz|]. now apply IH.
Qed.

(** In a sorted table every row is in order with the rows after it. *)
Lemma locally_sorted_before {A : Type} (leb : A -> A -> bool)
    (leb_trans : forall a b c, leb a b = true -> leb b c = true ->
                               leb a c = true)
    (l : list A) :
  forall i r p, locally_sorted leb l -> nth_error l i = Some r ->
                In p (firstn i l) -> leb p r = true.
Proof.
  induction l as [|x l IH]; intros i r p Hs Hr Hp.
  - destruct i; discriminate.
  - destruct i as [|i]; [contradiction|].
    simpl in Hr, Hp. destruct Hp as [-> | Hp].
    + apply (locally_sorted_head_le leb leb_trans l); [exact Hs|].
      eapply nth_error_In. exact Hr.
    + apply (IH i); [eapply locally_sorted_tail; exact Hs | exact Hr | exact Hp].
Qed.

Lemma previous_of_step_In (before : DataFrame) (s : string) (p : Row) :
  previous_of_step before s = Some p -> In p before /\ step p = s.
Proof.
  unfold previous_of_step. intros H. apply find_some in H as [Hin Hs].
  split; [now apply in_rev | now apply String.eqb_eq].
Qed.

(** In the table sorted by step and timestamp, the previous record of a
    step is not later than the record. *)
Lemma previous_of_step_earlier (df : DataFrame) (i : nat) (r p : Row) :
  nth_error (sort_by_step_timestamp df) i = Some r ->
  previous_of_step (firstn i (sort_by_step_timestamp df)) (step r) = Some p ->
  (timestamp p <= timestamp r)%Z.
Proof.
  intros Hr Hp. apply previous_of_step_In in Hp as [Hin Hstep].
  assert (Hle : step_ts_leb p r = true).
  { apply (locally_sorted_before step_ts_leb step_ts_leb_trans
             (sort_by_step_timestamp df) i); try assumption.
    apply stable_sort_locally_sorted. exact step_ts_leb_total. }
  unfold step_ts_leb in Hle. rewrite Hstep, string_compare_refl in Hle.
  now apply Z.leb_le.
Qed.

Lemma map_fst_combine {A B : Type} (l : list A) :
  forall l' : list B, length l = length l' -> map fst (combine l l') = l.
Proof.
  induction l as [|x l IH]; intros [|y l'] Hlen; simpl in *;
    try discriminate; [reflexivity|].
  now rewrite IH by lia.
Qed.

Lemma groupby_step_shift_length (col : Row -> Q) (df : DataFrame) :
  length (groupby_step_shift col df) = length df.
Proof. apply groupby_step_shift_from_length. Qed.

(** ** [detect_bottlenecks], record by record *)

Lemma groupby_step_diff_nth (col : Row -> Q) (df : DataFrame) (i : nat)
    (r : Row) :
  nth_error df i = Some r ->
  nth_error (groupby_step_diff col df) i =
  Some (option_map (fun p => col r - col p)
          (previous_of_step (firstn i df) (step r))).
Proof.
  intros Hi. unfold groupby_step_diff. rewrite nth_error_map.
  rewrite (nth_error_combine _ _ i r _ Hi (groupby_step_shift_nth col df i r Hi)).
  simpl. now destruct (previous_of_step (firstn i df) (step r)).
Qed.

Lemma groupby_step_diff_length (col : Row -> Q) (df : DataFrame) :
  length (groupby_step_diff col df) = length df.
Proof.
  unfold groupby_step_diff.
  rewrite length_map, length_combine, groupby_step_shift_length. lia.
Qed.

Lemma flag_bottlenecks_rows (df : DataFrame) (threshold_util : Q) :
  map f_row (flag_bottlenecks df threshold_util)
  = sort_by_step_timestamp df.
Proof.
  unfold flag_bottlenecks. rewrite map_map. simpl.
  apply map_fst_combine.
  now rewrite length_map, groupby_step_diff_length.
Qed.

Lemma flag_bottlenecks_nth (df : DataFrame) (threshold_util : Q)
    (i : nat) (r : Row) :
  let df1 := sort_by_step_timestamp df in
  let change := backlog_change_of (firstn i df1) r in
  nth_error df1 i = Some r ->
  nth_error (flag_bottlenecks df threshold_util) i =
  Some (mkFlaggedRow r change
          (Qle_bool threshold_util (utilization r)
           && (Qlt_bool 0 change || Qlt_bool 0 (throughput_loss_units r)))).
Proof.
  intros df1 change Hi. unfold flag_bottlenecks. fold df1.
  rewrite nth_error_map.
  rewrite (nth_error_combine _ _ i r change Hi).
  - reflexivity.
  - rewrite nth_error_map, (groupby_step_diff_nth _ _ _ _ Hi).
    unfold change, backlog_change_of.
    now destruct (previous_of_step (firstn i df1) (step r)).
Qed.

(** A record of the flagged table, from its position. *)
Lemma flag_bottlenecks_inv (df : DataFrame) (threshold_util : Q)
    (i : nat) (f : FlaggedRow) :
  nth_error (flag_bottlenecks df threshold_util) i = Some f ->
  nth_error (sort_by_step_timestamp df) i = Some (f_row f).
Proof.
  intros Hf. rewrite <- (flag_bottlenecks_rows df threshold_util).
  rewrite nth_error_map, Hf. reflexivity.
Qed.

(** A returned table is the flagged table with the value of
    [get_bottleneck_step] of each timestamp merged in, and some timestamp
    has a value. *)
Lemma detect_bottlenecks_inv (df : DataFrame) (threshold_util : Q)
    (out : list BottleneckRow) :
  detect_bottlenecks df threshold_util = Ok out ->
  out = merge_bottleneck_step (flag_bottlenecks df threshold_util)
          (apply_get_bottleneck_step threshold_util
             (sort_by_step_timestamp df))
  /\ existsb (fun kv => is_some (snd kv))
       (apply_get_bottleneck_step threshold_util
          (sort_by_step_timestamp df)) = true.
Proof.
  unfold detect_bottlenecks, hourly_bottleneck, bind.
  rewrite flag_bottlenecks_rows.
  destruct (existsb _ _); [|discriminate].
  intros H. injection H as <-. now split.
Qed.

Lemma merge_bottleneck_step_flags (df : list FlaggedRow)
    (hb : list (Z * option string)) :
  map (fun b => mkFlaggedRow (b_row b) (backlog_change b) (is_bottleneck b))
      (merge_bottleneck_step df hb)
  = df.
Proof.
  unfold merge_bottleneck_step. rewrite map_map. simpl.
  induction df as [|[r c f] df IH]; simpl; [reflexivity|]. now rewrite IH.
Qed.

(** C4: [detect_bottlenecks] assigns the two flag columns to the records
    of the table, in the order of step and timestamp.  In every record
    [backlog_change] is [backlog_units] minus the [backlog_units] of the
    previous record of the same step (a record that is not later), and 0 for
    the first record of a step; [is_bottleneck] holds exactly when
    utilization >= threshold and (backlog_change > 0 or
    throughput_loss_units > 0); so a record with utilization below the
    threshold and no throughput loss is not flagged.  A returned table
    carries these records and flags unchanged. *)
Theorem C4_bottleneck_flag (df : DataFrame) (threshold_util : Q) :
  let flagged := flag_bottlenecks df threshold_util in
  map f_row flagged = sort_by_step_timestamp df
  /\ (forall i f, nth_error flagged i = Some f ->
        let before := firstn i (sort_by_step_timestamp df) in
        let r := f_row f in
        nth_error (sort_by_step_timestamp df) i = Some r
        /\ f_backlog_change f = backlog_change_of before r
        /\ (forall p, previous_of_step before (step r) = Some p ->
                      (timestamp p <= timestamp r)%Z)
        /\ (f_is_bottleneck f = true <->
            threshold_util <= utilization r
            /\ (0 < f_backlog_change f \/ 0 < throughput_loss_units r))
        /\ (utilization r < threshold_util -> throughput_loss_units r == 0 ->
            f_is_bottleneck f = false))
  /\ (forall out, detect_bottlenecks df threshold_util = Ok out ->
        map (fun b =>
               mkFlaggedRow (b_row b) (backlog_change b) (is_bottleneck b))
            out
        = flagged).
Proof.
  intros flagged. split; [apply flag_bottlenecks_rows|]. split.
  - intros i f Hf before r.
    pose proof (flag_bottlenecks_inv _ _ _ _ Hf) as Hr. fold r in Hr.
    pose proof (flag_bottlenecks_nth df threshold_util i r Hr) as Hnth.
    cbv zeta in Hnth. fold flagged in Hnth. rewrite Hf in Hnth.
    injection Hnth as Hfeq. fold before in Hfeq.
    assert (Hflag : f_is_bottleneck f = true <->
              threshold_util <= utilization r
              /\ (0 < f_backlog_change f \/ 0 < throughput_loss_units r)).
    { rewrite Hfeq. simpl. fold r.
      rewrite andb_true_iff, orb_true_iff, Qle_bool_iff, !Qlt_bool_iff.
      reflexivity. }
    split; [exact Hr|]. split; [now rewrite Hfeq|]. split; [|split].
    + intros p Hp. now apply (previous_of_step_earlier df i r p).
    + exact Hflag.
    + intros Hlt _. destruct (f_is_bottleneck f) eqn:E; [|reflexivity].
      exfalso. destruct (proj1 Hflag eq_refl) as [Hge _].
      exact (Qlt_not_le _ _ Hlt Hge).
  - intros out Hout. apply detect_bottlenecks_inv in Hout as [-> _].
    apply merge_bottleneck_step_flags.
Qed.

Lemma C4_bottleneck_flag_witness :
  exists out,
    detect_bottlenecks two_steps (95 # 100) = Ok out
    /\ map (fun b =>
              mkFlaggedRow (b_row b) (backlog_change b) (is_bottleneck b))
           out
       = flag_bottlenecks two_steps (95 # 100).
Proof.
  eexists. split; [reflexivity|].
  apply (proj2 (proj2 (C4_bottleneck_flag two_steps (95 # 100)))).
  reflexivity.
Defined.

(** The scenario of the specification: utilization 0.96 against the
    threshold 0.95 with the backlog up by 5 is flagged. *)
Example detect_bottlenecks_scenario :
  option_map
    (map (fun b => (step (b_row b), timestamp (b_row b),
                    Qred (backlog_change b), is_bottleneck b,
                    bottleneck_step b)))
    (match detect_bottlenecks two_steps (95 # 100) with
     | Ok out => Some out
     | Raise _ => None
     end)
  = Some [("pick"%string, 0%Z, 0, true, Some "receive"%string);
          ("pick"%string, 1%Z, 5, true, Some "pick"%string);
          ("receive"%string, 0%Z, 0, true, Some "receive"%string);
          ("receive"%string, 1%Z, (-20) # 1, false, Some "pick"%string)].
Proof. vm_compute. reflexivity. Qed.

(** ** [get_bottleneck_step] *)

Lemma pymax_ge_iff (x a b : Q) : x <= pymax a b <-> x <= a \/ x <= b.
Proof.
  unfold pymax. destruct (Qle_bool b a) eqn:E.
  - apply Qle_bool_iff in E. split; [auto|].
    intros [H | H]; [exact H | now apply Qle_trans with b].
  - apply Qle_bool_false in E. split; [auto|].
    intros [H | H]; [|exact H].
    apply Qle_trans with a; [exact H | now apply Qlt_le_weak].
Qed.

Lemma pymax_gt_iff (x a b : Q) : x < pymax a b <-> x < a \/ x < b.
Proof.
  unfold pymax. destruct (Qle_bool b a) eqn:E.
  - apply Qle_bool_iff in E. split; [auto|].
    intros [H | H]; [exact H | now apply Qlt_le_trans with b].
  - apply Qle_bool_false in E. split; [auto|].
    intros [H | H]; [|exact H]. now apply Qlt_trans with a.
Qed.

(** The maximum reaches [x] exactly when some record does. *)
Lemma max_ge_iff (col : Row -> Q) (g : DataFrame) (x : Q) :
  max_ge (series_max col g) x = true <-> exists r, In r g /\ x <= col r.
Proof.
  induction g as [|a g IH]; simpl.
  - split; [discriminate | intros (r & [] & _)].
  - destruct (series_max col g) as [m|]; simpl in *.
    + rewrite Qle_bool_iff, pymax_ge_iff. rewrite Qle_bool_iff in IH. split.
      * intros [H | H]; [exists a; auto|].
        destruct (proj1 IH H) as (r & Hr & Hx). exists r; auto.
      * intros (r & [<- | Hr] & Hx); [auto|]. right. apply IH. eauto.
    + rewrite Qle_bool_iff. split.
      * intros H. exists a; auto.
      * intros (r & [<- | Hr] & Hx); [exact Hx|].
        assert (false = true) by (apply IH; eauto). discriminate.
Qed.

Lemma max_gt_iff (col : Row -> Q) (g : DataFrame) (x : Q) :
  max_gt (series_max col g) x = true <-> exists r, In r g /\ x < col r.
Proof.
  induction g as [|a g IH]; simpl.
  - split; [discriminate | intros (r & [] & _)].
  - destruct (series_max col g) as [m|]; simpl in *.
    + rewrite Qlt_bool_iff, pymax_gt_iff. rewrite Qlt_bool_iff in IH. split.
      * intros [H | H]; [exists a; auto|].
        destruct (proj1 IH H) as (r & Hr & Hx). exists r; auto.
      * intros (r & [<- | Hr] & Hx); [auto|]. right. apply IH. eauto.
    + rewrite Qlt_bool_iff. split.
      * intros H. exists a; auto.
      * intros (r & [<- | Hr] & Hx); [exact Hx|].
        assert (false = true) by (apply IH; eauto). discriminate.
Qed.

(** The scan of [idxmax] keeps the first record at which the maximum so
    far is reached. *)
Lemma idxmax_from_first_max (col : Row -> Q) (g : DataFrame) :
  forall best pre mid,
    (forall x, In x pre -> col x < col best) ->
    (forall x, In x mid -> col x <= col best) ->
    first_max col (pre ++ best :: mid ++ g) (idxmax_from col best g).
Proof.
  induction g as [|r g IH]; intros best pre mid Hpre Hmid; simpl.
  - exists pre, mid. rewrite app_nil_r. auto.
  - destruct (Qlt_bool (col best) (col r)) eqn:E.
    + apply Qlt_bool_iff in E.
      replace (pre ++ best :: mid ++ r :: g)
        with ((pre ++ best :: mid) ++ r :: [] ++ g)
        by (rewrite <- app_assoc; reflexivity).
      apply IH.
      * intros x Hx. apply in_app_or in Hx as [Hx | [<- | Hx]].
        -- apply Qlt_trans with (col best); auto.
        -- exact E.
        -- apply Qle_lt_trans with (col best); auto.
      * intros x [].
    + apply Qlt_bool_false in E.
      replace (pre ++ best :: mid ++ r :: g)
        with (pre ++ best :: (mid ++ [r]) ++ g)
        by (rewrite <- app_assoc; reflexivity).
      apply IH; [exact Hpre|].
      intros x Hx. apply in_app_or in Hx as [Hx | [<- | []]]; auto.
Qed.

Lemma idxmax_first_max (col : Row -> Q) (g : DataFrame) :
  g <> [] -> exists r, idxmax col g = Some r /\ first_max col g r.
Proof.
  destruct g as [|a g]; [congruence|]. intros _.
  exists (idxmax_from col a g). split; [reflexivity|].
  apply (idxmax_from_first_max col g a [] []); intros x [].
Qed.

(** ** [groupby] and the merge *)

Section GroupByFacts.
Context {K : Type}.
Variable key : Row -> K.
Variable key_eqb : K -> K -> bool.
Variable key_leb : K -> K -> bool.
Hypothesis key_eqb_eq : forall a b, key_eqb a b = true <-> a = b.

Lemma distinct_In (k : K) (ks : list K) :
  In k (distinct key_eqb ks) <-> In k ks.
Proof.
  induction ks as [|a ks IH]; simpl; [tauto|].
  rewrite filter_In, IH. split.
  - intros [H | [H _]]; auto.
  - intros [H | H]; [auto|].
    destruct (key_eqb k a) eqn:E.
    + left. symmetry. now apply key_eqb_eq.
    + right. auto.
Qed.

Lemma distinct_NoDup (ks : list K) : NoDup (distinct key_eqb ks).
Proof.
  induction ks as [|a ks IH]; simpl; constructor.
  - rewrite filter_In. intros [_ H].
    assert (E : key_eqb a a = true) by now apply key_eqb_eq.
    rewrite E in H. discriminate.
  - now apply NoDup_filter.
Qed.

Lemma group_keys_In (k : K) (df : DataFrame) :
  In k (group_keys key key_eqb key_leb df) <-> exists r, In r df /\ key r = k.
Proof.
  unfold group_keys. rewrite stable_sort_In, distinct_In, in_map_iff.
  split; intros (r & H1 & H2); exists r; auto.
Qed.

Lemma group_keys_NoDup (df : DataFrame) :
  NoDup (group_keys key key_eqb key_leb df).
Proof. apply stable_sort_NoDup, distinct_NoDup. Qed.

Lemma group_rows_In (k : K) (df : DataFrame) (r : Row) :
  In r (group_rows key key_eqb k df) <-> In r df /\ key r = k.
Proof. unfold group_rows. rewrite filter_In. now rewrite key_eqb_eq. Qed.
End GroupByFacts.

Lemma merge_lookup_map (F : Z -> option string) (keys : list Z) (ts : Z) :
  In ts keys ->
  merge_lookup ts (map (fun k => (k, F k)) keys) = F ts.
Proof.
  induction keys as [|k keys IH]; intros Hin; [contradiction|].
  simpl. destruct (Z.eqb_spec ts k) as [-> | Hne]; [reflexivity|].
  destruct Hin as [-> | Hin]; [congruence | now apply IH].
Qed.

(** The merged column holds, for a timestamp of the table, what
    [get_bottleneck_step] returns on the records of that timestamp. *)
Lemma merge_lookup_hourly_bottleneck (threshold_util : Q) (df : DataFrame)
    (r : Row) :
  In r df ->
  merge_lookup (timestamp r) (apply_get_bottleneck_step threshold_util df)
  = get_bottleneck_step threshold_util (rows_at (timestamp r) df).
Proof.
  intros Hin. unfold apply_get_bottleneck_step, groupby. rewrite map_map.
  simpl.
  apply (merge_lookup_map
           (fun k => get_bottleneck_step threshold_util
                       (group_rows timestamp Z.eqb k df))).
  apply (group_keys_In timestamp Z.eqb Z.leb Z.eqb_eq). now exists r.
Qed.

Lemma max_ge_false (col : Row -> Q) (g : DataFrame) (x : Q) :
  (forall r, In r g -> col r < x) -> max_ge (series_max col g) x = false.
Proof.
  intros H. destruct (max_ge (series_max col g) x) eqn:E; [|reflexivity].
  apply max_ge_iff in E as (r & Hr & Hx).
  exfalso. exact (Qlt_not_le _ _ (H r Hr) Hx).
Qed.

Lemma max_gt_false (col : Row -> Q) (g : DataFrame) (x : Q) :
  (forall r, In r g -> col r <= x) -> max_gt (series_max col g) x = false.
Proof.
  intros H. destruct (max_gt (series_max col g) x) eqn:E; [|reflexivity].
  apply max_gt_iff in E as (r & Hr & Hx).
  exfalso. exact (Qlt_not_le _ _ Hx (H r Hr)).
Qed.

(** The three branches of [get_bottleneck_step]. *)
Lemma get_bottleneck_step_spec (threshold_util : Q) (g : DataFrame) :
  ((exists r, In r g /\ threshold_util <= utilization r) ->
   exists r, first_max utilization g r
             /\ get_bottleneck_step threshold_util g = Some (step r))
  /\ ((forall r, In r g -> utilization r < threshold_util) ->
      (exists r, In r g /\ 0 < throughput_loss_units r) ->
      exists r, first_max throughput_loss_units g r
                /\ get_bottleneck_step threshold_util g = Some (step r))
  /\ ((forall r, In r g -> utilization r < threshold_util) ->
      (forall r, In r g -> throughput_loss_units r <= 0) ->
      get_bottleneck_step threshold_util g = None).
Proof.
  unfold get_bottleneck_step. repeat split.
  - intros Hex. rewrite (proj2 (max_ge_iff utilization g threshold_util) Hex).
    assert (Hne : g <> []).
    { destruct Hex as (r & Hr & _). intros ->. contradiction. }
    destruct (idxmax_first_max utilization g Hne) as (r & -> & Hfm).
    now exists r.
  - intros Hlow Hex. rewrite (max_ge_false _ _ _ Hlow).
    rewrite (proj2 (max_gt_iff throughput_loss_units g 0) Hex).
    assert (Hne : g <> []).
    { destruct Hex as (r & Hr & _). intros ->. contradiction. }
    destruct (idxmax_first_max throughput_loss_units g Hne) as (r & -> & Hfm).
    now exists r.
  - intros Hlow Hnone.
    now rewrite (max_ge_false _ _ _ Hlow), (max_gt_false _ _ _ Hnone).
Qed.

(** [get_bottleneck_step] selects a step exactly when some record of the
    group reaches the threshold or has a positive throughput loss. *)
Lemma get_bottleneck_step_is_some (threshold_util : Q) (g : DataFrame) :
  is_some (get_bottleneck_step threshold_util g) = true
  <-> exists r, In r g
        /\ (threshold_util <= utilization r \/ 0 < throughput_loss_units r).
Proof.
  unfold get_bottleneck_step. split.
  - destruct (max_ge (series_max utilization g) threshold_util) eqn:Hge.
    + intros _. apply max_ge_iff in Hge as (r & Hr & Hu). exists r. auto.
    + destruct (max_gt (series_max throughput_loss_units g) 0) eqn:Hgt;
        [|discriminate].
      intros _. apply max_gt_iff in Hgt as (r & Hr & Hl). exists r. auto.
  - intros (r & Hr & H).
    assert (Hne : g <> []) by (intros ->; contradiction).
    destruct (idxmax_first_max utilization g Hne) as (r1 & H1 & _).
    destruct (idxmax_first_max throughput_loss_units g Hne)
      as (r2 & H2 & _).
    rewrite H1, H2.
    destruct (max_ge (series_max utilization g) threshold_util) eqn:Hge;
      [reflexivity|].
    destruct (max_gt (series_max throughput_loss_units g) 0) eqn:Hgt;
      [reflexivity|].
    exfalso. destruct H as [H | H].
    + assert (E : max_ge (series_max utilization g) threshold_util = true)
        by (apply max_ge_iff; eauto).
      congruence.
    + assert (E : max_gt (series_max throughput_loss_units g) 0 = true)
        by (apply max_gt_iff; eauto).
      congruence.
Qed.

(** Some timestamp of the table has a bottleneck step exactly when some
    record reaches the threshold or has a positive throughput loss. *)
Lemma apply_get_bottleneck_step_some (threshold_util : Q) (df : DataFrame) :
  existsb (fun kv => is_some (snd kv))
    (apply_get_bottleneck_step threshold_util df) = true
  <-> exists r, In r df
        /\ (threshold_util <= utilization r \/ 0 < throughput_loss_units r).
Proof.
  unfold apply_get_bottleneck_step, groupby. rewrite map_map.
  rewrite existsb_exists. simpl. split.
  - intros (kv & Hkv & Hsome). apply in_map_iff in Hkv as (k & <- & Hk).
    simpl in Hsome.
    apply get_bottleneck_step_is_some in Hsome as (r & Hr & H).
    apply (group_rows_In timestamp Z.eqb Z.eqb_eq) in Hr as [Hr _].
    exists r. auto.
  - intros (r & Hr & H).
    exists (timestamp r,
            get_bottleneck_step threshold_util
              (group_rows timestamp Z.eqb (timestamp r) df)).
    split.
    + apply in_map_iff. exists (timestamp r). split; [reflexivity|].
      apply (group_keys_In timestamp Z.eqb Z.leb Z.eqb_eq). now exists r.
    + simpl. apply get_bottleneck_step_is_some. exists r. split; [|exact H].
      apply (group_rows_In timestamp Z.eqb Z.eqb_eq). now split.
Qed.

Lemma detect_bottlenecks_returns_iff (df : DataFrame) (threshold_util : Q) :
  (exists out, detect_bottlenecks df threshold_util = Ok out)
  <-> exists r, In r df
        /\ (threshold_util <= utilization r \/ 0 < throughput_loss_units r).
Proof.
  rewrite <- (Morphisms_Prop.ex_iff_morphism _ _
                (fun r => and_iff_compat_r _
                            (stable_sort_In step_ts_leb r df))).
  rewrite <- apply_get_bottleneck_step_some.
  unfold detect_bottlenecks, hourly_bottleneck, bind.
  rewrite flag_bottlenecks_rows.
  destruct (existsb _ _); split; eauto; try discriminate.
  intros [out H]. discriminate.
Qed.

(** Where no record reaches the threshold or has a positive throughput
    loss, the call raises. *)
Lemma detect_bottlenecks_raises (df : DataFrame) (threshold_util : Q) :
  (forall r, In r df ->
     utilization r < threshold_util /\ throughput_loss_units r <= 0) ->
  detect_bottlenecks df threshold_util = Raise LengthMismatch.
Proof.
  intros Hcalm.
  destruct (detect_bottlenecks df threshold_util) as [out|e] eqn:E.
  - exfalso.
    destruct (proj1 (detect_bottlenecks_returns_iff df threshold_util))
      as (r & Hr & H); [eauto|].
    destruct (Hcalm r Hr) as [Hu Hl]. destruct H as [H | H].
    + exact (Qlt_not_le _ _ Hu H).
    + exact (Qlt_not_le _ _ H Hl).
  - revert E. unfold detect_bottlenecks, hourly_bottleneck, bind.
    destruct (existsb _ _); [discriminate|]. congruence.
Qed.

Lemma detect_bottlenecks_rows (df : DataFrame) (threshold_util : Q)
    (out : list BottleneckRow) :
  detect_bottlenecks df threshold_util = Ok out ->
  map b_row out = sort_by_step_timestamp df.
Proof.
  intros Hout. apply detect_bottlenecks_inv in Hout as [-> _].
  unfold merge_bottleneck_step. rewrite map_map. simpl.
  apply flag_bottlenecks_rows.
Qed.

Lemma detect_bottlenecks_nth (df : DataFrame) (threshold_util : Q)
    (out : list BottleneckRow) (i : nat) (b : BottleneckRow) :
  detect_bottlenecks df threshold_util = Ok out ->
  nth_error out i = Some b ->
  let df1 := sort_by_step_timestamp df in
  let change := backlog_change_of (firstn i df1) (b_row b) in
  nth_error df1 i = Some (b_row b)
  /\ b = mkBottleneckRow (b_row b) change
           (Qle_bool threshold_util (utilization (b_row b))
            && (Qlt_bool 0 change
                || Qlt_bool 0 (throughput_loss_units (b_row b))))
           (merge_lookup (timestamp (b_row b))
              (apply_get_bottleneck_step threshold_util df1)).
Proof.
  intros Hout Hb df1 change.
  assert (Hr : nth_error df1 i = Some (b_row b)).
  { unfold df1. rewrite <- (detect_bottlenecks_rows _ _ _ Hout).
    now rewrite nth_error_map, Hb. }
  split; [exact Hr|].
  apply detect_bottlenecks_inv in Hout as [-> _].
  unfold merge_bottleneck_step in Hb. rewrite nth_error_map in Hb.
  rewrite (flag_bottlenecks_nth df threshold_util i _ Hr) in Hb.
  simpl in Hb. injection Hb as Hb. fold df1 change in Hb. now rewrite <- Hb.
Qed.

(** The step of a returned record is what [get_bottleneck_step] returns on
    the records of its timestamp. *)
Lemma detect_bottlenecks_step (df : DataFrame) (threshold_util : Q)
    (out : list BottleneckRow) (b : BottleneckRow) :
  detect_bottlenecks df threshold_util = Ok out ->
  In b out ->
  bottleneck_step b =
  get_bottleneck_step threshold_util
    (rows_at (timestamp (b_row b)) (sort_by_step_timestamp df)).
Proof.
  intros Hout Hin. apply In_nth_error in Hin as [i Hb].
  destruct (detect_bottlenecks_nth _ _ _ _ _ Hout Hb) as [Hr Hbeq].
  rewrite <- merge_lookup_hourly_bottleneck
    by (eapply nth_error_In; exact Hr).
  rewrite Hbeq at 1. reflexivity.
Qed.

(** C5 (divergence of the code): on a table where no record reaches the
    threshold or has a positive throughput loss, [get_bottleneck_step]
    selects no step for any hour, as the claim says, but the call does not
    return the table with no step selected: pandas shapes the result of an
    [apply] whose every group returned [None] as an empty frame, and the
    assignment of the two column names raises.  So it is on the empty
    table. *)
Theorem C5_no_bottleneck_step_raises (df : DataFrame) (threshold_util : Q) :
  (forall r, In r df ->
     utilization r < threshold_util /\ throughput_loss_units r <= 0) ->
  (forall r, In r df ->
     get_bottleneck_step threshold_util
       (rows_at (timestamp r) (sort_by_step_timestamp df)) = None)
  /\ detect_bottlenecks df threshold_util = Raise LengthMismatch.
Proof.
  intros Hcalm. split; [|now apply detect_bottlenecks_raises].
  intros r Hr.
  destruct (get_bottleneck_step_spec threshold_util
              (rows_at (timestamp r) (sort_by_step_timestamp df)))
    as (_ & _ & Hnone).
  apply Hnone; intros x Hx;
    apply (group_rows_In timestamp Z.eqb Z.eqb_eq) in Hx as [Hx _];
    apply (proj1 (stable_sort_In step_ts_leb x df)) in Hx;
    now destruct (Hcalm x Hx).
Qed.

Lemma C5_no_bottleneck_step_raises_witness :
  get_bottleneck_step (95 # 100)
    (rows_at 0 (sort_by_step_timestamp calm_hour)) = None
  /\ detect_bottlenecks calm_hour (95 # 100) = Raise LengthMismatch
  /\ detect_bottlenecks [] (95 # 100) = Raise LengthMismatch.
Proof.
  assert (Hcalm : forall r, In r calm_hour ->
            utilization r < 95 # 100 /\ throughput_loss_units r <= 0).
  { intros r [<- | []]. split; [reflexivity | discriminate]. }
  destruct (C5_no_bottleneck_step_raises calm_hour (95 # 100) Hcalm)
    as [Hnone Hraise].
  split; [|split; [exact Hraise|]].
  - apply (Hnone (hourly_row 0 "receive" 40 80 40 0 (1 # 2) 0 4)).
    left. reflexivity.
  - apply (C5_no_bottleneck_step_raises [] (95 # 100)). intros r [].
Defined.

(** ** [compute_staffing_recommendations], record by record *)

Lemma collect_map_eq {A B C : Type} (f : A -> result B) (g : B -> C)
    (h : A -> C) (l : list A) :
  (forall x y, f x = Ok y -> g y = h x) ->
  forall out, collect (map f l) = Ok out -> map g out = map h l.
Proof.
  intros Hgh. induction l as [|a l IH]; intros out H; simpl in H.
  - injection H as <-. reflexivity.
  - unfold bind in H. destruct (f a) as [y|] eqn:Ha; [|discriminate].
    destruct (collect (map f l)) as [rest|]; [|discriminate].
    injection H as <-. simpl. now rewrite (Hgh a y Ha), (IH rest).
Qed.

Lemma collect_map_nth {A B : Type} (f : A -> result B) (l : list A) :
  forall out, collect (map f l) = Ok out ->
  forall i y, nth_error out i = Some y ->
              exists x, nth_error l i = Some x /\ f x = Ok y.
Proof.
  induction l as [|a l IH]; intros out H i y Hy; simpl in H.
  - injection H as <-. destruct i; discriminate.
  - unfold bind in H. destruct (f a) as [b|] eqn:Ha; [|discriminate].
    destruct (collect (map f l)) as [rest|]; [|discriminate].
    injection H as <-. destruct i as [|i]; simpl in *.
    + injection Hy as <-. now exists a.
    + now apply (IH rest).
Qed.

Lemma collect_map_ok {A B : Type} (f : A -> result B) (l : list A) :
  (forall x, In x l -> exists y, f x = Ok y) ->
  exists out, collect (map f l) = Ok out /\ length out = length l.
Proof.
  induction l as [|a l IH]; intros H; simpl.
  - now exists [].
  - destruct (H a (or_introl eq_refl)) as [y Hy].
    destruct IH as (rest & Hrest & Hlen); [intros x Hx; apply H; now right|].
    exists (y :: rest). unfold bind. rewrite Hy, Hrest. simpl.
    now rewrite Hlen.
Qed.

(** The previous record of a step depends on the steps, timestamps and
    backlogs of the table only. *)
Lemma previous_of_step_same_keys (l1 : DataFrame) :
  forall l2 s,
    map step_ts_backlog l1 = map step_ts_backlog l2 ->
    option_map step_ts_backlog (previous_of_step l1 s)
    = option_map step_ts_backlog (previous_of_step l2 s).
Proof.
  induction l1 as [|a l1 IH]; intros [|b l2] s H; simpl in H;
    try discriminate; [reflexivity|].
  injection H as Hstep Hts Hbl Hrest. rewrite !previous_of_step_cons.
  specialize (IH l2 s Hrest).
  destruct (previous_of_step l1 s), (previous_of_step l2 s);
    simpl in IH; try discriminate; [exact IH|].
  rewrite Hstep. unfold step_ts_backlog.
  destruct (String.eqb (step b) s); simpl; congruence.
Qed.

Lemma carried_backlog_same_keys (l1 l2 : DataFrame) (s : string) :
  map step_ts_backlog l1 = map step_ts_backlog l2 ->
  carried_backlog l1 s = carried_backlog l2 s.
Proof.
  intros H. pose proof (previous_of_step_same_keys l1 l2 s H) as Hp.
  unfold carried_backlog.
  destruct (previous_of_step l1 s), (previous_of_step l2 s);
    simpl in Hp; try discriminate; [|reflexivity].
  unfold step_ts_backlog in Hp. congruence.
Qed.

(** int64 arithmetic is exact within the range. *)
Lemma wrap64_in_range (z : Z) : in_int64 z = true -> wrap64 z = z.
Proof.
  unfold in_int64, wrap64, int64_min, int64_max. intros H.
  apply andb_true_iff in H as [H1 H2].
  apply Z.leb_le in H1, H2.
  rewrite Z.mod_small; lia.
Qed.

Lemma astype_int_spec (z : Z) :
  (in_int64 z = true -> astype_int z = z)
  /\ (in_int64 z = false -> astype_int z = int64_min).
Proof. unfold astype_int. destruct (in_int64 z); split; congruence. Qed.

(** [np.ceil(x).astype(int)] is the ceiling of [x] while [x] is within
    int64, and the most negative int64 above it. *)
Lemma ceil_in_range (x : Q) :
  inject_Z (int64_min - 1) < x -> x <= inject_Z int64_max ->
  ceil x = Qceiling x.
Proof.
  intros Hlo Hhi. unfold ceil.
  apply (proj1 (astype_int_spec (Qceiling x))).
  unfold in_int64. apply andb_true_iff. split; apply Z.leb_le.
  - assert (H : inject_Z (int64_min - 1) < inject_Z (Qceiling x))
      by (eapply Qlt_le_trans; [exact Hlo | apply Qle_ceiling]).
    rewrite <- Zlt_Qlt in H. lia.
  - rewrite <- (Qceiling_Z int64_max). now apply Qceiling_resp_le.
Qed.

Lemma ceil_past_range (x : Q) :
  inject_Z int64_max < x -> ceil x = int64_min.
Proof.
  intros Hhi. unfold ceil.
  apply (proj2 (astype_int_spec (Qceiling x))).
  unfold in_int64. apply andb_false_iff. right. apply Z.leb_gt.
  rewrite Zlt_Qlt. eapply Qlt_le_trans; [exact Hhi | apply Qle_ceiling].
Qed.

Lemma int64_times_0 (n : number) : int64_times 0 n == 0.
Proof.
  destruct n as [z|x]; simpl.
  - reflexivity.
  - apply Qmult_0_l.
Qed.

(** The product with the wage is exact for a float wage, and for an int
    wage when it is within int64. *)
Lemma int64_times_exact (col : Z) (n : number) :
  match n with
  | PyFloat _ => True
  | PyInt z => in_int64 (col * z) = true
  end ->
  int64_times col n == number_value n * inject_Z col.
Proof.
  destruct n as [z|x]; simpl; intros H.
  - rewrite (wrap64_in_range _ H). rewrite inject_Z_mult. apply Qmult_comm.
  - apply Qmult_comm.
Qed.

(** What one successful [staffing_row] holds. *)
Lemma staffing_row_ok (service_target : Q) (uph_by_step : uph_table)
    (wage_per_hour : number) (r : Row) (bin : Q) (s : StaffingRow) :
  staffing_row service_target uph_by_step wage_per_hour r bin = Ok s ->
  step_ts_backlog (s_row s) = step_ts_backlog r
  /\ demand_units (s_row s) = demand_units r
  /\ headcount_used (s_row s) = headcount_used r
  /\ backlog_in (s_row s) = bin
  /\ dict_get (step r) uph_by_step = Some (uph (s_row s))
  /\ ~ uph (s_row s) + eps == 0
  /\ required_units s = demand_units r + bin
  /\ required_capacity_units s = required_units s / service_target
  /\ required_labor_hours s
     = required_capacity_units s / (uph (s_row s) + eps)
  /\ recommended_headcount s = ceil (required_labor_hours s)
  /\ headcount_gap s
     = wrap64 (recommended_headcount s - headcount_used r)
  /\ labor_cost_impact s
     = int64_times (Z.max 0 (headcount_gap s)) wage_per_hour
  /\ s_row s = set_uph (uph (s_row s)) (set_backlog_in bin r).
Proof.
  unfold staffing_row. simpl.
  destruct (dict_get (step r) uph_by_step) as [u|]; [|discriminate].
  destruct (Qeq_bool service_target 0 || Qeq_bool (u + eps) 0) eqn:E;
    [discriminate|].
  intros H. injection H as <-. simpl.
  apply orb_false_iff in E as [_ E]. apply Qeq_bool_neq in E.
  repeat split; try reflexivity. exact E.
Qed.

Lemma staffing_row_returns (service_target : Q) (uph_by_step : uph_table)
    (wage_per_hour : number) (r : Row) (bin u : Q) :
  0 < service_target ->
  dict_get (step r) uph_by_step = Some u -> ~ u + eps == 0 ->
  exists s, staffing_row service_target uph_by_step wage_per_hour r bin = Ok s.
Proof.
  intros Htarget Hu Hne. unfold staffing_row. simpl. rewrite Hu. simpl.
  assert (E1 : Qeq_bool service_target 0 = false).
  { destruct (Qeq_bool service_target 0) eqn:E; [|reflexivity].
    apply Qeq_bool_eq in E. rewrite E in Htarget.
    exfalso. exact (Qlt_irrefl _ Htarget). }
  assert (E2 : Qeq_bool (u + eps) 0 = false).
  { destruct (Qeq_bool (u + eps) 0) eqn:E; [|reflexivity].
    apply Qeq_bool_eq in E. contradiction. }
  rewrite E1, E2. simpl. eauto.
Qed.

Lemma sorted_backlog_ins_length (df : DataFrame) :
  length (sort_by_step_timestamp df)
  = length (map (fillna 0)
              (groupby_step_shift backlog_units (sort_by_step_timestamp df))).
Proof. now rewrite length_map, groupby_step_shift_length. Qed.

(** C6, as amended: with a target service level 0 < target <= 1,
    [compute_staffing_recommendations] returns a table when every step of
    the table has its units-per-hour in [uph_by_step] (with uph + 1e-6 not
    zero).  A returned table has the records of the table in the order of
    step and timestamp, each with [backlog_in] and [uph] assigned and
    nothing else changed: [backlog_in] is the [backlog_units] of the
    previous record of the step (not a later one), 0 for the first; [uph]
    is the step's entry of [uph_by_step].  In every record
    required_units = demand_units + backlog_in;
    required_capacity_units = required_units / target;
    required_labor_hours = required_capacity_units / (uph + 1e-6);
    recommended_headcount = ceil(required_labor_hours) when that is within
    int64, and the most negative int64 when it is not;
    headcount_gap = recommended_headcount - headcount_used in int64, the
    exact difference when that is within int64;
    labor_cost_impact = wage * max(0, headcount_gap) for a float wage, and
    for an int wage when the product is within int64; it is 0 when the gap
    is not positive. *)
Theorem C6_staffing_recommendations (df : DataFrame) (service_target : Q)
    (uph_by_step : uph_table) (wage_per_hour : number) :
  0 < service_target -> service_target <= 1 ->
  ((forall r, In r df ->
      exists u, dict_get (step r) uph_by_step = Some u /\ ~ u + eps == 0) ->
   exists out,
     compute_staffing_recommendations df service_target uph_by_step
       wage_per_hour = Ok out
     /\ length out = length df)
  /\ forall out,
       compute_staffing_recommendations df service_target uph_by_step
         wage_per_hour = Ok out ->
       forall (i : nat) (s : StaffingRow),
         nth_error out i = Some s ->
         exists r0 u,
           let before := firstn i (sort_by_step_timestamp df) in
           let bin := carried_backlog before (step r0) in
           let ceiling := Qceiling (required_labor_hours s) in
           let difference :=
             (recommended_headcount s - headcount_used r0)%Z in
           let positive_gap := Z.max 0 (headcount_gap s) in
           nth_error (sort_by_step_timestamp df) i = Some r0
           /\ dict_get (step r0) uph_by_step = Some u
           /\ s_row s = set_uph u (set_backlog_in bin r0)
           /\ (forall p, previous_of_step before (step r0) = Some p ->
                         (timestamp p <= timestamp r0)%Z)
           /\ required_units s = demand_units r0 + bin
           /\ required_capacity_units s = required_units s / service_target
           /\ required_labor_hours s
              = required_capacity_units s / (u + eps)
           /\ (in_int64 ceiling = true -> recommended_headcount s = ceiling)
           /\ (in_int64 ceiling = false ->
               recommended_headcount s = int64_min)
           /\ headcount_gap s = wrap64 difference
           /\ (in_int64 difference = true -> headcount_gap s = difference)
           /\ (match wage_per_hour with
               | PyFloat _ => True
               | PyInt w => in_int64 (positive_gap * w) = true
               end ->
               labor_cost_impact s
               == number_value wage_per_hour * inject_Z positive_gap)
           /\ ((headcount_gap s <= 0)%Z -> labor_cost_impact s == 0).
Proof.
  intros Htarget _. unfold compute_staffing_recommendations.
  set (df1 := sort_by_step_timestamp df).
  set (bins := map (fillna 0) (groupby_step_shift backlog_units df1)).
  set (f := fun p : Row * Q =>
              staffing_row service_target uph_by_step wage_per_hour
                (fst p) (snd p)).
  assert (Hlen : length df1 = length bins)
    by apply sorted_backlog_ins_length.
  split.
  - intros Huph.
    destruct (collect_map_ok f (combine df1 bins)) as (out & Hout & Hl).
    + intros [r bin] Hin. apply in_combine_l in Hin.
      apply (proj1 (stable_sort_In step_ts_leb r df)) in Hin.
      destruct (Huph r Hin) as (u & Hu & Hne).
      now apply (staffing_row_returns _ _ _ r bin u).
    + exists out. split; [exact Hout|].
      rewrite Hl, length_combine, <- Hlen, Nat.min_id.
      apply stable_sort_length.
  - intros out Hout i s Hs.
    destruct (collect_map_nth f _ out Hout i s Hs) as ([r0 bin] & Hx & Hfx).
    assert (Hr0 : nth_error df1 i = Some r0).
    { rewrite <- (map_fst_combine df1 bins Hlen), nth_error_map, Hx.
      reflexivity. }
    pose proof (nth_error_with_shift (fun p => p) df1 i r0 Hr0) as Hbin.
    rewrite map_id in Hbin. fold bins in Hbin. rewrite Hx in Hbin.
    injection Hbin as Hbin.
    unfold f in Hfx. simpl in Hfx.
    destruct (staffing_row_ok _ _ _ _ _ _ Hfx)
      as (_ & _ & _ & _ & Hu & _ & Hru & Hrc & Hrl & Hrh & Hg & Hc & Hrow).
    exists r0, (uph (s_row s)). cbv zeta.
    rewrite <- Hbin.
    split; [exact Hr0|]. split; [exact Hu|]. split; [exact Hrow|].
    split; [intros p Hp; exact (previous_of_step_earlier df i r0 p Hr0 Hp)|].
    split; [exact Hru|]. split; [exact Hrc|]. split; [exact Hrl|].
    unfold ceil in Hrh.
    destruct (astype_int_spec (Qceiling (required_labor_hours s)))
      as [Hin Hout'].
    split; [intros H; now rewrite Hrh, (Hin H)|].
    split; [intros H; now rewrite Hrh, (Hout' H)|].
    split; [exact Hg|].
    split; [intros H; now rewrite Hg, (wrap64_in_range _ H)|].
    split.
    + intros H. rewrite Hc. now apply int64_times_exact.
    + intros Hle. rewrite Hc, Z.max_l by exact Hle. apply int64_times_0.
Qed.

Lemma C6_staffing_recommendations_witness :
  exists out,
    compute_staffing_recommendations staffing_hour (95 # 100) receive_uph
      (PyFloat 20)
    = Ok out
    /\ length out = length staffing_hour.
Proof.
  assert (Hpos : 0 < 95 # 100) by reflexivity.
  assert (Hle : 95 # 100 <= 1) by (unfold Qle; simpl; lia).
  apply (proj1 (C6_staffing_recommendations staffing_hour (95 # 100)
                  receive_uph (PyFloat 20) Hpos Hle)).
  intros r [<- | [<- | []]]; exists 10;
    (split; [reflexivity | intros H; discriminate H]).
Defined.

(** C6 (the claim as stated fails): on one hour with a demand of 1e20 units,
    target 1, one unit per hour and worker, 9 workers used and an int wage
    of 20, the ceiling of the labor hours is past int64:
    [recommended_headcount] is the most negative int64 and not that
    ceiling, [headcount_gap] wraps around to 2^63 - 9 and is not
    recommended_headcount - headcount_used, and [labor_cost_impact] is
    -180 and not wage * max(0, headcount_gap). *)
Lemma C6_headcount_past_int64 :
  exists s,
    compute_staffing_recommendations heavy_hour 1 unit_uph (PyInt 20)
    = Ok [s]
    /\ Qceiling (required_labor_hours s) = 99999900000099999901%Z
    /\ recommended_headcount s = (-9223372036854775808)%Z
    /\ recommended_headcount s <> Qceiling (required_labor_hours s)
    /\ headcount_gap s = 9223372036854775799%Z
    /\ headcount_gap s
       <> (recommended_headcount s - headcount_used (s_row s))%Z
    /\ labor_cost_impact s == - (180)
    /\ ~ labor_cost_impact s == 20 * inject_Z (Z.max 0 (headcount_gap s)).
Proof.
  eexists. split; [reflexivity|]. vm_compute.
  repeat split; try reflexivity; discriminate.
Qed.

(** The scenario of the specification: target 0.95, demand 95, nothing
    carried in, 10 units per hour and worker, 9 workers used: capacity 100
    is required, 10 workers are recommended, the gap is 1 and costs one
    hourly wage.  The next hour carries 5 units in and needs 3 workers: the
    gap of -6 costs nothing. *)
Example compute_staffing_recommendations_scenario :
  option_map
    (map (fun s => (Qred (backlog_in (s_row s)),
                    Qred (required_capacity_units s),
                    recommended_headcount s, headcount_gap s,
                    Qred (labor_cost_impact s))))
    (match compute_staffing_recommendations staffing_hour (95 # 100)
             receive_uph (PyFloat 20) with
     | Ok out => Some out
     | Raise _ => None
     end)
  = Some [(0, 100, 10%Z, 1%Z, 20); (5, 500 # 19, 3%Z, (-6)%Z, 0)].
Proof. vm_compute. reflexivity. Qed.

(** ** The recomputation stage *)

Lemma compute_utilization_map (df : DataFrame) :
  compute_utilization df = map with_utilization df.
Proof. reflexivity. Qed.

Lemma step_ts_leb_keys (a b a' b' : Row) :
  step_ts_backlog a = step_ts_backlog a' ->
  step_ts_backlog b = step_ts_backlog b' ->
  step_ts_leb a b = step_ts_leb a' b'.
Proof.
  unfold step_ts_backlog, step_ts_leb. intros Ha Hb.
  injection Ha as -> -> _. injection Hb as -> -> _. reflexivity.
Qed.

Lemma locally_sorted_same_keys (l1 : DataFrame) :
  forall l2,
    map step_ts_backlog l1 = map step_ts_backlog l2 ->
    locally_sorted step_ts_leb l1 -> locally_sorted step_ts_leb l2.
Proof.
  induction l1 as [|a l1 IH]; intros [|a' l2] Hk Hs; simpl in Hk;
    try discriminate; [exact I|].
  assert (Ha : step_ts_backlog a = step_ts_backlog a') by congruence.
  assert (Hk' : map step_ts_backlog l1 = map step_ts_backlog l2)
    by congruence.
  clear Hk.
  destruct l1 as [|b l1], l2 as [|b' l2]; simpl in Hk'; try discriminate;
    [exact I|].
  destruct Hs as [Hab Hs]. split.
  - assert (Hb : step_ts_backlog b = step_ts_backlog b') by congruence.
    now rewrite <- (step_ts_leb_keys a b a' b' Ha Hb).
  - apply IH; assumption.
Qed.

Lemma groupby_step_shift_from_same_keys (l1 : DataFrame) :
  forall l2 seen,
    map step_ts_backlog l1 = map step_ts_backlog l2 ->
    groupby_step_shift_from backlog_units seen l1
    = groupby_step_shift_from backlog_units seen l2.
Proof.
  induction l1 as [|a l1 IH]; intros [|b l2] seen Hk; simpl in Hk;
    try discriminate; [reflexivity|].
  injection Hk as Hstep _ Hbl Hk. simpl.
  rewrite Hstep, Hbl. f_equal. now apply IH.
Qed.

Lemma with_utilization_keys (l : DataFrame) :
  map step_ts_backlog (map with_utilization l) = map step_ts_backlog l.
Proof. rewrite map_map. apply map_ext. now intros []. Qed.

Lemma with_service_level_keys (l : DataFrame) (bins : list Q) :
  length l = length bins ->
  map step_ts_backlog (map with_service_level (combine l bins))
  = map step_ts_backlog l.
Proof.
  intros Hlen. rewrite map_map.
  rewrite <- (map_fst_combine l bins Hlen) at 2. rewrite map_map.
  apply map_ext. now intros [[] b].
Qed.

(** On a record whose utilization is the recomputed one, recomputing
    utilization and the service-level columns again changes nothing. *)
Lemma recompute_row (r : Row) (bin : Q) :
  with_service_level
    (with_utilization (with_service_level (with_utilization r, bin)), bin)
  = with_service_level (with_utilization r, bin).
Proof. destruct r. reflexivity. Qed.

Lemma recompute_rows (l : DataFrame) :
  forall bins,
    map with_service_level
      (combine
         (map with_utilization
            (map with_service_level (combine (map with_utilization l) bins)))
         bins)
    = map with_service_level (combine (map with_utilization l) bins).
Proof.
  induction l as [|r l IH]; intros [|b bins]; simpl; try reflexivity.
  now rewrite recompute_row, IH.
Qed.

Lemma stable_sort_map {A : Type} (leb : A -> A -> bool) (f : A -> A)
    (Hf : forall a b, leb (f a) (f b) = leb a b) (l : list A) :
  stable_sort leb (map f l) = map f (stable_sort leb l).
Proof.
  assert (Hins : forall x l', insert_sorted leb (f x) (map f l')
                              = map f (insert_sorted leb x l')).
  { intros x l'. induction l' as [|y l' IH]; simpl; [reflexivity|].
    rewrite Hf. destruct (leb x y); simpl; [reflexivity | now rewrite IH]. }
  induction l as [|x l IH]; simpl; [reflexivity|].
  now rewrite IH, Hins.
Qed.

(** C7: the recomputation stage is idempotent: [compute_utilization]
    followed by [compute_service_level], applied to its own result, returns
    that result unchanged, every column of every record included. *)
Theorem C7_recompute_idempotent (df : DataFrame) :
  recompute (recompute df) = recompute df.
Proof.
  unfold recompute, compute_service_level.
  rewrite compute_utilization_map.
  change (compute_utilization df) with (map with_utilization df).
  assert (Hsort : sort_by_step_timestamp (map with_utilization df)
                  = map with_utilization (sort_by_step_timestamp df)).
  { apply stable_sort_map. now intros [] []. }
  rewrite Hsort.
  set (s := sort_by_step_timestamp df).
  set (bins := map (fillna 0)
                 (groupby_step_shift backlog_units (map with_utilization s))).
  set (X := map with_service_level (combine (map with_utilization s) bins)).
  assert (Hlen : length (map with_utilization s) = length bins).
  { unfold bins. now rewrite !length_map, groupby_step_shift_length, length_map. }
  assert (HkX : map step_ts_backlog (map with_utilization X)
                = map step_ts_backlog (map with_utilization s)).
  { rewrite with_utilization_keys. unfold X.
    now apply with_service_level_keys. }
  assert (HsX : sort_by_step_timestamp (map with_utilization X)
                = map with_utilization X).
  { apply stable_sort_sorted.
    apply (locally_sorted_same_keys (map with_utilization s)); [now symmetry|].
    unfold s. rewrite <- Hsort. apply stable_sort_locally_sorted.
    exact step_ts_leb_total. }
  rewrite HsX.
  unfold groupby_step_shift at 1.
  rewrite (groupby_step_shift_from_same_keys _ _ [] HkX).
  fold (groupby_step_shift backlog_units (map with_utilization s)).
  fold bins. unfold X. apply recompute_rows.
Qed.

(** ** [aggregate_daily_metrics] *)

Lemma date_step_eqb_eq (a b : Z * string) :
  date_step_eqb a b = true <-> a = b.
Proof.
  destruct a as [d s], b as [d' s']. unfold date_step_eqb. simpl.
  rewrite andb_true_iff, Z.eqb_eq, String.eqb_eq.
  split; [intros [-> ->]; reflexivity | intros H; injection H; auto].
Qed.



(** The daily table of [two_days]: "pack" and "pick" of day 0, then "pick"
    of day 1; the two hours of "pick" on day 0 add up to 150 processed
    units and average a utilization of 0.9175. *)
Example aggregate_daily_metrics_two_days :
  map (fun d => (Daily.date d, Daily.step d, Qred (Daily.processed_units d),
                 Qred (Daily.utilization d), Daily.headcount_used d))
      (aggregate_daily_metrics two_days)
  = [(0%Z, "pack"%string, 40, 4 # 5, 4%Z);
     (0%Z, "pick"%string, 150, 367 # 400, 15%Z);
     (1%Z, "pick"%string, 50, 5 # 8, 5%Z)].
Proof. vm_compute. reflexivity. Qed.

(** ** [validate_schema] *)

Lemma mem_In (c : string) (l : list string) : mem c l = true <-> In c l.
Proof.
  unfold mem. rewrite existsb_exists. split.
  - intros (x & Hx & E). apply String.eqb_eq in E. now subst.
  - intros H. exists c. split; [exact H | apply String.eqb_refl].
Qed.

Lemma missing_In (df : Schema) (c : string) :
  In c (filter (fun c => negb (mem c (columns df))) required_columns)
  <-> In c required_columns /\ ~ In c (columns df).
Proof.
  rewrite filter_In, negb_true_iff, <- (mem_In c (columns df)).
  destruct (mem c (columns df)); split; intros [H1 H2]; split;
    try exact H1.
  - discriminate.
  - exfalso. now apply H2.
  - discriminate.
  - reflexivity.
Qed.

(** C9 (the claim as stated fails): with every required column present and
    both [demand_units] and [capacity_units] of a non-numeric dtype, the
    error names [demand_units] only; and with [uph] and [headcount_used]
    missing and [demand_units] non-numeric, it names the two missing
    columns only. *)
Lemma C9_error_names_first_failure_only :
  (validate_schema two_text_columns = Raise (MustBeNumeric "demand_units")
   /\ mem "capacity_units" (columns two_text_columns) = true
   /\ column_is_numeric "capacity_units" two_text_columns = false
   /\ names (MustBeNumeric "demand_units") "capacity_units" = false)
  /\ (validate_schema two_missing_one_text
      = Raise (MissingRequiredColumns ["uph"; "headcount_used"]%string)
      /\ mem "demand_units" (columns two_missing_one_text) = true
      /\ column_is_numeric "demand_units" two_missing_one_text = false
      /\ names (MissingRequiredColumns ["uph"; "headcount_used"]%string)
               "demand_units" = false).
Proof. repeat split. Qed.

(** C9 (amended): [validate_schema] succeeds exactly when every required
    column is present and [demand_units], [capacity_units] and
    [processed_units] are numeric.  When it fails and required columns are
    missing, the error names the missing required columns, all of them and
    nothing else; when it fails with every required column present, the
    error names one column: the first of [demand_units], [capacity_units],
    [processed_units], in this order, that is not numeric. *)
Theorem C9_validate_schema (df : Schema) :
  (validate_schema df = Ok tt <->
   (forall c, In c required_columns -> In c (columns df))
   /\ column_is_numeric "demand_units" df = true
   /\ column_is_numeric "capacity_units" df = true
   /\ column_is_numeric "processed_units" df = true)
  /\ forall e, validate_schema df = Raise e ->
       ((exists c, In c required_columns /\ ~ In c (columns df)) ->
        (exists missing, e = MissingRequiredColumns missing)
        /\ forall c, names e c = true
                     <-> In c required_columns /\ ~ In c (columns df))
       /\ ((forall c, In c required_columns -> In c (columns df)) ->
           (e = MustBeNumeric "demand_units"
            /\ column_is_numeric "demand_units" df = false)
           \/ (e = MustBeNumeric "capacity_units"
               /\ column_is_numeric "demand_units" df = true
               /\ column_is_numeric "capacity_units" df = false)
           \/ (e = MustBeNumeric "processed_units"
               /\ column_is_numeric "demand_units" df = true
               /\ column_is_numeric "capacity_units" df = true
               /\ column_is_numeric "processed_units" df = false)).
Proof.
  unfold validate_schema.
  pose proof (missing_In df) as Hmiss.
  destruct (filter (fun c => negb (mem c (columns df))) required_columns)
    as [|m missing] eqn:E.
  - assert (Hall : forall c, In c required_columns -> In c (columns df)).
    { intros c Hc. destruct (mem c (columns df)) eqn:Hm.
      - now apply mem_In.
      - exfalso. apply (proj2 (Hmiss c)). split; [exact Hc|].
        rewrite <- (mem_In c (columns df)). congruence. }
    destruct (column_is_numeric "demand_units" df) eqn:E1;
      destruct (column_is_numeric "capacity_units" df) eqn:E2;
      destruct (column_is_numeric "processed_units" df) eqn:E3; simpl;
      (split;
       [ split; [intros H; try discriminate H; auto
                | intros (_ & H1 & H2 & H3); try discriminate; reflexivity]
       | intros e He; split;
         [ intros (c & Hc & Hn); exfalso; apply Hn, Hall, Hc
         | intros _; try discriminate He; injection He as <-; tauto ] ]).
  - split.
    + split; [discriminate|].
      intros (Hall & _). exfalso.
      destruct (proj1 (Hmiss m) (or_introl eq_refl)) as [Hreq Hn].
      exact (Hn (Hall m Hreq)).
    + intros e He. injection He as <-. split.
      * intros _. split; [eauto|].
        intros c. unfold names. rewrite mem_In. apply Hmiss.
      * intros Hall. exfalso.
        destruct (proj1 (Hmiss m) (or_introl eq_refl)) as [Hreq Hn].
        exact (Hn (Hall m Hreq)).
Qed.

Lemma C9_validate_schema_witness :
  validate_schema raw_schema = Ok tt
  /\ (MustBeNumeric "demand_units" = MustBeNumeric "demand_units"
      /\ column_is_numeric "demand_units" two_text_columns = false
      \/ MustBeNumeric "demand_units" = MustBeNumeric "capacity_units"
         /\ column_is_numeric "demand_units" two_text_columns = true
         /\ column_is_numeric "capacity_units" two_text_columns = false
      \/ MustBeNumeric "demand_units" = MustBeNumeric "processed_units"
         /\ column_is_numeric "demand_units" two_text_columns = true
         /\ column_is_numeric "capacity_units" two_text_columns = true
         /\ column_is_numeric "processed_units" two_text_columns = false).
Proof.
  split.
  - apply (proj1 (C9_validate_schema raw_schema)).
    split; [|repeat split].
    intros c Hc. apply mem_In. simpl in Hc.
    repeat (destruct Hc as [<- | Hc]; [reflexivity|]). contradiction.
  - apply (proj2 (C9_validate_schema two_text_columns)
             (MustBeNumeric "demand_units") eq_refl).
    intros c Hc. apply mem_In. simpl in Hc.
    repeat (destruct Hc as [<- | Hc]; [reflexivity|]). contradiction.
Defined.


(** * Further properties of the code *)

(** ** Arithmetic of the clamps *)

Lemma clip_bounds (x lo hi : Q) : lo <= hi -> lo <= clip x lo hi <= hi.
Proof.
  intros Hlh. unfold clip. split.
  - unfold pymin. destruct (Qle_bool (pymax x lo) hi).
    + apply pymax_ge_r.
    + exact Hlh.
  - apply pymin_le_r.
Qed.

Lemma pymax_0_nonneg (x : Q) : 0 <= pymax 0 x.
Proof. apply pymax_ge_l. Qed.

Lemma pymax_0_eq (x : Q) : 0 <= x -> pymax 0 x == x.
Proof.
  intros Hx. unfold pymax. destruct (Qle_bool x 0) eqn:E; [|reflexivity].
  apply Qle_bool_iff in E. now apply Qle_antisym.
Qed.

Lemma pymax_comm (a b : Q) : pymax a b == pymax b a.
Proof.
  unfold pymax.
  destruct (Qle_bool b a) eqn:E1, (Qle_bool a b) eqn:E2; try reflexivity.
  - apply Qle_bool_iff in E1, E2. now apply Qle_antisym.
  - apply Qle_bool_false in E1, E2. exfalso.
    exact (Qlt_irrefl a (Qlt_trans _ _ _ E1 E2)).
Qed.

(** ** Reading an array at an index *)

Lemma get_item_map (f : Q -> Q) (l : list Q) (i : nat) :
  (i < length l)%nat -> get_item (map f l) i = f (get_item l i).
Proof.
  unfold get_item. revert i.
  induction l as [|x l IH]; intros [|i] Hi; simpl in *; try lia;
    [reflexivity | apply IH; lia].
Qed.

Lemma get_item_map_combine {B : Type} (f : Q * B -> Q) (l : list Q)
    (l' : list B) (d : B) (i : nat) :
  (i < length l)%nat -> (i < length l')%nat ->
  get_item (map f (combine l l')) i = f (get_item l i, nth i l' d).
Proof.
  unfold get_item. revert l' i.
  induction l as [|x l IH]; intros [|y l'] [|i] Hi Hi'; simpl in *; try lia;
    try reflexivity.
  apply IH; lia.
Qed.

Lemma nth_map_ceil (l : list Q) (i : nat) :
  (i < length l)%nat -> nth i (map ceil l) 0%Z = ceil (get_item l i).
Proof.
  unfold get_item. revert i.
  induction l as [|x l IH]; intros [|i] Hi; simpl in *;
    try reflexivity; try (exfalso; lia).
  apply IH; lia.
Qed.

Lemma Forall_get_item (P : Q -> Prop) (l : list Q) (i : nat) :
  Forall P l -> (i < length l)%nat -> P (get_item l i).
Proof.
  intros HP Hi. unfold get_item.
  apply (proj1 (Forall_forall P l) HP). now apply nth_In.
Qed.

(** ** The simulator: structure of a successful run *)

Section SimulatorFacts.
Variable rng : Type.
Variable seed_state : Z -> rng.
Variable gauss : rng -> Q * rng.
Variable random_sample : rng -> Q * rng.
Variable permutation : rng -> Z -> list Z * rng.
Variable py_hash : string -> Z.

Local Abbreviation step_data :=
  (generate_step_data rng seed_state gauss random_sample py_hash).
Local Abbreviation hourly_demand :=
  (generate_hourly_demand rng seed_state gauss permutation).

Lemma normal_draws_length (loc : Q) (scales : list Q) :
  forall g, length (fst (normal_draws rng gauss loc scales g)) = length scales.
Proof.
  induction scales as [|s scales IH]; intros g; simpl; [reflexivity|].
  destruct (normal_draw rng gauss loc s g) as [x g1].
  specialize (IH g1).
  destruct (normal_draws rng gauss loc scales g1) as [xs g2].
  simpl in *. now rewrite IH.
Qed.

Lemma np_random_random_length (n : nat) :
  forall g, length (fst (np_random_random rng random_sample n g)) = n.
Proof.
  induction n as [|n IH]; intros g; simpl; [reflexivity|].
  destruct (random_sample g) as [x g1].
  specialize (IH g1).
  destruct (np_random_random rng random_sample n g1) as [xs g2].
  simpl in *. now rewrite IH.
Qed.

Lemma step_demand_of_length (step : string) (demand : list Q) (g : rng)
    (sd : list Q) (g1 : rng) :
  step_demand_of rng gauss step demand g = Ok (sd, g1) ->
  length sd = length demand.
Proof.
  unfold step_demand_of, bind, np_random_normal.
  destruct (String.eqb step "receive").
  - intros H. now injection H as <- _.
  - match goal with
    | |- context [existsb ?p ?l] => destruct (existsb p l)
    end; [discriminate|].
    intros H. injection H as <- _.
    rewrite length_map, length_combine, normal_draws_length, !length_map.
    apply Nat.min_id.
Qed.

(** A successful run is the loop and the derived columns over some demand
    of the step and some capacity, one per hour, the capacity floored at
    zero. *)
Lemma generate_step_data_inv (demand_df : list Demand.t) (step : string)
    (step_capacity_base capacity_variability_std downtime_probability
     downtime_severity uph cycle_time_base congestion_multiplier_max : Q)
    (random_state : Z) (g : rng) (out : list Sim.t) (g' : rng) :
  step_data demand_df step step_capacity_base capacity_variability_std
    downtime_probability downtime_severity uph cycle_time_base
    congestion_multiplier_max random_state g
  = Ok (out, g') ->
  exists (sd cap : list Q) (g1 : rng),
    step_demand_of rng gauss step (map Demand.demand_units demand_df)
      (seed_state (step_seed py_hash random_state step)) = Ok (sd, g1)
    /\ length sd = length demand_df
    /\ length cap = length demand_df
    /\ Forall (fun c => 0 <= c) cap
    /\ out = sim_table (length demand_df) step uph
               (map Demand.timestamp demand_df) sd cap cycle_time_base
               congestion_multiplier_max.
Proof.
  unfold generate_step_data, bind, np_random_seed.
  destruct ((0 <=? step_seed py_hash random_state step)
            && (step_seed py_hash random_state step <? 2 ^ 32))%Z;
    [|discriminate].
  destruct (step_demand_of rng gauss step _ _) as [[sd g1]|] eqn:Hsd;
    [|discriminate].
  simpl fst; simpl snd.
  unfold np_random_normal_n.
  destruct (Qlt_bool capacity_variability_std 0); [discriminate|].
  simpl fst; simpl snd.
  intros H. injection H as <- _.
  eexists sd, _, g1. split; [reflexivity|].
  split; [|split; [|split; [|reflexivity]]].
  - rewrite (step_demand_of_length _ _ _ _ _ Hsd). apply length_map.
  - rewrite !length_map, length_combine, !length_map, normal_draws_length,
      repeat_length, np_random_random_length.
    apply Nat.min_id.
  - apply Forall_forall. intros c Hc.
    apply in_map_iff in Hc as (x & <- & _). apply pymax_0_nonneg.
Qed.
End SimulatorFacts.

(** ** The loop, hour by hour *)

Section LoopFacts.
Variables step_demand capacity_units : list Q.
Variable n : nat.

Local Abbreviation processed := (fst (process_hours n step_demand capacity_units)).
Local Abbreviation backlog := (snd (process_hours n step_demand capacity_units)).

Lemma process_hours_lengths : length processed = n /\ length backlog = n.
Proof.
  destruct (process_hours_spec step_demand capacity_units n) as (H1 & H2 & _).
  now split.
Qed.

Lemma process_hours_at (t : nat) :
  (t < n)%nat ->
  get_item processed t
  = pymin (get_item step_demand t + backlog_in_at backlog t)
          (get_item capacity_units t)
  /\ get_item backlog t
     = pymax 0 (get_item step_demand t + backlog_in_at backlog t
                - get_item processed t).
Proof.
  destruct (process_hours_spec step_demand capacity_units n) as (_ & _ & H).
  exact (H t).
Qed.

Lemma backlog_nonneg (t : nat) : (t < n)%nat -> 0 <= get_item backlog t.
Proof.
  intros Ht. destruct (process_hours_at t Ht) as [_ ->].
  apply pymax_0_nonneg.
Qed.

Lemma backlog_in_nonneg (t : nat) :
  (t < n)%nat -> 0 <= backlog_in_at backlog t.
Proof.
  intros Ht. destruct t as [|t]; simpl; [apply Qle_refl|].
  apply backlog_nonneg. lia.
Qed.

Lemma processed_le_capacity (t : nat) :
  (t < n)%nat -> get_item processed t <= get_item capacity_units t.
Proof.
  intros Ht. destruct (process_hours_at t Ht) as [-> _]. apply pymin_le_r.
Qed.

Lemma processed_le_total (t : nat) :
  (t < n)%nat ->
  get_item processed t <= get_item step_demand t + backlog_in_at backlog t.
Proof.
  intros Ht. destruct (process_hours_at t Ht) as [-> _]. apply pymin_le_l.
Qed.

(** What is not processed is carried over, all of it. *)
Lemma backlog_balance (t : nat) :
  (t < n)%nat ->
  get_item backlog t
  == get_item step_demand t + backlog_in_at backlog t - get_item processed t.
Proof.
  intros Ht. destruct (process_hours_at t Ht) as [_ Hb].
  rewrite Hb at 1. apply pymax_0_eq.
  pose proof (processed_le_total t Ht) as Hle.
  apply (Qplus_le_l _ _ (get_item processed t)). ring_simplify.
  exact Hle.
Qed.

Lemma processed_nonneg (t : nat) :
  (t < n)%nat -> 0 <= get_item step_demand t ->
  0 <= get_item capacity_units t -> 0 <= get_item processed t.
Proof.
  intros Ht Hd Hc. destruct (process_hours_at t Ht) as [-> _].
  unfold pymin.
  destruct (Qle_bool _ _); [|exact Hc].
  pose proof (backlog_in_nonneg t Ht) as Hb.
  replace 0 with (0 + 0) by reflexivity. now apply Qplus_le_compat.
Qed.

(** A backlog is left only by an hour that used its whole capacity. *)
Lemma backlog_pos_full_capacity (t : nat) :
  (t < n)%nat -> 0 < get_item backlog t ->
  get_item processed t = get_item capacity_units t.
Proof.
  intros Ht Hpos. destruct (process_hours_at t Ht) as [Hp Hb].
  rewrite Hp. unfold pymin.
  destruct (Qle_bool _ _) eqn:E; [|reflexivity].
  exfalso. rewrite Hb, Hp in Hpos. unfold pymin in Hpos. rewrite E in Hpos.
  unfold pymax in Hpos.
  match type of Hpos with
  | context [Qle_bool ?x 0] => destruct (Qle_bool x 0) eqn:E0
  end.
  - exact (Qlt_irrefl _ Hpos).
  - apply Qle_bool_false in E0. revert E0. apply Qle_not_lt.
    ring_simplify. apply Qle_refl.
Qed.
End LoopFacts.

Lemma Qsum_app (l1 l2 : list Q) : Qsum (l1 ++ l2) == Qsum l1 + Qsum l2.
Proof.
  induction l1 as [|x l1 IH]; simpl.
  - now rewrite Qplus_0_l.
  - rewrite IH. apply Qplus_assoc.
Qed.

(** Over the hours below [k], the demand is what was processed plus the
    backlog carried into hour [k]. *)
Lemma process_hours_conservation (step_demand capacity_units : list Q)
    (n k : nat) :
  (k <= n)%nat ->
  Qsum (map (get_item step_demand) (seq 0 k))
  == Qsum (map (get_item (fst (process_hours n step_demand capacity_units)))
             (seq 0 k))
     + backlog_in_at (snd (process_hours n step_demand capacity_units)) k.
Proof.
  induction k as [|k IH]; intros Hk.
  - simpl. now rewrite Qplus_0_l.
  - rewrite seq_S, !map_app, !Qsum_app. simpl.
    rewrite IH by lia.
    rewrite (backlog_balance step_demand capacity_units n k) by lia.
    ring.
Qed.

(** ** The records of the simulator *)

Lemma sim_table_nth (n : nat) (step : string) (uph : Q) (ts : list Z)
    (sd cap : list Q) (cycle_time_base cmax : Q) (t : nat) (r : Sim.t) :
  length cap = n ->
  nth_error (sim_table n step uph ts sd cap cycle_time_base cmax) t = Some r ->
  (t < n)%nat
  /\ Sim.timestamp r = nth t ts 0%Z
  /\ Sim.step r = step
  /\ Sim.uph r = uph
  /\ Sim.demand_units r = get_item sd t
  /\ Sim.capacity_units r = get_item cap t
  /\ Sim.processed_units r = get_item (fst (process_hours n sd cap)) t
  /\ Sim.backlog_units r = get_item (snd (process_hours n sd cap)) t
  /\ Sim.utilization r
     = clip (Sim.processed_units r / (Sim.capacity_units r + eps)) 0 1
  /\ Sim.cycle_time_min r
     = cycle_time_base
       * clip (1 + (Sim.utilization r - (7 # 10)) * (cmax - 1) / (3 # 10))
              1 cmax
  /\ Sim.labor_hours_used r = Sim.processed_units r / (uph + eps)
  /\ Sim.headcount_used r = ceil (Sim.labor_hours_used r).
Proof.
  intros Hcap Hr. unfold sim_table in Hr. cbv zeta in Hr.
  apply build_rows_nth in Hr as [Ht ->].
  destruct (process_hours_lengths sd cap n) as [Hlp _].
  simpl.
  assert (Hu : get_item
                 (map (fun p => clip (fst p / (snd p + eps)) 0 1)
                    (combine (fst (process_hours n sd cap)) cap)) t
               = clip (get_item (fst (process_hours n sd cap)) t
                       / (get_item cap t + eps)) 0 1).
  { rewrite (get_item_map_combine _ _ _ 0) by lia. reflexivity. }
  repeat split; try reflexivity; try exact Ht.
  - exact Hu.
  - rewrite !get_item_map; [now rewrite Hu| |].
    + rewrite length_map, length_combine. lia.
    + rewrite !length_map, length_combine. lia.
  - rewrite get_item_map by lia. reflexivity.
  - rewrite nth_map_ceil by (rewrite length_map; lia). reflexivity.
Qed.

Lemma sim_table_length (n : nat) (step : string) (uph : Q) (ts : list Z)
    (sd cap : list Q) (cycle_time_base cmax : Q) :
  length (sim_table n step uph ts sd cap cycle_time_base cmax) = n.
Proof. apply build_rows_length. Qed.

Lemma sim_table_backlog_in (n : nat) (step : string) (uph : Q) (ts : list Z)
    (sd cap : list Q) (cycle_time_base cmax : Q) (t : nat) :
  (t <= n)%nat ->
  sim_backlog_in (sim_table n step uph ts sd cap cycle_time_base cmax) t
  = backlog_in_at (snd (process_hours n sd cap)) t.
Proof.
  intros Ht. destruct t as [|t]; simpl; [reflexivity|].
  unfold sim_table. cbv zeta. rewrite build_rows_nth_lt by lia. reflexivity.
Qed.

Lemma sim_table_columns (n : nat) (step : string) (uph : Q) (ts : list Z)
    (sd cap : list Q) (cycle_time_base cmax : Q) :
  map Sim.demand_units (sim_table n step uph ts sd cap cycle_time_base cmax)
  = map (get_item sd) (seq 0 n)
  /\ map Sim.processed_units
       (sim_table n step uph ts sd cap cycle_time_base cmax)
     = map (get_item (fst (process_hours n sd cap))) (seq 0 n)
  /\ map Sim.timestamp (sim_table n step uph ts sd cap cycle_time_base cmax)
     = map (fun i => nth i ts 0%Z) (seq 0 n).
Proof.
  unfold sim_table, build_rows. cbv zeta. rewrite !map_map.
  repeat split.
Qed.

Lemma map_nth_seq {A : Type} (l : list A) (d : A) :
  map (fun i => nth i l d) (seq 0 (length l)) = l.
Proof.
  induction l as [|a l IH]; [reflexivity|].
  simpl. f_equal. rewrite <- seq_shift, map_map. exact IH.
Qed.

Lemma Qceiling_nonneg (x : Q) : 0 <= x -> (0 <= Qceiling x)%Z.
Proof.
  intros Hx. rewrite Zle_Qle.
  apply Qle_trans with x; [exact Hx | apply Qle_ceiling].
Qed.

Lemma eps_pos : 0 < eps.
Proof. reflexivity. Qed.

Lemma Qdiv_nonneg (a b : Q) : 0 <= a -> 0 < b -> 0 <= a / b.
Proof.
  intros Ha Hb. unfold Qdiv. apply Qmult_le_0_compat; [exact Ha|].
  apply Qlt_le_weak. now apply Qinv_lt_0_compat.
Qed.

Section SimulatorRows.
Variable rng : Type.
Variable seed_state : Z -> rng.
Variable gauss : rng -> Q * rng.
Variable random_sample : rng -> Q * rng.
Variable py_hash : string -> Z.

(** The records of a simulated step: the timestamps of the demand, in the
    same order, and the step name in every record. *)
Lemma generate_step_data_rows (demand_df : list Demand.t) (step : string)
    (step_capacity_base capacity_variability_std downtime_probability
     downtime_severity uph cycle_time_base congestion_multiplier_max : Q)
    (random_state : Z) (g : rng) (out : list Sim.t) (g' : rng) :
  generate_step_data rng seed_state gauss random_sample py_hash demand_df
    step step_capacity_base capacity_variability_std downtime_probability
    downtime_severity uph cycle_time_base congestion_multiplier_max
    random_state g
  = Ok (out, g') ->
  map Sim.timestamp out = map Demand.timestamp demand_df
  /\ (forall r, In r out -> Sim.step r = step).
Proof.
  intros Hrun.
  destruct (generate_step_data_inv _ _ _ _ _ _ _ _ _ _ _ _ _ _ _ _ _ _ Hrun)
    as (sd & cap & g1 & _ & _ & Hcap & _ & ->).
  destruct (sim_table_columns (length demand_df) step uph
              (map Demand.timestamp demand_df) sd cap cycle_time_base
              congestion_multiplier_max) as (_ & _ & Hts).
  split.
  - rewrite Hts. rewrite <- (length_map Demand.timestamp demand_df).
    apply map_nth_seq.
  - intros r Hr. apply In_nth_error in Hr as [t Ht].
    now destruct (sim_table_nth _ _ _ _ _ _ _ _ _ _ Hcap Ht)
      as (_ & _ & H1 & _).
Qed.
End SimulatorRows.

Section SimulatorProperties.
Variable rng : Type.
Variable seed_state : Z -> rng.
Variable gauss : rng -> Q * rng.
Variable random_sample : rng -> Q * rng.
Variable py_hash : string -> Z.

Variable demand_df : list Demand.t.
Variable step : string.
Variables step_capacity_base capacity_variability_std : Q.
Variables downtime_probability downtime_severity : Q.
Variables uph cycle_time_base congestion_multiplier_max : Q.
Variable random_state : Z.
Variable g : rng.

Local Abbreviation run :=
  (generate_step_data rng seed_state gauss random_sample py_hash demand_df
     step step_capacity_base capacity_variability_std downtime_probability
     downtime_severity uph cycle_time_base congestion_multiplier_max
     random_state g).

(** Every record of a simulated step has its utilization within [0, 1], a
    capacity and a backlog that are not negative, and no more processed
    than the capacity of the hour. *)
Theorem generate_step_data_bounds (out : list Sim.t) (g' : rng) :
  run = Ok (out, g') ->
  forall r, In r out ->
    0 <= Sim.utilization r <= 1
    /\ 0 <= Sim.capacity_units r
    /\ 0 <= Sim.backlog_units r
    /\ Sim.processed_units r <= Sim.capacity_units r.
Proof.
  intros Hrun r Hr.
  destruct (generate_step_data_inv _ _ _ _ _ _ _ _ _ _ _ _ _ _ _ _ _ _ Hrun)
    as (sd & cap & g1 & _ & Hsd & Hcap & Hpos & ->).
  apply In_nth_error in Hr as [t Ht].
  destruct (sim_table_nth _ _ _ _ _ _ _ _ _ _ Hcap Ht)
    as (Hlt & _ & _ & _ & _ & Hc & Hp & Hb & Hu & _).
  split; [|split; [|split]].
  - rewrite Hu. apply clip_bounds. discriminate.
  - rewrite Hc. apply Forall_get_item; [exact Hpos | lia].
  - rewrite Hb. now apply backlog_nonneg.
  - rewrite Hp, Hc. now apply processed_le_capacity.
Qed.

(** A backlog is left at the end of an hour only if the hour processed its
    whole capacity. *)
Theorem generate_step_data_work_conserving (out : list Sim.t) (g' : rng) :
  run = Ok (out, g') ->
  forall r, In r out -> 0 < Sim.backlog_units r ->
    Sim.processed_units r = Sim.capacity_units r.
Proof.
  intros Hrun r Hr Hpos.
  destruct (generate_step_data_inv _ _ _ _ _ _ _ _ _ _ _ _ _ _ _ _ _ _ Hrun)
    as (sd & cap & g1 & _ & Hsd & Hcap & _ & ->).
  apply In_nth_error in Hr as [t Ht].
  destruct (sim_table_nth _ _ _ _ _ _ _ _ _ _ Hcap Ht)
    as (Hlt & _ & _ & _ & _ & Hc & Hp & Hb & _).
  rewrite Hp, Hc. apply backlog_pos_full_capacity; [exact Hlt|].
  now rewrite <- Hb.
Qed.

(** Over the whole horizon of a simulated step, the demand is the units
    processed plus the backlog left after the last hour: nothing is lost
    and nothing is created. *)
Theorem generate_step_data_conservation (out : list Sim.t) (g' : rng) :
  run = Ok (out, g') ->
  Qsum (map Sim.demand_units out)
  == Qsum (map Sim.processed_units out) + sim_backlog_in out (length out).
Proof.
  intros Hrun.
  destruct (generate_step_data_inv _ _ _ _ _ _ _ _ _ _ _ _ _ _ _ _ _ _ Hrun)
    as (sd & cap & g1 & _ & Hsd & Hcap & _ & ->).
  destruct (sim_table_columns (length demand_df) step uph
              (map Demand.timestamp demand_df) sd cap cycle_time_base
              congestion_multiplier_max) as (-> & -> & _).
  rewrite sim_table_length, sim_table_backlog_in by lia.
  now apply process_hours_conservation.
Qed.

(** With a base cycle time that is not negative and a congestion
    multiplier of at least 1, the cycle time of every record lies between
    the base and the base times the multiplier. *)
Theorem generate_step_data_cycle_time (out : list Sim.t) (g' : rng) :
  run = Ok (out, g') ->
  0 <= cycle_time_base -> 1 <= congestion_multiplier_max ->
  forall r, In r out ->
    cycle_time_base <= Sim.cycle_time_min r
    /\ Sim.cycle_time_min r <= cycle_time_base * congestion_multiplier_max.
Proof.
  intros Hrun Hbase Hmax r Hr.
  destruct (generate_step_data_inv _ _ _ _ _ _ _ _ _ _ _ _ _ _ _ _ _ _ Hrun)
    as (sd & cap & g1 & _ & Hsd & Hcap & _ & ->).
  apply In_nth_error in Hr as [t Ht].
  destruct (sim_table_nth _ _ _ _ _ _ _ _ _ _ Hcap Ht)
    as (_ & _ & _ & _ & _ & _ & _ & _ & _ & Hy & _).
  rewrite Hy.
  match goal with
  | |- context [clip ?x 1 ?m] =>
      destruct (clip_bounds x 1 m Hmax) as [Hlo Hhi];
      set (c := clip x 1 m) in *
  end.
  split.
  - rewrite <- (Qmult_1_r cycle_time_base) at 1.
    rewrite !(Qmult_comm cycle_time_base).
    now apply Qmult_le_compat_r.
  - rewrite !(Qmult_comm cycle_time_base).
    now apply Qmult_le_compat_r.
Qed.

(** The table of a simulated step has the timestamps of the demand, in the
    same order, the step name and the units-per-hour in every record; step
    "receive" sees the demand as it is. *)
Theorem generate_step_data_keeps_hours (out : list Sim.t) (g' : rng) :
  run = Ok (out, g') ->
  map Sim.timestamp out = map Demand.timestamp demand_df
  /\ (forall r, In r out -> Sim.step r = step /\ Sim.uph r = uph)
  /\ (step = "receive"%string ->
      map Sim.demand_units out = map Demand.demand_units demand_df).
Proof.
  intros Hrun.
  destruct (generate_step_data_inv _ _ _ _ _ _ _ _ _ _ _ _ _ _ _ _ _ _ Hrun)
    as (sd & cap & g1 & Hstep & Hsd & Hcap & _ & ->).
  destruct (sim_table_columns (length demand_df) step uph
              (map Demand.timestamp demand_df) sd cap cycle_time_base
              congestion_multiplier_max) as (Hd & _ & Hts).
  split; [|split].
  - rewrite Hts. rewrite <- (length_map Demand.timestamp demand_df).
    apply map_nth_seq.
  - intros r Hr. apply In_nth_error in Hr as [t Ht].
    now destruct (sim_table_nth _ _ _ _ _ _ _ _ _ _ Hcap Ht)
      as (_ & _ & H1 & H2 & _).
  - intros Hreceive. rewrite Hd.
    unfold step_demand_of in Hstep. rewrite Hreceive in Hstep.
    simpl in Hstep. injection Hstep as <- _.
    unfold get_item. rewrite <- (length_map Demand.demand_units demand_df).
    apply map_nth_seq.
Qed.
End SimulatorProperties.

(** ** The simulator: when it returns *)

Lemma lag_scale_nonneg (step : string) (d : Q) :
  Qlt_bool
    (d * (1 - (5 # 100)
              * (if String.eqb step "pick" then 1
                 else if String.eqb step "pack" then 2 else 3))
     * (5 # 100)) 0 = false
  <-> 0 <= d.
Proof.
  rewrite Qlt_bool_false.
  destruct (String.eqb step "pick"); [|destruct (String.eqb step "pack")];
    split; intros H; lra.
Qed.

Lemma lag_scales_nonneg (step : string) (demand : list Q) :
  existsb (fun s => Qlt_bool s 0)
    (map (fun d => d * (5 # 100))
       (map (fun d =>
               d * (1 - (5 # 100)
                        * (if String.eqb step "pick" then 1
                           else if String.eqb step "pack" then 2 else 3)))
          demand)) = false
  <-> Forall (fun d => 0 <= d) demand.
Proof.
  induction demand as [|d demand IH]; simpl.
  - split; [constructor | reflexivity].
  - rewrite orb_false_iff, IH, lag_scale_nonneg. split.
    + intros [H1 H2]. now constructor.
    + intros H. inversion H; subst. now split.
Qed.

Section SimulatorReturns.
Variable rng : Type.
Variable seed_state : Z -> rng.
Variable gauss : rng -> Q * rng.
Variable random_sample : rng -> Q * rng.
Variable py_hash : string -> Z.

Variable demand_df : list Demand.t.
Variable step : string.
Variables step_capacity_base capacity_variability_std : Q.
Variables downtime_probability downtime_severity : Q.
Variables uph cycle_time_base congestion_multiplier_max : Q.
Variable random_state : Z.
Variable g : rng.

Local Abbreviation run :=
  (generate_step_data rng seed_state gauss random_sample py_hash demand_df
     step step_capacity_base capacity_variability_std downtime_probability
     downtime_severity uph cycle_time_base congestion_multiplier_max
     random_state g).

(** [generate_step_data] returns a table exactly when the seed
    [random_state + hash(step) % 1000] is one numpy accepts, the capacity
    variability is not negative and, for a step other than "receive", no
    demand is negative; otherwise numpy raises. *)
Theorem generate_step_data_returns_iff :
  (exists out g', run = Ok (out, g'))
  <-> (0 <= step_seed py_hash random_state step < 2 ^ 32)%Z
      /\ 0 <= capacity_variability_std
      /\ (step = "receive"%string
          \/ Forall (fun d => 0 <= d) (map Demand.demand_units demand_df)).
Proof.
  unfold generate_step_data, bind, np_random_seed.
  destruct ((0 <=? step_seed py_hash random_state step)
            && (step_seed py_hash random_state step <? 2 ^ 32))%Z eqn:Hseed.
  - apply andb_true_iff in Hseed as [H1 H2].
    apply Z.leb_le in H1. apply Z.ltb_lt in H2.
    unfold step_demand_of, bind, np_random_normal, np_random_normal_n.
    pose proof (lag_scales_nonneg step (map Demand.demand_units demand_df))
      as Hscales.
    destruct (String.eqb_spec step "receive") as [Hrec | Hrec].
    + simpl fst; simpl snd.
      destruct (Qlt_bool capacity_variability_std 0) eqn:Hstd.
      * split; [intros (out & g' & H); discriminate|].
        intros (_ & Hs & _). apply Qlt_bool_iff in Hstd.
        exfalso. exact (Qlt_not_le _ _ Hstd Hs).
      * apply Qlt_bool_false in Hstd.
        split; [intros _; repeat split; auto; lia | intros _; eauto].
    + match type of Hscales with
      | existsb ?p ?l = false <-> _ => destruct (existsb p l) eqn:Hex
      end.
      * split; [intros (out & g' & H); discriminate|].
        intros (_ & _ & [Hr | Hall]); [contradiction|].
        apply Hscales in Hall. discriminate.
      * simpl fst; simpl snd.
        destruct (Qlt_bool capacity_variability_std 0) eqn:Hstd.
        -- split; [intros (out & g' & H); discriminate|].
           intros (_ & Hs & _). apply Qlt_bool_iff in Hstd.
           exfalso. exact (Qlt_not_le _ _ Hstd Hs).
        -- apply Qlt_bool_false in Hstd.
           split; [|intros _; eauto].
           intros _. repeat split; auto; try lia.
           right. now apply Hscales.
  - split; [intros (out & g' & H); discriminate|].
    intros (Hs & _). exfalso.
    apply andb_false_iff in Hseed as [H | H].
    + apply Z.leb_gt in H. lia.
    + apply Z.ltb_ge in H. lia.
Qed.

(** When no demand is negative and the units-per-hour is not negative,
    every record of a simulated step has a demand, a processed quantity and
    a labor time that are not negative.  Its headcount is the ceiling of
    the labor time, hence not negative, while the labor time is at most
    2^63 - 1; past that the cast to int64 leaves the most negative
    int64. *)
Theorem generate_step_data_nonnegative (out : list Sim.t) (g' : rng) :
  run = Ok (out, g') ->
  Forall (fun d => 0 <= d) (map Demand.demand_units demand_df) ->
  0 <= uph ->
  forall r, In r out ->
    0 <= Sim.demand_units r
    /\ 0 <= Sim.processed_units r
    /\ 0 <= Sim.labor_hours_used r
    /\ (Sim.labor_hours_used r <= inject_Z int64_max ->
        Sim.headcount_used r = Qceiling (Sim.labor_hours_used r)
        /\ (0 <= Sim.headcount_used r)%Z)
    /\ (inject_Z int64_max < Sim.labor_hours_used r ->
        Sim.headcount_used r = int64_min).
Proof.
  intros Hrun Hdemand Huph r Hr.
  destruct (generate_step_data_inv _ _ _ _ _ _ _ _ _ _ _ _ _ _ _ _ _ _ Hrun)
    as (sd & cap & g1 & Hstep & Hsd & Hcap & Hpos & ->).
  assert (Hsdpos : Forall (fun d => 0 <= d) sd).
  { unfold step_demand_of, bind, np_random_normal in Hstep.
    destruct (String.eqb step "receive").
    - now injection Hstep as <- _.
    - match type of Hstep with
      | context [existsb ?p ?l] => destruct (existsb p l)
      end; [discriminate|].
      injection Hstep as <- _. apply Forall_forall. intros x Hx.
      apply in_map_iff in Hx as (p & <- & _). apply pymax_0_nonneg. }
  apply In_nth_error in Hr as [t Ht].
  destruct (sim_table_nth _ _ _ _ _ _ _ _ _ _ Hcap Ht)
    as (Hlt & _ & _ & _ & Hd & Hc & Hp & _ & _ & _ & Hl & Hh).
  assert (Hd0 : 0 <= Sim.demand_units r).
  { rewrite Hd. apply Forall_get_item; [exact Hsdpos | lia]. }
  assert (Hp0 : 0 <= Sim.processed_units r).
  { rewrite Hp. apply processed_nonneg; [exact Hlt | |].
    - now rewrite <- Hd.
    - apply Forall_get_item; [exact Hpos | lia]. }
  assert (Hl0 : 0 <= Sim.labor_hours_used r).
  { rewrite Hl. apply Qdiv_nonneg; [exact Hp0|].
    pose proof eps_pos. lra. }
  split; [exact Hd0|]. split; [exact Hp0|]. split; [exact Hl0|]. split.
  - intros Hfit.
    assert (E : Sim.headcount_used r = Qceiling (Sim.labor_hours_used r)).
    { rewrite Hh. apply ceil_in_range; [|exact Hfit].
      eapply Qlt_le_trans; [|exact Hl0]. reflexivity. }
    split; [exact E|]. rewrite E. now apply Qceiling_nonneg.
  - intros Hpast. rewrite Hh. now apply ceil_past_range.
Qed.
End SimulatorReturns.

(** Step "pick" over [three_hours], run on the stand-in generator. *)

Lemma generate_step_data_bounds_witness :
  Forall (fun r =>
            0 <= Sim.utilization r <= 1
            /\ 0 <= Sim.capacity_units r
            /\ 0 <= Sim.backlog_units r
            /\ Sim.processed_units r <= Sim.capacity_units r)
         (table_of (run_pick hash_of_process_a 7%Z)).
Proof.
  apply (proj2 (Forall_forall _ _)).
  apply (generate_step_data_bounds Lcg.rng Lcg.seed_state Lcg.gauss
           Lcg.random_sample hash_of_process_a three_hours "pick"
           (11 # 10) (1 # 10) (3 # 10) (1 # 2) 10 5 2 42%Z 7%Z
           (table_of (run_pick hash_of_process_a 7%Z))
           (state_of (run_pick hash_of_process_a 7%Z))).
  vm_compute. reflexivity.
Defined.

Lemma generate_step_data_work_conserving_witness :
  Exists (fun r => 0 < Sim.backlog_units r)
         (table_of (run_pick hash_of_process_a 7%Z))
  /\ Forall (fun r => 0 < Sim.backlog_units r ->
                      Sim.processed_units r = Sim.capacity_units r)
            (table_of (run_pick hash_of_process_a 7%Z)).
Proof.
  split.
  - vm_compute. apply Exists_cons_hd. reflexivity.
  - apply (proj2 (Forall_forall _ _)).
    apply (generate_step_data_work_conserving Lcg.rng Lcg.seed_state Lcg.gauss
           Lcg.random_sample hash_of_process_a three_hours "pick"
           (11 # 10) (1 # 10) (3 # 10) (1 # 2) 10 5 2 42%Z 7%Z
           (table_of (run_pick hash_of_process_a 7%Z))
           (state_of (run_pick hash_of_process_a 7%Z))).
    vm_compute. reflexivity.
Defined.

Lemma generate_step_data_conservation_witness :
  let out := table_of (run_pick hash_of_process_a 7%Z) in
  Qsum (map Sim.demand_units out)
  == Qsum (map Sim.processed_units out) + sim_backlog_in out (length out).
Proof.
  apply (generate_step_data_conservation Lcg.rng Lcg.seed_state Lcg.gauss
           Lcg.random_sample hash_of_process_a three_hours "pick"
           (11 # 10) (1 # 10) (3 # 10) (1 # 2) 10 5 2 42%Z 7%Z
           (table_of (run_pick hash_of_process_a 7%Z))
           (state_of (run_pick hash_of_process_a 7%Z))).
  vm_compute. reflexivity.
Defined.

Lemma generate_step_data_cycle_time_witness :
  Forall (fun r => 5 <= Sim.cycle_time_min r /\ Sim.cycle_time_min r <= 5 * 2)
         (table_of (run_pick hash_of_process_a 7%Z)).
Proof.
  apply (proj2 (Forall_forall _ _)).
  apply (generate_step_data_cycle_time Lcg.rng Lcg.seed_state Lcg.gauss
           Lcg.random_sample hash_of_process_a three_hours "pick"
           (11 # 10) (1 # 10) (3 # 10) (1 # 2) 10 5 2 42%Z 7%Z
           (table_of (run_pick hash_of_process_a 7%Z))
           (state_of (run_pick hash_of_process_a 7%Z))).
  - vm_compute. reflexivity.
  - unfold Qle. simpl. lia.
  - unfold Qle. simpl. lia.
Defined.

Lemma generate_step_data_keeps_hours_witness :
  let out := table_of (run_pick hash_of_process_a 7%Z) in
  map Sim.timestamp out = map Demand.timestamp three_hours
  /\ (forall r, In r out -> Sim.step r = "pick"%string /\ Sim.uph r = 10)
  /\ ("pick"%string = "receive"%string ->
      map Sim.demand_units out = map Demand.demand_units three_hours).
Proof.
  apply (generate_step_data_keeps_hours Lcg.rng Lcg.seed_state Lcg.gauss
           Lcg.random_sample hash_of_process_a three_hours "pick"
           (11 # 10) (1 # 10) (3 # 10) (1 # 2) 10 5 2 42%Z 7%Z
           (table_of (run_pick hash_of_process_a 7%Z))
           (state_of (run_pick hash_of_process_a 7%Z))).
  vm_compute. reflexivity.
Defined.

Lemma generate_step_data_returns_iff_witness :
  exists out g', run_pick hash_of_process_a 7%Z = Ok (out, g').
Proof.
  apply (proj2 (generate_step_data_returns_iff Lcg.rng Lcg.seed_state
                  Lcg.gauss Lcg.random_sample hash_of_process_a three_hours
                  "pick" (11 # 10) (1 # 10) (3 # 10) (1 # 2) 10 5 2 42%Z
                  7%Z)).
  split; [vm_compute; split; [discriminate | reflexivity]|].
  split; [unfold Qle; simpl; lia|].
  right. repeat constructor; unfold Qle; simpl; lia.
Defined.

Lemma generate_step_data_nonnegative_witness :
  Forall (fun r =>
            0 <= Sim.demand_units r
            /\ 0 <= Sim.processed_units r
            /\ 0 <= Sim.labor_hours_used r
            /\ Sim.headcount_used r = Qceiling (Sim.labor_hours_used r)
            /\ (0 <= Sim.headcount_used r)%Z)
         (table_of (run_pick hash_of_process_a 7%Z)).
Proof.
  assert (Hfit : Forall (fun r => Sim.labor_hours_used r
                                  <= inject_Z int64_max)
                   (table_of (run_pick hash_of_process_a 7%Z))).
  { repeat constructor; vm_compute; discriminate. }
  apply (proj2 (Forall_forall _ _)). intros r Hr.
  destruct (generate_step_data_nonnegative Lcg.rng Lcg.seed_state Lcg.gauss
              Lcg.random_sample hash_of_process_a three_hours "pick"
              (11 # 10) (1 # 10) (3 # 10) (1 # 2) 10 5 2 42%Z 7%Z
              (table_of (run_pick hash_of_process_a 7%Z))
              (state_of (run_pick hash_of_process_a 7%Z)))
    with (r := r) as (Hd & Hp & Hl & Hh & _).
  - vm_compute. reflexivity.
  - repeat constructor; unfold Qle; simpl; lia.
  - unfold Qle. simpl. lia.
  - exact Hr.
  - destruct (Hh (proj1 (Forall_forall _ _) Hfit r Hr)) as [H1 H2].
    repeat split; assumption.
Defined.

(** ** The demand generator *)

Lemma seq_add_map (a n : nat) :
  forall b, seq (a + b) n = map (Nat.add a) (seq b n).
Proof.
  induction n as [|n IH]; intros b; simpl; [reflexivity|].
  f_equal. rewrite <- IH. f_equal. lia.
Qed.

(** The hours of the days [a], [a+1], ..., one after the other, are the
    hours [24a], [24a+1], ... counted from the start. *)
Lemma day_hours_flat (start : Z) (m : nat) :
  forall a,
    flat_map (fun day => map (fun h => ((start + day) * 24 + h)%Z) (range 24))
             (map Z.of_nat (seq a m))
    = map (fun k => (start * 24 + Z.of_nat k)%Z) (seq (24 * a) (24 * m)).
Proof.
  induction m as [|m IH]; intros a.
  - rewrite Nat.mul_0_r. reflexivity.
  - cbn [seq map flat_map]. rewrite IH.
    replace (24 * S m)%nat with (24 + 24 * m)%nat by lia.
    rewrite seq_app, map_app.
    replace (24 * S a)%nat with (24 * a + 24)%nat by lia.
    f_equal.
    rewrite <- (Nat.add_0_r (24 * a)) at 1.
    rewrite seq_add_map, map_map. unfold range. rewrite map_map.
    apply map_ext. intros i. lia.
Qed.

Section DemandFacts.
Variable rng : Type.
Variable seed_state : Z -> rng.
Variable gauss : rng -> Q * rng.
Variable permutation : rng -> Z -> list Z * rng.

Lemma hour_demand_nonneg (base dow_mult promo_mult : Q)
    (hs : HourlySeasonality) (hour : Z) (g : rng) :
  0 <= fst (hour_demand rng gauss base dow_mult promo_mult hs hour g).
Proof.
  unfold hour_demand.
  destruct (normal_draw rng gauss 1 (1 # 10) g) as [noise g1].
  apply pymax_0_nonneg.
Qed.

Lemma hours_loop_rows (base dow_mult promo_mult : Q)
    (hs : HourlySeasonality) (current_date : Z) (hours : list Z) :
  forall g,
    let out := fst (hours_loop rng gauss base dow_mult promo_mult hs
                      current_date hours g) in
    map Demand.timestamp out
    = map (fun h => (current_date * 24 + h)%Z) hours
    /\ Forall (fun d => 0 <= Demand.demand_units d) out.
Proof.
  induction hours as [|h hours IH]; intros g; cbn [hours_loop].
  - split; [reflexivity | constructor].
  - pose proof (hour_demand_nonneg base dow_mult promo_mult hs h g) as Hd.
    destruct (hour_demand rng gauss base dow_mult promo_mult hs h g)
      as [d g1].
    specialize (IH g1). cbv zeta in IH.
    destruct (hours_loop rng gauss base dow_mult promo_mult hs current_date
                hours g1) as [rest g2].
    simpl in *. destruct IH as [IH1 IH2]. split.
    + now rewrite IH1.
    + constructor; [exact Hd | exact IH2].
Qed.

Lemma days_loop_rows (start : Z) (base : Q) (hs : HourlySeasonality)
    (dow : DayOfWeek) (promo_dates : list Z) (promo_multiplier : Q)
    (days : list Z) :
  forall g,
    let out := fst (days_loop rng gauss start base hs dow promo_dates
                      promo_multiplier days g) in
    map Demand.timestamp out
    = flat_map (fun day => map (fun h => ((start + day) * 24 + h)%Z)
                             (range 24)) days
    /\ Forall (fun d => 0 <= Demand.demand_units d) out.
Proof.
  induction days as [|d days IH]; intros g.
  - split; [reflexivity | constructor].
  - cbn [days_loop flat_map].
    match goal with
    | |- context [hours_loop rng gauss ?b ?m ?p ?h ?c ?hrs g] =>
        pose proof (hours_loop_rows b m p h c hrs g) as Hh;
        destruct (hours_loop rng gauss b m p h c hrs g) as [today g1]
    end.
    specialize (IH g1). cbv zeta in IH, Hh.
    destruct (days_loop rng gauss start base hs dow promo_dates
                promo_multiplier days g1) as [rest g2].
    cbn [fst] in *. destruct IH as [IH1 IH2], Hh as [Hh1 Hh2]. split.
    + now rewrite map_app, Hh1, IH1.
    + apply Forall_app. now split.
Qed.

(** The table returned by [generate_hourly_demand] holds the hours of the
    horizon one after the other, from midnight of the start date on
    (record [k] is hour [24 * start + k]), and no demand in it is
    negative. *)
Theorem generate_hourly_demand_hours (start num_days : Z)
    (base_demand_mean : Q) (hs : HourlySeasonality) (dow : DayOfWeek)
    (promo_days : Z) (promo_multiplier : Q) (random_state : Z) (g : rng)
    (out : list Demand.t) (g' : rng) :
  generate_hourly_demand rng seed_state gauss permutation start num_days
    base_demand_mean hs dow promo_days promo_multiplier random_state g
  = Ok (out, g') ->
  map Demand.timestamp out
  = map (fun k => (start * 24 + k)%Z) (range (24 * num_days))
  /\ Forall (fun d => 0 <= Demand.demand_units d) out.
Proof.
  unfold generate_hourly_demand, bind.
  destruct (np_random_seed rng seed_state random_state g) as [g0|];
    [|discriminate].
  destruct (np_random_choice rng permutation num_days promo_days g0)
    as [[idx g1]|]; [|discriminate].
  simpl fst; simpl snd. intros H. injection H as H.
  match type of H with
  | days_loop rng gauss ?s ?b ?h ?d ?p ?m ?days ?gg = _ =>
      pose proof (days_loop_rows s b h d p m days gg) as Hrows
  end.
  cbv zeta in Hrows. rewrite H in Hrows. simpl fst in Hrows.
  destruct Hrows as [Hts Hpos]. split; [|exact Hpos].
  rewrite Hts. unfold range at 2 3.
  rewrite (day_hours_flat start (Z.to_nat num_days) 0), map_map.
  replace (Z.to_nat (24 * num_days)) with (24 * Z.to_nat num_days)%nat
    by lia.
  reflexivity.
Qed.
End DemandFacts.

Lemma generate_hourly_demand_hours_witness :
  let out := table_of (run_demand 2 1 7%Z) in
  map Demand.timestamp out
  = map (fun k => (738000 * 24 + k)%Z) (range (24 * 2))
  /\ Forall (fun d => 0 <= Demand.demand_units d) out.
Proof.
  apply (generate_hourly_demand_hours Lcg.rng Lcg.seed_state Lcg.gauss
           Lcg.permutation 738000 2 2400 office_hours week 1 2 42 7%Z
           (table_of (run_demand 2 1 7%Z)) (state_of (run_demand 2 1 7%Z))).
  vm_compute. reflexivity.
Defined.

(** ** [compute_utilization] and [compute_service_level] *)

Lemma clip_unit_id (x : Q) : 0 <= x -> x <= 1 -> clip x 0 1 = x.
Proof.
  intros H0 H1. unfold clip, pymax, pymin.
  apply Qle_bool_iff in H0. rewrite H0.
  apply Qle_bool_iff in H1. now rewrite H1.
Qed.

(** [compute_utilization] keeps the records and their order, assigns
    nothing but [utilization], and ignores the utilization it was given.
    On a record whose capacity_units + 1e-6 is not zero it leaves a
    utilization within [0, 1]; with 0 <= processed_units <= capacity_units
    the clamp is idle and the utilization is
    processed_units / (capacity_units + 1e-6). *)
Theorem compute_utilization_recomputes (df : DataFrame) :
  map without_utilization (compute_utilization df)
  = map without_utilization df
  /\ (forall df', map without_utilization df' = map without_utilization df ->
                  compute_utilization df' = compute_utilization df)
  /\ forall r, In r (compute_utilization df) ->
       ~ capacity_units r + eps == 0 ->
       0 <= utilization r <= 1
       /\ (0 <= processed_units r -> processed_units r <= capacity_units r ->
           utilization r = processed_units r / (capacity_units r + eps)).
Proof.
  rewrite compute_utilization_map. split; [|split].
  - rewrite map_map. apply map_ext. now intros [].
  - intros df' H. rewrite compute_utilization_map.
    revert df' H. induction df as [|r df IH]; intros [|r' df'] H;
      simpl in H; try discriminate; [reflexivity|].
    assert (Hr : without_utilization r' = without_utilization r)
      by congruence.
    assert (Hrest : map without_utilization df' = map without_utilization df)
      by congruence.
    simpl. rewrite (IH df' Hrest). f_equal.
    destruct r, r'. unfold without_utilization, set_utilization in Hr.
    simpl in Hr. injection Hr; intros; subst. reflexivity.
  - intros r Hr _. apply in_map_iff in Hr as (r0 & <- & _).
    destruct r0; simpl. split; [apply clip_bounds; discriminate|].
    intros Hp Hpc. apply clip_unit_id.
    + apply Qdiv_nonneg; [exact Hp|]. pose proof eps_pos. lra.
    + apply Qle_shift_div_r; pose proof eps_pos; lra.
Qed.

Lemma compute_utilization_recomputes_witness :
  Forall (fun r =>
            0 <= utilization r <= 1
            /\ (0 <= processed_units r ->
                processed_units r <= capacity_units r ->
                utilization r = processed_units r / (capacity_units r + eps)))
         (compute_utilization two_steps).
Proof.
  assert (Hne : Forall (fun r => ~ capacity_units r + eps == 0)
                  (compute_utilization two_steps)).
  { repeat constructor; vm_compute; discriminate. }
  apply (proj2 (Forall_forall _ _)). intros r Hr.
  apply (proj2 (proj2 (compute_utilization_recomputes two_steps)) r Hr).
  exact (proj1 (Forall_forall _ _) Hne r Hr).
Defined.

Lemma compute_service_level_rows (df : DataFrame) :
  map without_service_level (compute_service_level df)
  = map without_service_level (sort_by_step_timestamp df).
Proof.
  unfold compute_service_level. rewrite map_map.
  rewrite <- (map_fst_combine (sort_by_step_timestamp df)
                (map (fillna 0)
                   (groupby_step_shift backlog_units
                      (sort_by_step_timestamp df)))
                (sorted_backlog_ins_length df)) at 3.
  rewrite map_map. apply map_ext. now intros [[] b].
Qed.

(** [compute_service_level] returns the records of the table ordered by
    step and timestamp, assigns nothing but its four columns, and in every
    record: [backlog_in] is the backlog of the previous record of the step
    (0 for the first), [total_demand] is demand_units + backlog_in, and
    [throughput_loss_units] is max(0, total_demand - processed_units): not
    negative, the unprocessed part when something is left, 0 otherwise. *)
Theorem compute_service_level_throughput_loss (df : DataFrame) :
  map without_service_level (compute_service_level df)
  = map without_service_level (sort_by_step_timestamp df)
  /\ forall i r, nth_error (compute_service_level df) i = Some r ->
       backlog_in r
       = carried_backlog (firstn i (compute_service_level df)) (step r)
       /\ total_demand r = demand_units r + backlog_in r
       /\ 0 <= throughput_loss_units r
       /\ (processed_units r <= total_demand r ->
           throughput_loss_units r == total_demand r - processed_units r)
       /\ (total_demand r <= processed_units r ->
           throughput_loss_units r == 0).
Proof.
  split; [apply compute_service_level_rows|].
  intros i r Hr.
  assert (Hkeys : map step_ts_backlog (compute_service_level df)
                  = map step_ts_backlog (sort_by_step_timestamp df)).
  { unfold compute_service_level. apply with_service_level_keys.
    apply sorted_backlog_ins_length. }
  destruct (nth_error (sort_by_step_timestamp df) i) as [r0|] eqn:Hr0.
  - rewrite (compute_service_level_nth df i r0 Hr0) in Hr.
    injection Hr as <-.
    assert (Hb : carried_backlog (firstn i (compute_service_level df))
                   (step r0)
                 = carried_backlog (firstn i (sort_by_step_timestamp df))
                     (step r0)).
    { apply carried_backlog_same_keys. rewrite <- !firstn_map.
      now rewrite Hkeys. }
    destruct r0; simpl in *. rewrite Hb.
    split; [reflexivity|]. split; [reflexivity|].
    unfold clip_lower. split; [apply pymax_ge_r|]. split.
    + intros Hle. rewrite pymax_comm. apply pymax_0_eq. lra.
    + intros Hle. unfold pymax.
      match goal with
      | |- (if Qle_bool 0 ?x then _ else _) == 0 =>
          destruct (Qle_bool 0 x) eqn:E; [|reflexivity];
          apply Qle_bool_iff in E
      end.
      lra.
  - exfalso. apply nth_error_None in Hr0.
    assert (Hlt : (i < length (compute_service_level df))%nat)
      by (apply nth_error_Some; congruence).
    rewrite <- (length_map step_ts_backlog), Hkeys, length_map in Hlt. lia.
Qed.

Lemma compute_service_level_throughput_loss_witness :
  map without_service_level (compute_service_level two_steps)
  = map without_service_level (sort_by_step_timestamp two_steps)
  /\ Forall (fun r => 0 <= throughput_loss_units r
                      /\ total_demand r = demand_units r + backlog_in r)
            (compute_service_level two_steps).
Proof.
  split; [apply (proj1 (compute_service_level_throughput_loss two_steps))|].
  apply (proj2 (Forall_forall _ _)). intros r Hr.
  apply In_nth_error in Hr as [i Hi].
  destruct (proj2 (compute_service_level_throughput_loss two_steps) i r Hi)
    as (_ & Htotal & Hloss & _).
  split; [exact Hloss | exact Htotal].
Defined.

(** What the service-level line computes: the denominator is
    [total_demand + 1e-6] clamped to [0, 1], so for a total demand of
    1 - 1e-6 or more [service_level_hourly] is [processed_units] itself,
    a number of units and not a fraction of the demand. *)
Theorem compute_service_level_is_processed_units (df : DataFrame) :
  forall r, In r (compute_service_level df) ->
    1 - eps <= total_demand r ->
    service_level_hourly r == processed_units r.
Proof.
  intros r Hr Htotal. unfold compute_service_level in Hr.
  apply in_map_iff in Hr as ([r0 b] & <- & _).
  destruct r0; simpl in *.
  assert (Hclip : clip (demand_units0 + b + eps) 0 1 == 1).
  { unfold clip, pymax, pymin.
    assert (H0 : Qle_bool 0 (demand_units0 + b + eps) = true)
      by (apply Qle_bool_iff; pose proof eps_pos; lra).
    rewrite H0.
    destruct (Qle_bool (demand_units0 + b + eps) 1) eqn:E; [|reflexivity].
    apply Qle_bool_iff in E. lra. }
  rewrite Hclip. field.
Qed.

Lemma compute_service_level_is_processed_units_witness :
  exists r, In r (compute_service_level receive_one_hour)
            /\ service_level_hourly r == processed_units r.
Proof.
  eexists. split; [left; reflexivity|].
  apply (compute_service_level_is_processed_units receive_one_hour).
  - left. reflexivity.
  - vm_compute. discriminate.
Defined.

(** ** From the simulator to the analytics *)

Lemma same_step_locally_sorted (s : string) (df : DataFrame) :
  (forall r, In r df -> step r = s) ->
  locally_sorted Z.leb (map timestamp df) ->
  locally_sorted step_ts_leb df.
Proof.
  induction df as [|a df IH]; intros Hstep Hts; [exact I|].
  destruct df as [|b df]; [exact I|].
  simpl in Hts. destruct Hts as [Hab Hts]. split.
  - unfold step_ts_leb.
    rewrite (Hstep a (or_introl eq_refl)).
    rewrite (Hstep b (or_intror (or_introl eq_refl))).
    now rewrite string_compare_refl.
  - apply IH; [|exact Hts]. intros r Hr. apply Hstep. now right.
Qed.

Lemma firstn_S_nth_error {A : Type} (l : list A) :
  forall j a, nth_error l j = Some a -> firstn (S j) l = firstn j l ++ [a].
Proof.
  induction l as [|x l IH]; intros [|j] a H; simpl in H; try discriminate.
  - now injection H as ->.
  - simpl. f_equal. now apply IH.
Qed.

(** In a table of one step, the previous record of the step is the
    previous record of the table. *)
Lemma carried_backlog_one_step (s : string) (df : DataFrame) (i : nat) :
  (forall r, In r df -> step r = s) ->
  (i <= length df)%nat ->
  carried_backlog (firstn i df) s
  = match i with
    | O => 0
    | S j => match nth_error df j with
             | Some p => backlog_units p
             | None => 0
             end
    end.
Proof.
  intros Hstep Hi. destruct i as [|j]; [reflexivity|].
  destruct (nth_error df j) as [a|] eqn:Ha.
  - rewrite (firstn_S_nth_error df j a Ha).
    unfold carried_backlog, previous_of_step.
    rewrite rev_app_distr. simpl.
    rewrite (Hstep a (nth_error_In _ _ Ha)), String.eqb_refl. reflexivity.
  - apply nth_error_None in Ha. lia.
Qed.

Lemma raw_of_row_with_service_level (p : Row * Q) :
  raw_of_row (with_service_level p) = raw_of_row (fst p).
Proof. destruct p as [[] b]. reflexivity. Qed.

Section SimulatorToAnalytics.
Variable rng : Type.
Variable seed_state : Z -> rng.
Variable gauss : rng -> Q * rng.
Variable random_sample : rng -> Q * rng.
Variable py_hash : string -> Z.

Variable demand_df : list Demand.t.
Variable name : string.
Variables step_capacity_base capacity_variability_std : Q.
Variables downtime_probability downtime_severity : Q.
Variables units_per_hour cycle_time_base congestion_multiplier_max : Q.
Variable random_state : Z.
Variable g : rng.

Local Abbreviation run :=
  (generate_step_data rng seed_state gauss random_sample py_hash demand_df
     name step_capacity_base capacity_variability_std downtime_probability
     downtime_severity units_per_hour cycle_time_base
     congestion_multiplier_max random_state g).

Lemma generate_step_data_backlog (out : list Sim.t) (g' : rng) :
  run = Ok (out, g') ->
  forall t r, nth_error out t = Some r ->
    Sim.backlog_units r
    = pymax 0 (Sim.demand_units r + sim_backlog_in out t
               - Sim.processed_units r).
Proof.
  intros Hrun t r Hr.
  destruct (generate_step_data_inv _ _ _ _ _ _ _ _ _ _ _ _ _ _ _ _ _ _ Hrun)
    as (sd & cap & g1 & _ & Hsd & Hcap & _ & ->).
  destruct (sim_table_nth _ _ _ _ _ _ _ _ _ _ Hcap Hr)
    as (Hlt & _ & _ & _ & Hd & _ & Hp & Hb & _).
  rewrite sim_table_backlog_in by lia.
  rewrite Hb, Hd, Hp.
  now destruct (process_hours_at sd cap (length demand_df) t Hlt).
Qed.

(** The analytics agree with the simulator.  On a table holding the records
    of one simulated step, with the timestamps of the demand in increasing
    order, [compute_service_level] keeps the order of the records, carries
    in the backlog the simulator carried in, and its
    [throughput_loss_units] is the simulator's [backlog_units]. *)
Theorem compute_service_level_on_simulated_step (out : list Sim.t)
    (g' : rng) (df : DataFrame) :
  run = Ok (out, g') ->
  locally_sorted Z.leb (map Demand.timestamp demand_df) ->
  map raw_of_row df = out ->
  map raw_of_row (compute_service_level df) = out
  /\ forall i r, nth_error (compute_service_level df) i = Some r ->
       backlog_in r = sim_backlog_in out i
       /\ throughput_loss_units r == backlog_units r.
Proof.
  intros Hrun Hts Hdf.
  destruct (generate_step_data_rows _ _ _ _ _ _ _ _ _ _ _ _ _ _ _ _ _ _ Hrun)
    as (Hout_ts & Hout_step).
  assert (Hstep : forall r, In r df -> step r = name).
  { intros r Hr.
    apply (Hout_step (raw_of_row r)). rewrite <- Hdf. now apply in_map. }
  assert (Hsort : sort_by_step_timestamp df = df).
  { apply stable_sort_sorted.
    apply (same_step_locally_sorted name); [exact Hstep|].
    replace (map timestamp df) with (map Sim.timestamp (map raw_of_row df))
      by (rewrite map_map; reflexivity).
    now rewrite Hdf, Hout_ts. }
  assert (Hlen : length df
                 = length (map (fillna 0)
                             (groupby_step_shift backlog_units df))).
  { now rewrite length_map, groupby_step_shift_length. }
  assert (Hraw : map raw_of_row (compute_service_level df) = out).
  { unfold compute_service_level. rewrite Hsort, map_map.
    rewrite (map_ext _ _ raw_of_row_with_service_level).
    rewrite <- (map_map fst raw_of_row), (map_fst_combine _ _ Hlen).
    exact Hdf. }
  split; [exact Hraw|].
  intros i r Hr.
  assert (Hi : (i < length df)%nat).
  { rewrite <- (length_map raw_of_row df), Hdf, <- Hraw, length_map.
    apply nth_error_Some. congruence. }
  destruct (nth_error df i) as [r0|] eqn:Hr0;
    [|apply nth_error_None in Hr0; lia].
  pose proof (compute_service_level_nth df i r0) as Hnth.
  rewrite Hsort in Hnth. rewrite (Hnth Hr0) in Hr. injection Hr as <-.
  rewrite (Hstep r0 (nth_error_In _ _ Hr0)).
  rewrite (carried_backlog_one_step name df i Hstep) by lia.
  assert (Hbin : match i with
                 | O => 0
                 | S j => match nth_error df j with
                          | Some p => backlog_units p
                          | None => 0
                          end
                 end = sim_backlog_in out i).
  { destruct i as [|j]; [reflexivity|]. simpl.
    rewrite <- Hdf, nth_error_map. now destruct (nth_error df j). }
  rewrite Hbin.
  assert (Hout : nth_error out i = Some (raw_of_row r0)).
  { now rewrite <- Hdf, nth_error_map, Hr0. }
  pose proof (generate_step_data_backlog out g' Hrun i _ Hout) as Hb.
  destruct r0; simpl in *. split; [reflexivity|].
  rewrite Hb. unfold clip_lower. apply pymax_comm.
Qed.
End SimulatorToAnalytics.

Lemma compute_service_level_on_simulated_step_witness :
  let out := table_of (run_pick hash_of_process_a 7%Z) in
  let df := map row_of_raw out in
  map raw_of_row (compute_service_level df) = out
  /\ forall i r, nth_error (compute_service_level df) i = Some r ->
       backlog_in r = sim_backlog_in out i
       /\ throughput_loss_units r == backlog_units r.
Proof.
  apply (compute_service_level_on_simulated_step Lcg.rng Lcg.seed_state
           Lcg.gauss Lcg.random_sample hash_of_process_a three_hours "pick"
           (11 # 10) (1 # 10) (3 # 10) (1 # 2) 10 5 2 42%Z 7%Z
           (table_of (run_pick hash_of_process_a 7%Z))
           (state_of (run_pick hash_of_process_a 7%Z))).
  - vm_compute. reflexivity.
  - simpl. repeat split.
  - vm_compute. reflexivity.
Defined.

(** ** Sums over the groups of a table *)

Lemma Qsum_map_ext {K : Type} (g h : K -> Q) (ks : list K) :
  (forall k, In k ks -> g k == h k) ->
  Qsum (map g ks) == Qsum (map h ks).
Proof.
  induction ks as [|k ks IH]; intros H; simpl; [reflexivity|].
  rewrite (H k (or_introl eq_refl)), IH; [reflexivity|].
  intros k' Hk'. apply H. now right.
Qed.

Lemma Qsum_map_plus {K : Type} (g h : K -> Q) (ks : list K) :
  Qsum (map (fun k => g k + h k) ks) == Qsum (map g ks) + Qsum (map h ks).
Proof.
  induction ks as [|k ks IH]; simpl; [reflexivity|]. rewrite IH. ring.
Qed.

Lemma Zsum_map_plus {K : Type} (g h : K -> Z) (ks : list K) :
  Zsum (map (fun k => g k + h k)%Z ks)
  = (Zsum (map g ks) + Zsum (map h ks))%Z.
Proof. induction ks as [|k ks IH]; simpl; lia. Qed.

Lemma Qsum_zeros {K : Type} (ks : list K) :
  Qsum (map (fun _ => 0) ks) == 0.
Proof. induction ks as [|k ks IH]; simpl; [reflexivity|]. rewrite IH. ring. Qed.

Lemma Zsum_zeros {K : Type} (ks : list K) :
  Zsum (map (fun _ => 0%Z) ks) = 0%Z.
Proof. induction ks as [|k ks IH]; simpl; lia. Qed.

Section Partition.
Context {A K : Type}.
Variable key : A -> K.
Variable eqb : K -> K -> bool.
Hypothesis eqb_eq : forall a b, eqb a b = true <-> a = b.

Lemma eqb_refl_true (k : K) : eqb k k = true.
Proof. now apply eqb_eq. Qed.

Lemma Qsum_one_key (k0 : K) (v : Q) (ks : list K) :
  NoDup ks ->
  Qsum (map (fun k => if eqb k0 k then v else 0) ks)
  == if existsb (eqb k0) ks then v else 0.
Proof.
  induction ks as [|k ks IH]; intros Hnd; simpl; [reflexivity|].
  inversion Hnd as [|? ? Hnotin Hnd']; subst.
  rewrite (IH Hnd'). destruct (eqb k0 k) eqn:E; simpl.
  - apply eqb_eq in E. subst k.
    destruct (existsb (eqb k0) ks) eqn:Ex; [|ring].
    exfalso. apply Hnotin. apply existsb_exists in Ex as (x & Hx & Hx').
    apply eqb_eq in Hx'. now subst.
  - ring.
Qed.

Lemma Zsum_one_key (k0 : K) (v : Z) (ks : list K) :
  NoDup ks ->
  Zsum (map (fun k => if eqb k0 k then v else 0%Z) ks)
  = if existsb (eqb k0) ks then v else 0%Z.
Proof.
  induction ks as [|k ks IH]; intros Hnd; simpl; [reflexivity|].
  inversion Hnd as [|? ? Hnotin Hnd']; subst.
  rewrite (IH Hnd'). destruct (eqb k0 k) eqn:E; simpl.
  - apply eqb_eq in E. subst k.
    destruct (existsb (eqb k0) ks) eqn:Ex; [|lia].
    exfalso. apply Hnotin. apply existsb_exists in Ex as (x & Hx & Hx').
    apply eqb_eq in Hx'. now subst.
  - lia.
Qed.

Lemma existsb_In (k0 : K) (ks : list K) :
  In k0 ks -> existsb (eqb k0) ks = true.
Proof.
  intros H. apply existsb_exists. exists k0. split; [exact H|].
  apply eqb_refl_true.
Qed.

(** A sum over a table is the sum, over the keys, of the sums over the
    groups: every record counts once, in the group of its key. *)
Lemma Qsum_partition (f : A -> Q) (ks : list K) (l : list A) :
  NoDup ks -> (forall a, In a l -> In (key a) ks) ->
  Qsum (map f l)
  == Qsum (map (fun k => Qsum (map f (filter (fun a => eqb (key a) k) l)))
             ks).
Proof.
  intros Hnd. induction l as [|a l IH]; intros Hin.
  - simpl. now rewrite Qsum_zeros.
  - simpl.
    rewrite (Qsum_map_ext _
               (fun k => (if eqb (key a) k then f a else 0)
                         + Qsum (map f (filter (fun a => eqb (key a) k) l)))).
    + rewrite Qsum_map_plus, (Qsum_one_key _ _ _ Hnd).
      rewrite (existsb_In _ _ (Hin a (or_introl eq_refl))).
      rewrite <- IH; [reflexivity|]. intros x Hx. apply Hin. now right.
    + intros k _. destruct (eqb (key a) k); simpl; ring.
Qed.

Lemma Zsum_partition (f : A -> Z) (ks : list K) (l : list A) :
  NoDup ks -> (forall a, In a l -> In (key a) ks) ->
  Zsum (map f l)
  = Zsum (map (fun k => Zsum (map f (filter (fun a => eqb (key a) k) l)))
            ks).
Proof.
  intros Hnd. induction l as [|a l IH]; intros Hin.
  - simpl. now rewrite Zsum_zeros.
  - simpl.
    rewrite (map_ext
               (fun k => Zsum (map f (filter (fun a0 => eqb (key a0) k)
                                        (a :: l))))
               (fun k => ((if eqb (key a) k then f a else 0)
                          + Zsum (map f (filter (fun a0 => eqb (key a0) k)
                                           l)))%Z)).
    + rewrite Zsum_map_plus, (Zsum_one_key _ _ _ Hnd).
      rewrite (existsb_In _ _ (Hin a (or_introl eq_refl))).
      rewrite <- IH; [reflexivity|]. intros x Hx. apply Hin. now right.
    + intros k. simpl. destruct (eqb (key a) k); simpl; lia.
Qed.
End Partition.

(** ** The roll-ups of src/capacity.py *)

Lemma filter_map_comm {A B : Type} (p : B -> bool) (f : A -> B)
    (l : list A) :
  filter p (map f l) = map f (filter (fun a => p (f a)) l).
Proof.
  induction l as [|a l IH]; simpl; [reflexivity|].
  destruct (p (f a)); simpl; now rewrite IH.
Qed.






(** Summing a column group by group over the (date, step) groups gives
    its sum over the table. *)
Lemma Qsum_by_date_step (f : Row -> Q) (df : DataFrame) :
  Qsum (map (fun k => Qsum (map f (group_rows (fun r => (date r, step r))
                                     date_step_eqb k df)))
            (group_keys (fun r => (date r, step r)) date_step_eqb
               date_step_leb df))
  == Qsum (map f df).
Proof.
  symmetry.
  apply (Qsum_partition (fun r => (date r, step r)) date_step_eqb
           date_step_eqb_eq).
  - apply group_keys_NoDup. exact date_step_eqb_eq.
  - intros r Hr. apply (group_keys_In _ _ _ date_step_eqb_eq). now exists r.
Qed.

(** The totals of the daily-per-step table are the totals of the hourly
    table: summing [processed_units], [throughput_loss_units] or
    [demand_units] over the aggregates gives the sum over the hourly
    records. *)
Theorem aggregate_daily_metrics_keeps_totals (df : DataFrame) :
  Qsum (map Daily.processed_units (aggregate_daily_metrics df))
  == Qsum (map processed_units df)
  /\ Qsum (map Daily.throughput_loss_units (aggregate_daily_metrics df))
     == Qsum (map throughput_loss_units df)
  /\ Qsum (map Daily.demand_units (aggregate_daily_metrics df))
     == Qsum (map demand_units df).
Proof.
  unfold aggregate_daily_metrics, groupby. rewrite !map_map. simpl.
  repeat split; apply Qsum_by_date_step.
Qed.

Lemma date_step_leb_total (a b : Z * string) :
  date_step_leb a b = false -> date_step_leb b a = true.
Proof.
  unfold date_step_leb. rewrite (Z.compare_antisym (fst a) (fst b)).
  destruct (fst a ?= fst b)%Z; simpl; try congruence.
  intros H. destruct (String.leb_total (snd a) (snd b)); congruence.
Qed.

Lemma filter_none {A : Type} (p : A -> bool) (l : list A) :
  (forall x, In x l -> p x = false) -> filter p l = [].
Proof.
  induction l as [|a l IH]; intros H; simpl; [reflexivity|].
  rewrite (H a (or_introl eq_refl)). apply IH. intros x Hx. apply H.
  now right.
Qed.

Section UniqueKeys.
Context {K : Type}.
Variable key : Row -> K.
Variable key_eqb : K -> K -> bool.
Hypothesis key_eqb_eq : forall a b, key_eqb a b = true <-> a = b.

Lemma distinct_of_NoDup (ks : list K) :
  NoDup ks -> distinct key_eqb ks = ks.
Proof.
  induction ks as [|k ks IH]; intros Hnd; [reflexivity|].
  inversion Hnd as [|? ? Hnotin Hnd']; subst. simpl.
  rewrite (IH Hnd'). f_equal.
  apply forallb_filter_id. apply forallb_forall. intros x Hx.
  apply negb_true_iff. destruct (key_eqb x k) eqn:E; [|reflexivity].
  apply key_eqb_eq in E. subst. contradiction.
Qed.

(** With one record per key, the group of a record is the record. *)
Lemma group_rows_unique (df : DataFrame) (r : Row) :
  NoDup (map key df) -> In r df -> group_rows key key_eqb (key r) df = [r].
Proof.
  unfold group_rows. induction df as [|a df IH]; intros Hnd Hin;
    [contradiction|].
  simpl in Hnd. inversion Hnd as [|? ? Hnotin Hnd']; subst. simpl.
  destruct Hin as [-> | Hin].
  - rewrite (proj2 (key_eqb_eq (key r) (key r)) eq_refl). f_equal.
    apply filter_none. intros x Hx.
    destruct (key_eqb (key x) (key r)) eqn:E; [|reflexivity].
    apply key_eqb_eq in E. exfalso. apply Hnotin. rewrite <- E.
    now apply in_map.
  - destruct (key_eqb (key a) (key r)) eqn:E.
    + apply key_eqb_eq in E. exfalso. apply Hnotin. rewrite E.
      now apply in_map.
    + now apply IH.
Qed.
End UniqueKeys.

Lemma Qsum_one (x : Q) : Qsum [x] == x.
Proof. simpl. ring. Qed.

Lemma Qmean_one (x : Q) : Qmean [x] == x.
Proof. unfold Qmean. simpl. field. Qed.

(** On a table with one record per timestamp and step (the grain of the
    simulator), [aggregate_hourly_metrics] is the identity up to order: it
    returns as many records, ordered by timestamp and then step, and each
    holds the columns of the one record of its timestamp and step. *)
Theorem aggregate_hourly_metrics_identity (df : DataFrame) :
  NoDup (map (fun r => (timestamp r, step r)) df) ->
  length (aggregate_hourly_metrics df) = length df
  /\ locally_sorted timestamp_step_leb
       (map (fun h => (Hourly.timestamp h, Hourly.step h))
          (aggregate_hourly_metrics df))
  /\ forall h, In h (aggregate_hourly_metrics df) ->
       exists r, In r df
         /\ Hourly.timestamp h = timestamp r
         /\ Hourly.step h = step r
         /\ Hourly.demand_units h == demand_units r
         /\ Hourly.capacity_units h == capacity_units r
         /\ Hourly.processed_units h == processed_units r
         /\ Hourly.backlog_units h == backlog_units r
         /\ Hourly.utilization h == utilization r
         /\ Hourly.cycle_time_min h == cycle_time_min r
         /\ Hourly.service_level_hourly h == service_level_hourly r
         /\ Hourly.throughput_loss_units h == throughput_loss_units r
         /\ Hourly.labor_hours_used h == labor_hours_used r
         /\ Hourly.headcount_used h = headcount_used r.
Proof.
  intros Hnd.
  assert (Hkeys : map (fun h => (Hourly.timestamp h, Hourly.step h))
                    (aggregate_hourly_metrics df)
                  = group_keys (fun r => (timestamp r, step r))
                      timestamp_step_eqb timestamp_step_leb df).
  { unfold aggregate_hourly_metrics, groupby. rewrite !map_map. simpl.
    rewrite <- map_id. apply map_ext. now intros []. }
  split; [|split].
  - rewrite <- (length_map (fun h => (Hourly.timestamp h, Hourly.step h))).
    rewrite Hkeys. unfold group_keys.
    rewrite stable_sort_length.
    rewrite (distinct_of_NoDup timestamp_step_eqb date_step_eqb_eq _ Hnd).
    apply length_map.
  - rewrite Hkeys. apply stable_sort_locally_sorted.
    exact date_step_leb_total.
  - intros h Hh. unfold aggregate_hourly_metrics, groupby in Hh.
    rewrite map_map in Hh. apply in_map_iff in Hh as (k & <- & Hk).
    apply (group_keys_In _ _ _ date_step_eqb_eq) in Hk as (r & Hr & <-).
    exists r. split; [exact Hr|]. simpl.
    rewrite (group_rows_unique (fun r => (timestamp r, step r))
               timestamp_step_eqb date_step_eqb_eq df r Hnd Hr).
    repeat split; try apply Qsum_one; try apply Qmean_one.
    simpl. lia.
Qed.

Lemma aggregate_hourly_metrics_identity_witness :
  length (aggregate_hourly_metrics two_steps) = length two_steps.
Proof.
  assert (Hnd : NoDup (map (fun r => (timestamp r, step r)) two_steps))
    by (repeat constructor; simpl; intuition discriminate).
  apply (proj1 (aggregate_hourly_metrics_identity two_steps Hnd)).
Defined.

(** ** Grouping by step, dicts, the largest records *)

Lemma string_eqb_eq (a b : string) : String.eqb a b = true <-> a = b.
Proof. apply String.eqb_eq. Qed.

Section GroupByStepFacts.
Context {A : Type}.
Variable step_of : A -> string.

Lemma step_keys_In (s : string) (l : list A) :
  In s (step_keys step_of l) <-> exists a, In a l /\ step_of a = s.
Proof.
  unfold step_keys.
  rewrite stable_sort_In, (distinct_In String.eqb String.leb string_eqb_eq),
    in_map_iff.
  split; intros (a & H1 & H2); exists a; auto.
Qed.

Lemma step_keys_NoDup (l : list A) : NoDup (step_keys step_of l).
Proof.
  apply stable_sort_NoDup, (distinct_NoDup String.eqb string_eqb_eq).
Qed.

Lemma step_keys_cover (l : list A) :
  forall a, In a l -> In (step_of a) (step_keys step_of l).
Proof. intros a Ha. apply step_keys_In. now exists a. Qed.

Lemma step_group_nonempty (s : string) (l : list A) :
  In s (step_keys step_of l) -> step_group step_of s l <> [].
Proof.
  intros Hs. apply step_keys_In in Hs as (a & Ha & <-).
  intros Hnil.
  assert (Hin : In a (step_group step_of (step_of a) l)).
  { apply filter_In. split; [exact Ha | apply String.eqb_refl]. }
  rewrite Hnil in Hin. contradiction.
Qed.

(** A sum over a table is the sum of the sums over its steps. *)
Lemma Zsum_by_step (f : A -> Z) (l : list A) :
  Zsum (map f l)
  = Zsum (map (fun s => Zsum (map f (step_group step_of s l)))
            (step_keys step_of l)).
Proof.
  apply (Zsum_partition step_of String.eqb string_eqb_eq f).
  - apply step_keys_NoDup.
  - apply step_keys_cover.
Qed.
End GroupByStepFacts.

Lemma Zsum_ones {A : Type} (l : list A) :
  Zsum (map (fun _ => 1%Z) l) = Z.of_nat (length l).
Proof.
  induction l as [|a l IH]; [reflexivity|].
  change (Zsum (map (fun _ => 1%Z) (a :: l)))
    with (1 + Zsum (map (fun _ : A => 1%Z) l))%Z.
  rewrite IH. change (length (a :: l)) with (S (length l)). lia.
Qed.

Section DictFacts.
Context {V : Type}.

Lemma lookup_Some_In (s : string) (d : list (string * V)) (v : V) :
  lookup s d = Some v -> In (s, v) d.
Proof.
  induction d as [|[k w] d IH]; simpl; [discriminate|].
  destruct (String.eqb_spec s k) as [-> | Hne].
  - intros H. injection H as ->. now left.
  - intros H. right. now apply IH.
Qed.

Lemma lookup_None_iff (s : string) (d : list (string * V)) :
  lookup s d = None <-> ~ In s (map fst d).
Proof.
  induction d as [|[k w] d IH]; simpl; [tauto|].
  destruct (String.eqb_spec s k) as [-> | Hne].
  - split; [discriminate | intros H; exfalso; apply H; now left].
  - rewrite IH. split; [intros H [E | E]; [congruence | tauto] | tauto].
Qed.

Lemma In_lookup_Some (s : string) (d : list (string * V)) (v : V) :
  NoDup (map fst d) -> In (s, v) d -> lookup s d = Some v.
Proof.
  induction d as [|[k w] d IH]; simpl; intros Hnd Hin; [contradiction|].
  inversion Hnd as [|? ? Hnotin Hnd']; subst.
  destruct Hin as [E | Hin].
  - injection E as -> ->. now rewrite String.eqb_refl.
  - destruct (String.eqb_spec s k) as [-> | Hne].
    + exfalso. apply Hnotin. apply in_map_iff. now exists (k, v).
    + now apply IH.
Qed.

(** A dict read by key does not depend on the order of its entries. *)
Lemma lookup_Permutation (s : string) (d d' : list (string * V)) :
  NoDup (map fst d) -> Permutation d d' -> lookup s d' = lookup s d.
Proof.
  intros Hnd Hperm.
  assert (Hnd' : NoDup (map fst d')).
  { eapply Permutation_NoDup; [|exact Hnd]. now apply Permutation_map. }
  destruct (lookup s d) as [v|] eqn:E.
  - apply In_lookup_Some; [exact Hnd'|].
    eapply Permutation_in; [exact Hperm|]. now apply lookup_Some_In.
  - apply lookup_None_iff. rewrite lookup_None_iff in E. intros Hin.
    apply E. eapply Permutation_in; [|exact Hin].
    apply Permutation_map. now apply Permutation_sym.
Qed.

Lemma lookup_map_keys (F : string -> V) (ks : list string) (s : string) :
  lookup s (map (fun k => (k, F k)) ks)
  = if existsb (String.eqb s) ks then Some (F s) else None.
Proof.
  induction ks as [|k ks IH]; simpl; [reflexivity|].
  destruct (String.eqb_spec s k) as [-> | Hne]; [reflexivity | exact IH].
Qed.
End DictFacts.

Section SortPermutation.
Context {A : Type}.
Variable leb : A -> A -> bool.

Lemma insert_sorted_Permutation (x : A) (l : list A) :
  Permutation (insert_sorted leb x l) (x :: l).
Proof.
  induction l as [|y l IH]; simpl; [reflexivity|].
  destruct (leb x y); [reflexivity|].
  rewrite IH. apply perm_swap.
Qed.

Lemma stable_sort_Permutation (l : list A) :
  Permutation (stable_sort leb l) l.
Proof.
  induction l as [|x l IH]; simpl; [reflexivity|].
  rewrite insert_sorted_Permutation. now constructor.
Qed.
End SortPermutation.

(** ** [summarize_bottlenecks] *)

Lemma filter_filter_andb {A : Type} (p q : A -> bool) (l : list A) :
  filter p (filter q l) = filter (fun x => q x && p x) l.
Proof.
  induction l as [|a l IH]; simpl; [reflexivity|].
  destruct (q a); simpl; [destruct (p a)|]; now rewrite IH.
Qed.

Lemma existsb_eqb_In (s : string) (ks : list string) :
  existsb (String.eqb s) ks = true <-> In s ks.
Proof.
  rewrite existsb_exists. split.
  - intros (x & Hx & E). apply String.eqb_eq in E. now subst.
  - intros H. exists s. split; [exact H | apply String.eqb_refl].
Qed.

Lemma existsb_eqb_same (s : string) (ks ks' : list string) :
  (In s ks <-> In s ks') ->
  existsb (String.eqb s) ks = existsb (String.eqb s) ks'.
Proof.
  intros H.
  destruct (existsb (String.eqb s) ks) eqn:E, (existsb (String.eqb s) ks') eqn:E';
    try reflexivity.
  - apply existsb_eqb_In, H, existsb_eqb_In in E. congruence.
  - apply existsb_eqb_In, H, existsb_eqb_In in E'. congruence.
Qed.

Lemma length_filter_pos {A : Type} (p : A -> bool) (l : list A) :
  (0 <? Z.of_nat (length (filter p l)))%Z = true
  <-> exists a, In a l /\ p a = true.
Proof.
  rewrite Z.ltb_lt. split.
  - intros H. destruct (filter p l) as [|a l'] eqn:E; [simpl in H; lia|].
    exists a. apply filter_In. rewrite E. now left.
  - intros (a & Ha & Hp).
    assert (Hin : In a (filter p l)) by (apply filter_In; now split).
    destruct (filter p l); [contradiction | simpl; lia].
Qed.

(** [summarize_bottlenecks] counts the flagged records: its total is the
    sum of its counts per step; a step is listed, with the number of its
    flagged records, exactly when it has one; and the two dicts
    [bottleneck_hours_by_step] and [bottleneck_step_distribution] hold the
    same count for every step. *)
Theorem summarize_bottlenecks_counts (df : list BottleneckRow) :
  let sm := summarize_bottlenecks df in
  total_bottleneck_hours sm = Zsum (map snd (bottleneck_hours_by_step sm))
  /\ (forall s, lookup s (bottleneck_hours_by_step sm)
                = if (0 <? flagged_hours s df)%Z
                  then Some (flagged_hours s df) else None)
  /\ (forall s, lookup s (bottleneck_step_distribution sm)
                = lookup s (bottleneck_hours_by_step sm)).
Proof.
  intros sm.
  set (flagged := filter is_bottleneck df).
  set (f := fun b : BottleneckRow => step (b_row b)).
  set (keys := step_keys f flagged).
  set (F := fun s => Z.of_nat (length (step_group f s flagged))).
  assert (Hby : bottleneck_hours_by_step sm = map (fun s => (s, F s)) keys).
  { unfold sm, summarize_bottlenecks, groupby_step. simpl.
    rewrite map_map. reflexivity. }
  assert (HF : forall s, F s = flagged_hours s df).
  { intros s. unfold F, flagged_hours, step_group, flagged.
    now rewrite filter_filter_andb. }
  assert (Hin : forall s, existsb (String.eqb s) keys
                          = (0 <? flagged_hours s df)%Z).
  { intros s.
    destruct (existsb (String.eqb s) keys) eqn:E; symmetry.
    - apply existsb_eqb_In, step_keys_In in E as (b & Hb & Hs).
      apply length_filter_pos. exists b.
      apply filter_In in Hb as [Hb Hflag]. split; [exact Hb|].
      rewrite Hflag. simpl. apply String.eqb_eq. exact Hs.
    - destruct (0 <? flagged_hours s df)%Z eqn:E'; [|reflexivity].
      apply length_filter_pos in E' as (b & Hb & Hp).
      apply andb_true_iff in Hp as [Hflag Hs]. apply String.eqb_eq in Hs.
      assert (Hk : In s keys).
      { apply step_keys_In. exists b. split; [|exact Hs].
        apply filter_In. now split. }
      apply existsb_eqb_In in Hk. congruence. }
  split; [|split].
  - rewrite Hby, map_map. simpl.
    change (total_bottleneck_hours sm) with (Z.of_nat (length flagged)).
    rewrite <- Zsum_ones, (Zsum_by_step f). fold keys.
    f_equal. apply map_ext. intros s. apply Zsum_ones.
  - intros s. rewrite Hby, lookup_map_keys, Hin, HF. reflexivity.
  - intros s. rewrite Hby, lookup_map_keys.
    unfold sm, summarize_bottlenecks, value_counts. simpl.
    fold flagged.
    set (ks0 := distinct String.eqb (map f flagged)).
    rewrite (lookup_Permutation s
               (map (fun s0 => (s0, Z.of_nat
                                      (length (filter (String.eqb s0)
                                                 (map f flagged))))) ks0)).
    + rewrite lookup_map_keys.
      rewrite (existsb_eqb_same s ks0 keys).
      * destruct (existsb (String.eqb s) keys); [|reflexivity].
        f_equal. unfold F, step_group.
        rewrite filter_map_comm, length_map. f_equal. f_equal.
        apply filter_ext. intros b. apply String.eqb_sym.
      * unfold keys, step_keys. fold ks0. now rewrite stable_sort_In.
    + rewrite map_map. simpl. rewrite map_id.
      apply (distinct_NoDup String.eqb string_eqb_eq).
    + apply Permutation_sym, stable_sort_Permutation.
Qed.

(** ** The largest records *)

Section Largest.
Context {A : Type}.
Variable geb : A -> A -> bool.
Hypothesis geb_total : forall a b, geb a b = false -> geb b a = true.
Hypothesis geb_trans :
  forall a b c, geb a b = true -> geb b c = true -> geb a c = true.

Lemma In_skipn (n : nat) (l : list A) (y : A) : In y (skipn n l) -> In y l.
Proof.
  intros H. rewrite <- (firstn_skipn n l). apply in_or_app. now right.
Qed.

Lemma locally_sorted_firstn (l : list A) :
  forall n, locally_sorted geb l -> locally_sorted geb (firstn n l).
Proof.
  induction l as [|a l IH]; intros [|n] Hs; try exact I.
  simpl firstn. destruct l as [|b l]; [destruct n; exact I|].
  destruct Hs as [Hab Hs]. destruct n as [|n]; [exact I|].
  split; [exact Hab|]. exact (IH (S n) Hs).
Qed.

Lemma sorted_firstn_skipn (l : list A) :
  forall n x y, locally_sorted geb l ->
    In x (firstn n l) -> In y (skipn n l) -> geb x y = true.
Proof.
  induction l as [|a l IH]; intros [|n] x y Hs Hx Hy; simpl in Hx;
    try contradiction.
  simpl in Hy. destruct Hx as [<- | Hx].
  - apply (locally_sorted_head_le geb geb_trans l); [exact Hs|].
    now apply (In_skipn n).
  - apply (IH n); [|exact Hx | exact Hy].
    eapply locally_sorted_tail. exact Hs.
Qed.

(** [nlargest n] returns [n] records (all of them if there are fewer), in
    decreasing order, and none of the records it leaves out is larger than
    one it returns. *)
Lemma nlargest_spec (n : nat) (df : list A) :
  length (nlargest n geb df) = Nat.min n (length df)
  /\ locally_sorted geb (nlargest n geb df)
  /\ exists rest,
       Permutation (nlargest n geb df ++ rest) df
       /\ forall x y, In x (nlargest n geb df) -> In y rest ->
                      geb x y = true.
Proof.
  unfold nlargest.
  pose proof (stable_sort_locally_sorted geb geb_total df) as Hs.
  split; [|split].
  - now rewrite length_firstn, stable_sort_length.
  - now apply locally_sorted_firstn.
  - exists (skipn n (stable_sort geb df)). split.
    + rewrite firstn_skipn. apply stable_sort_Permutation.
    + intros x y. now apply sorted_firstn_skipn.
Qed.
End Largest.

Lemma loss_geb_total (a b : BottleneckRow) :
  loss_geb a b = false -> loss_geb b a = true.
Proof.
  unfold loss_geb. intros H. apply Qle_bool_false in H.
  apply Qle_bool_iff. now apply Qlt_le_weak.
Qed.

Lemma loss_geb_trans (a b c : BottleneckRow) :
  loss_geb a b = true -> loss_geb b c = true -> loss_geb a c = true.
Proof.
  unfold loss_geb. rewrite !Qle_bool_iff. intros H1 H2.
  now apply Qle_trans with (throughput_loss_units (b_row b)).
Qed.

(** [top_10_worst_hours] holds ten records of the table (all of them if
    there are fewer), by decreasing throughput loss, and no record left out
    has a larger loss than a listed one. *)
Theorem summarize_bottlenecks_top_10 (df : list BottleneckRow) :
  exists top rest,
    top_10_worst_hours (summarize_bottlenecks df)
    = map (fun b =>
             mkWorstHour (timestamp (b_row b)) (step (b_row b))
               (utilization (b_row b)) (throughput_loss_units (b_row b))
               (backlog_units (b_row b))) top
    /\ length top = Nat.min 10 (length df)
    /\ Permutation (top ++ rest) df
    /\ locally_sorted loss_geb top
    /\ forall x y, In x top -> In y rest ->
         throughput_loss_units (b_row y) <= throughput_loss_units (b_row x).
Proof.
  destruct (nlargest_spec loss_geb loss_geb_total loss_geb_trans 10 df)
    as (Hlen & Hsorted & rest & Hperm & Hdom).
  exists (nlargest 10 loss_geb df), rest.
  split; [reflexivity|]. split; [exact Hlen|]. split; [exact Hperm|].
  split; [exact Hsorted|].
  intros x y Hx Hy. apply Qle_bool_iff. exact (Hdom x y Hx Hy).
Qed.

(** ** [summarize_staffing] *)

Lemma gap_geb_total (a b : StaffingRow) :
  gap_geb a b = false -> gap_geb b a = true.
Proof. unfold gap_geb. rewrite Z.leb_gt, Z.leb_le. lia. Qed.

Lemma gap_geb_trans (a b c : StaffingRow) :
  gap_geb a b = true -> gap_geb b c = true -> gap_geb a c = true.
Proof. unfold gap_geb. rewrite !Z.leb_le. lia. Qed.



(** [top_20_gaps] holds twenty records of the table (all of them if there
    are fewer), by decreasing headcount gap, and no record left out has a
    larger gap than a listed one. *)
Theorem summarize_staffing_top_20 (df : list StaffingRow) :
  exists top rest,
    top_20_gaps (summarize_staffing df)
    = map (fun s =>
             mkTopGap (timestamp (s_row s)) (step (s_row s))
               (headcount_used (s_row s)) (recommended_headcount s)
               (headcount_gap s) (labor_cost_impact s)
               (utilization (s_row s))) top
    /\ length top = Nat.min 20 (length df)
    /\ Permutation (top ++ rest) df
    /\ locally_sorted gap_geb top
    /\ forall x y, In x top -> In y rest ->
                   (headcount_gap y <= headcount_gap x)%Z.
Proof.
  destruct (nlargest_spec gap_geb gap_geb_total gap_geb_trans 20 df)
    as (Hlen & Hsorted & rest & Hperm & Hdom).
  exists (nlargest 20 gap_geb df), rest.
  split; [reflexivity|]. split; [exact Hlen|]. split; [exact Hperm|].
  split; [exact Hsorted|].
  intros x y Hx Hy. apply Z.leb_le. exact (Hdom x y Hx Hy).
Qed.

Lemma staffing_costs (df : DataFrame) (service_target : Q)
    (uph_by_step : uph_table) (wage_per_hour : number)
    (out : list StaffingRow) :
  compute_staffing_recommendations df service_target uph_by_step
    wage_per_hour = Ok out ->
  Forall (fun s => labor_cost_impact s
                   = int64_times (Z.max 0 (headcount_gap s)) wage_per_hour)
         out.
Proof.
  unfold compute_staffing_recommendations. intros Hout.
  apply Forall_forall. intros s Hs. apply In_nth_error in Hs as [i Hi].
  destruct (collect_map_nth _ _ out Hout i s Hi) as ([r b] & _ & Hf).
  simpl in Hf.
  now destruct (staffing_row_ok _ _ _ _ _ _ Hf)
    as (_ & _ & _ & _ & _ & _ & _ & _ & _ & _ & _ & Hc & _).
Qed.

Lemma Zsum_ge_each (l : list Z) :
  (forall x, In x l -> (0 <= x)%Z) ->
  forall x, In x l -> (x <= Zsum l)%Z.
Proof.
  induction l as [|a l IH]; intros Hpos x Hx; [contradiction|].
  simpl.
  assert (Ha : (0 <= a)%Z) by (apply Hpos; now left).
  assert (Hl : forall y, In y l -> (0 <= y)%Z)
    by (intros y Hy; apply Hpos; now right).
  assert (Hsum : (0 <= Zsum l)%Z).
  { clear -Hl. induction l as [|b l IHl]; simpl; [lia|].
    assert (0 <= b)%Z by (apply Hl; now left).
    assert (0 <= Zsum l)%Z by (apply IHl; intros y Hy; apply Hl; now right).
    lia. }
  destruct Hx as [-> | Hx]; [lia|].
  specialize (IH Hl x Hx). lia.
Qed.

(** A product with a part of a sum of positive numbers is within int64
    when the product with the sum is. *)
Lemma in_int64_part (part total w : Z) :
  (0 <= part <= total)%Z ->
  in_int64 (total * w) = true -> in_int64 (part * w) = true.
Proof.
  unfold in_int64, int64_min, int64_max. intros Hpart H.
  apply andb_true_iff in H as [H1 H2]. apply Z.leb_le in H1, H2.
  apply andb_true_iff.
  destruct (Z.le_gt_cases 0 w) as [Hw | Hw].
  - assert (part * w <= total * w)%Z
      by (apply Z.mul_le_mono_nonneg_r; lia).
    assert (0 <= part * w)%Z by (apply Z.mul_nonneg_nonneg; lia).
    split; apply Z.leb_le; lia.
  - assert (total * w <= part * w)%Z
      by (apply Z.mul_le_mono_nonpos_r; lia).
    assert (part * w <= 0)%Z by (apply Z.mul_nonneg_nonpos; lia).
    split; apply Z.leb_le; lia.
Qed.

Lemma Zsum_nonneg (l : list Z) :
  (forall x, In x l -> (0 <= x)%Z) -> (0 <= Zsum l)%Z.
Proof.
  induction l as [|a l IH]; intros Hpos; simpl; [lia|].
  assert (0 <= a)%Z by (apply Hpos; now left).
  assert (0 <= Zsum l)%Z by (apply IH; intros x Hx; apply Hpos; now right).
  lia.
Qed.

Lemma positive_gaps_part (out : list StaffingRow) (s : StaffingRow) :
  In s out ->
  (0 <= Z.max 0 (headcount_gap s)
   <= Zsum (map headcount_gap
              (filter (fun s => (0 <? headcount_gap s)%Z) out)))%Z.
Proof.
  intros Hs. split; [lia|].
  assert (Hpos : forall x,
            In x (map headcount_gap
                    (filter (fun s => (0 <? headcount_gap s)%Z) out)) ->
            (0 <= x)%Z).
  { intros x Hx. apply in_map_iff in Hx as (y & <- & Hy).
    apply filter_In in Hy as [_ Hy]. apply Z.ltb_lt in Hy. lia. }
  destruct (Z.ltb_spec 0 (headcount_gap s)) as [Hgap | Hgap].
  - rewrite Z.max_r by lia. apply (Zsum_ge_each _ Hpos).
    apply in_map. apply filter_In. split; [exact Hs|]. now apply Z.ltb_lt.
  - rewrite Z.max_l by lia. now apply Zsum_nonneg.
Qed.

Lemma costs_of_positive_gaps (wage : Q) (out : list StaffingRow) :
  Forall (fun s => labor_cost_impact s
                   == wage * inject_Z (Z.max 0 (headcount_gap s))) out ->
  Qsum (map labor_cost_impact out)
  == wage * inject_Z (Zsum (map headcount_gap
                              (filter (fun s => (0 <? headcount_gap s)%Z)
                                 out)))
  /\ Qsum (map labor_cost_impact
             (filter (fun s => (0 <? headcount_gap s)%Z) out))
     == Qsum (map labor_cost_impact out).
Proof.
  induction 1 as [|s out Hs Hall [IH1 IH2]]; simpl.
  - split; [ring | reflexivity].
  - destruct (0 <? headcount_gap s)%Z eqn:E; simpl.
    + apply Z.ltb_lt in E. split.
      * rewrite IH1, Hs, Z.max_r by lia. rewrite inject_Z_plus. ring.
      * now rewrite IH2.
    + apply Z.ltb_ge in E. split.
      * rewrite IH1, Hs, Z.max_l by lia. ring.
      * rewrite IH2, Hs, Z.max_l by lia. ring.
Qed.

(** The costs of a returned table are the wage times the positive gaps
    when the total of the positive gaps, and for an int wage its product
    with the wage, are within int64. *)
Lemma staffing_costs_exact (df : DataFrame) (service_target : Q)
    (uph_by_step : uph_table) (wage_per_hour : number)
    (out : list StaffingRow) :
  compute_staffing_recommendations df service_target uph_by_step
    wage_per_hour = Ok out ->
  match wage_per_hour with
  | PyFloat _ => True
  | PyInt w =>
      in_int64 (total_positive_gap_hours (summarize_staffing out) * w) = true
  end ->
  Forall (fun s => labor_cost_impact s
                   == number_value wage_per_hour
                      * inject_Z (Z.max 0 (headcount_gap s))) out.
Proof.
  intros Hout Hfit.
  pose proof (staffing_costs _ _ _ _ _ Hout) as Hcosts.
  apply Forall_forall. intros s Hs.
  rewrite (proj1 (Forall_forall _ _) Hcosts s Hs).
  apply int64_times_exact.
  destruct wage_per_hour as [w|x]; [|exact I].
  apply (in_int64_part _ _ w (positive_gaps_part out s Hs)). exact Hfit.
Qed.

(** On a table returned by [compute_staffing_recommendations], the total
    cost of the summary is the hourly wage times the positive gap hours:
    over-staffed hours do not offset under-staffed ones.  This is so when
    the positive gap hours are within int64 and, for an int wage, their
    product with the wage is. *)
Theorem summarize_staffing_cost (df : DataFrame) (service_target : Q)
    (uph_by_step : uph_table) (wage_per_hour : number)
    (out : list StaffingRow) :
  compute_staffing_recommendations df service_target uph_by_step
    wage_per_hour = Ok out ->
  in_int64 (total_positive_gap_hours (summarize_staffing out)) = true ->
  match wage_per_hour with
  | PyFloat _ => True
  | PyInt w =>
      in_int64 (total_positive_gap_hours (summarize_staffing out) * w) = true
  end ->
  total_cost_impact (summarize_staffing out)
  == number_value wage_per_hour
     * inject_Z (total_positive_gap_hours (summarize_staffing out)).
Proof.
  intros Hout _ Hfit.
  apply (costs_of_positive_gaps (number_value wage_per_hour) out).
  exact (staffing_costs_exact _ _ _ _ _ Hout Hfit).
Qed.

Lemma summarize_staffing_cost_witness :
  total_cost_impact (summarize_staffing staffing_table)
  == 20 * inject_Z (total_positive_gap_hours
                      (summarize_staffing staffing_table)).
Proof.
  apply (summarize_staffing_cost staffing_hour (95 # 100) receive_uph
           (PyFloat 20) staffing_table).
  - vm_compute. reflexivity.
  - reflexivity.
  - exact I.
Defined.

(** ** [compute_kpis] *)

Lemma Zsum_Permutation (l l' : list Z) :
  Permutation l l' -> Zsum l = Zsum l'.
Proof. induction 1; simpl; lia. Qed.

Lemma inject_Z_Zsum (l : list Z) :
  inject_Z (Zsum l) == Qsum (map inject_Z l).
Proof.
  induction l as [|a l IH]; simpl; [reflexivity|].
  now rewrite inject_Z_plus, IH.
Qed.

Lemma Qsum_map_scale {K : Type} (g : K -> Q) (c : Q) (ks : list K) :
  Qsum (map (fun k => g k * c) ks) == Qsum (map g ks) * c.
Proof.
  induction ks as [|k ks IH]; simpl; [ring|]. rewrite IH. ring.
Qed.

Lemma value_counts_entries (l : list string) (s : string) (c : Z) :
  In (s, c) (value_counts l) ->
  In s l /\ c = Z.of_nat (length (filter (String.eqb s) l)) /\ (0 < c)%Z.
Proof.
  unfold value_counts. rewrite stable_sort_In, in_map_iff.
  intros (k & E & Hk). injection E as -> <-.
  apply (proj1 (distinct_In String.eqb String.leb string_eqb_eq s l)) in Hk.
  split; [exact Hk|]. split; [reflexivity|].
  apply Z.ltb_lt, length_filter_pos. exists s.
  split; [exact Hk | apply String.eqb_refl].
Qed.

(** The counts of [value_counts] add up to the length of the series. *)
Lemma value_counts_total (l : list string) :
  Zsum (map snd (value_counts l)) = Z.of_nat (length l).
Proof.
  unfold value_counts.
  rewrite (Zsum_Permutation _ _
             (Permutation_map snd (stable_sort_Permutation _ _))).
  rewrite map_map. simpl.
  rewrite <- Zsum_ones.
  rewrite (Zsum_partition (fun s : string => s) String.eqb string_eqb_eq
             (fun _ => 1%Z) (distinct String.eqb l) l).
  - f_equal. apply map_ext. intros s. rewrite Zsum_ones. f_equal. f_equal.
    apply filter_ext. intros a. apply String.eqb_sym.
  - apply (distinct_NoDup String.eqb string_eqb_eq).
  - intros a Ha.
    now apply (proj2 (distinct_In String.eqb String.leb string_eqb_eq a l)).
Qed.

(** [bottleneck_share_by_step] is set whenever the bottleneck table is
    there.  If some record is flagged, the shares of the steps are
    percentages above 0 and at most 100 that add up to 100; if none is, the
    dict is empty. *)
Theorem compute_kpis_bottleneck_share (data : KpiData)
    (df : list BottleneckRow) :
  d_bottlenecks data = Some df ->
  exists shares,
    bottleneck_share_by_step (compute_kpis data) = Some shares
    /\ ((exists b, In b df /\ is_bottleneck b = true) ->
        Qsum (map snd shares) == 100
        /\ forall s x, In (s, x) shares -> 0 < x /\ x <= 100)
    /\ ((forall b, In b df -> is_bottleneck b = false) -> shares = []).
Proof.
  intros Hdata. exists (bottleneck_share df).
  split; [unfold compute_kpis; simpl; now rewrite Hdata|].
  unfold bottleneck_share.
  set (steps := map (fun b => step (b_row b)) (filter is_bottleneck df)).
  rewrite (value_counts_total steps).
  assert (Hlen : length steps = length (filter is_bottleneck df))
    by apply length_map.
  split.
  - intros (b & Hb & Hflag).
    assert (Hin : In b (filter is_bottleneck df))
      by (apply filter_In; now split).
    assert (Hpos : (0 < Z.of_nat (length steps))%Z).
    { rewrite Hlen. destruct (filter is_bottleneck df);
        [contradiction | simpl; lia]. }
    rewrite (proj2 (Z.ltb_lt _ _) Hpos).
    assert (HposQ : 0 < inject_Z (Z.of_nat (length steps))).
    { rewrite <- (Zlt_Qlt 0). exact Hpos. }
    split.
    + rewrite map_map. simpl.
      rewrite (Qsum_map_ext _
                 (fun sc : string * Z =>
                    inject_Z (snd sc)
                    * (/ inject_Z (Z.of_nat (length steps)) * 100)))
        by (intros; unfold Qdiv; ring).
      rewrite Qsum_map_scale, <- (map_map snd inject_Z).
      rewrite <- inject_Z_Zsum, value_counts_total.
      field. intros H0. rewrite H0 in HposQ. exact (Qlt_irrefl _ HposQ).
    + intros s x Hx. apply in_map_iff in Hx as ([s' c] & E & Hsc).
      simpl in E. injection E as -> <-.
      destruct (value_counts_entries _ _ _ Hsc) as (_ & _ & Hc).
      assert (Hle : (c <= Z.of_nat (length steps))%Z).
      { rewrite <- value_counts_total.
        apply Zsum_ge_each.
        - intros y Hy. apply in_map_iff in Hy as ([s0 c0] & <- & H0).
          destruct (value_counts_entries _ _ _ H0) as (_ & _ & H1).
          simpl. lia.
        - apply in_map_iff. now exists (s, c). }
      assert (HcQ : 0 < inject_Z c) by (rewrite <- (Zlt_Qlt 0); exact Hc).
      assert (HleQ : inject_Z c <= inject_Z (Z.of_nat (length steps)))
        by (rewrite <- Zle_Qle; exact Hle).
      split.
      * apply Qmult_lt_0_compat; [|reflexivity].
        unfold Qdiv. apply Qmult_lt_0_compat; [exact HcQ|].
        now apply Qinv_lt_0_compat.
      * setoid_replace 100 with (1 * 100) at 2 by ring.
        apply Qmult_le_compat_r; [|discriminate].
        apply Qle_shift_div_r; [exact HposQ|]. now rewrite Qmult_1_l.
  - intros Hnone.
    assert (Hnil : filter is_bottleneck df = []).
    { apply filter_none. exact Hnone. }
    unfold steps. rewrite Hnil. reflexivity.
Qed.

Lemma Qle_bool_total (a b : Q) : Qle_bool a b = false -> Qle_bool b a = true.
Proof.
  intros H. apply Qle_bool_false in H. apply Qle_bool_iff.
  now apply Qlt_le_weak.
Qed.

Lemma locally_sorted_adjacent {A : Type} (leb : A -> A -> bool) (d : A)
    (l : list A) :
  forall i, locally_sorted leb l -> (S i < length l)%nat ->
            leb (nth i l d) (nth (S i) l d) = true.
Proof.
  induction l as [|a l IH]; intros i Hs Hi; [simpl in Hi; lia|].
  destruct l as [|b l]; [simpl in Hi; lia|].
  destruct Hs as [Hab Hs]. destruct i as [|i]; [exact Hab|].
  change (leb (nth i (b :: l) d) (nth (S i) (b :: l) d) = true).
  apply IH; [exact Hs | simpl in *; lia].
Qed.

(** A quantile of a series that is not empty lies between two of its
    values. *)
Lemma quantile_between (q : Q) (l : list Q) :
  l <> [] -> 0 <= q -> q <= 1 ->
  exists a b, In a l /\ In b l /\ a <= quantile q l /\ quantile q l <= b.
Proof.
  intros Hne Hq0 Hq1. unfold quantile.
  set (v := stable_sort Qle_bool l).
  assert (Hlen : length v = length l) by apply stable_sort_length.
  assert (Hn : (1 <= length v)%nat).
  { rewrite Hlen. destruct l; [congruence | simpl; lia]. }
  assert (Hin : forall x, In x v -> In x l)
    by (intros x; apply stable_sort_In).
  assert (Hsorted : locally_sorted Qle_bool v)
    by (apply stable_sort_locally_sorted; exact Qle_bool_total).
  set (m := Z.of_nat (length v - 1)).
  set (pos := inject_Z m * q).
  assert (Hm : (0 <= m)%Z) by (unfold m; lia).
  assert (HmQ : 0 <= inject_Z m) by (rewrite <- (Zle_Qle 0); exact Hm).
  assert (Hpos0 : 0 <= pos) by (unfold pos; now apply Qmult_le_0_compat).
  assert (Hpos1 : pos <= inject_Z m).
  { unfold pos. rewrite <- (Qmult_1_r (inject_Z m)) at 2.
    rewrite !(Qmult_comm (inject_Z m)). now apply Qmult_le_compat_r. }
  assert (Hfl0 : (0 <= Qfloor pos)%Z).
  { change 0%Z with (Qfloor (inject_Z 0)). now apply Qfloor_resp_le. }
  assert (Hfl1 : (Qfloor pos <= m)%Z).
  { rewrite <- (Qfloor_Z m). now apply Qfloor_resp_le. }
  pose proof (Qfloor_le pos) as Hfle.
  pose proof (Qlt_floor pos) as Hflt.
  set (lo := Z.to_nat (Qfloor pos)).
  assert (Hlo : (lo <= length v - 1)%nat) by (unfold lo, m in *; lia).
  set (frac := pos - inject_Z (Qfloor pos)).
  assert (Hfrac0 : 0 <= frac) by (unfold frac; lra).
  assert (Hfrac1 : frac <= 1).
  { unfold frac. rewrite inject_Z_plus in Hflt.
    change (inject_Z 1) with 1 in Hflt. lra. }
  assert (Ha : In (nth lo v 0) l) by (apply Hin, nth_In; lia).
  destruct (Qeq_bool frac 0) eqn:E.
  - exists (nth lo v 0), (nth lo v 0).
    repeat split; try exact Ha; apply Qle_refl.
  - apply Qeq_bool_neq in E.
    assert (Hfracpos : 0 < frac).
    { apply Qle_lteq in Hfrac0 as [H | H]; [exact H|].
      exfalso. apply E. now symmetry. }
    assert (Hlt : (Qfloor pos < m)%Z).
    { rewrite Zlt_Qlt. unfold frac in Hfracpos. lra. }
    assert (Hhi : (S lo < length v)%nat) by (unfold lo, m in *; lia).
    pose proof (locally_sorted_adjacent Qle_bool 0 v lo Hsorted Hhi) as Hab.
    apply Qle_bool_iff in Hab.
    exists (nth lo v 0), (nth (S lo) v 0).
    split; [exact Ha|]. split; [apply Hin, nth_In; lia|].
    set (a := nth lo v 0) in *. set (b := nth (S lo) v 0) in *.
    assert (Hd : 0 <= (b - a) * frac)
      by (apply Qmult_le_0_compat; lra).
    assert (Hd1 : (b - a) * frac <= (b - a) * 1).
    { rewrite !(Qmult_comm (b - a)). apply Qmult_le_compat_r; lra. }
    split; lra.
Qed.

(** The cycle-time dicts of [compute_kpis] list the same steps, those of
    the daily-per-step table, and the 90th percentile of a step lies
    between two of its daily cycle times. *)
Theorem compute_kpis_p90_cycle_time (data : KpiData) (df : list Daily.t) :
  d_step_daily data = Some df ->
  exists avg p90,
    avg_cycle_time_by_step (compute_kpis data) = Some avg
    /\ p90_cycle_time_by_step (compute_kpis data) = Some p90
    /\ map fst p90 = map fst avg
    /\ (forall x, In x df -> In (Daily.step x) (map fst p90))
    /\ forall s v, In (s, v) p90 ->
         exists a b,
           In a (map Daily.cycle_time_min (step_group Daily.step s df))
           /\ In b (map Daily.cycle_time_min (step_group Daily.step s df))
           /\ a <= v <= b.
Proof.
  intros Hdata. unfold compute_kpis. rewrite Hdata. simpl.
  eexists. eexists. split; [reflexivity|]. split; [reflexivity|].
  unfold by_step, groupby_step. rewrite !map_map. simpl.
  split; [reflexivity|]. split.
  - intros x Hx. rewrite map_id. now apply step_keys_cover.
  - intros s v Hsv. apply in_map_iff in Hsv as (k & E & Hk).
    injection E as -> <-.
    destruct (quantile_between (90 # 100)
                (map Daily.cycle_time_min (step_group Daily.step s df)))
      as (a & b & Ha & Hb & Hab).
    + intros Hnil. apply map_eq_nil in Hnil.
      exact (step_group_nonempty Daily.step s df Hk Hnil).
    + discriminate.
    + discriminate.
    + exists a, b. auto.
Qed.

Lemma compute_kpis_p90_cycle_time_witness :
  exists avg p90,
    avg_cycle_time_by_step
      (compute_kpis (mkKpiData None (Some (aggregate_daily_metrics two_days))
                       None None)) = Some avg
    /\ p90_cycle_time_by_step
         (compute_kpis (mkKpiData None
                          (Some (aggregate_daily_metrics two_days))
                          None None)) = Some p90
    /\ map fst p90 = map fst avg.
Proof.
  destruct (compute_kpis_p90_cycle_time
              (mkKpiData None (Some (aggregate_daily_metrics two_days))
                 None None)
              (aggregate_daily_metrics two_days) eq_refl)
    as (avg & p90 & H1 & H2 & H3 & _).
  exists avg, p90. auto.
Defined.

(** Fed with the tables of the pipeline, [compute_kpis] reports the totals
    of the hourly table: the throughput processed and lost are the sums
    over the hourly records, and [total_days] is the number of dates that
    have records. *)
Theorem compute_kpis_pipeline_totals (data : KpiData) (df : DataFrame) :
  d_step_daily data = Some (aggregate_daily_metrics df) ->
  d_site_daily data = Some (aggregate_site_daily_metrics df) ->
  exists processed loss,
    total_throughput_processed (compute_kpis data) = Some processed
    /\ processed == Qsum (map processed_units df)
    /\ total_throughput_loss (compute_kpis data) = Some loss
    /\ loss == Qsum (map throughput_loss_units df)
    /\ total_days (compute_kpis data)
       = Some (Z.of_nat (length (distinct Z.eqb (map date df)))).
Proof.
  intros Hstep Hsite. unfold compute_kpis. rewrite Hstep, Hsite. simpl.
  eexists. eexists. split; [reflexivity|].
  split; [|split; [reflexivity|split]].
  - unfold aggregate_daily_metrics, groupby. rewrite !map_map. simpl.
    apply Qsum_by_date_step.
  - unfold aggregate_daily_metrics, groupby. rewrite !map_map. simpl.
    apply Qsum_by_date_step.
  - unfold aggregate_site_daily_metrics, groupby, group_keys.
    now rewrite !length_map, stable_sort_length.
Qed.

Lemma compute_kpis_pipeline_totals_witness :
  exists processed loss,
    total_throughput_processed
      (compute_kpis
         (mkKpiData (Some (aggregate_site_daily_metrics two_days))
            (Some (aggregate_daily_metrics two_days)) None None))
    = Some processed
    /\ processed == Qsum (map processed_units two_days)
    /\ total_throughput_loss
         (compute_kpis
            (mkKpiData (Some (aggregate_site_daily_metrics two_days))
               (Some (aggregate_daily_metrics two_days)) None None))
       = Some loss
    /\ loss == Qsum (map throughput_loss_units two_days)
    /\ total_days
         (compute_kpis
            (mkKpiData (Some (aggregate_site_daily_metrics two_days))
               (Some (aggregate_daily_metrics two_days)) None None))
       = Some (Z.of_nat (length (distinct Z.eqb (map date two_days)))).
Proof.
  apply (compute_kpis_pipeline_totals
           (mkKpiData (Some (aggregate_site_daily_metrics two_days))
              (Some (aggregate_daily_metrics two_days)) None None)
           two_days eq_refl eq_refl).
Defined.

(** Fed with a table of [compute_staffing_recommendations], [compute_kpis]
    reports the positive gap hours and the total cost of the staffing
    summary, the cost being the hourly wage times the hours; this is so
    when the hours are within int64 and, for an int wage, their product
    with the wage is. *)
Theorem compute_kpis_staffing_totals (data : KpiData) (df : DataFrame)
    (service_target : Q) (uph_by_step : uph_table) (wage_per_hour : number)
    (out : list StaffingRow) :
  compute_staffing_recommendations df service_target uph_by_step
    wage_per_hour = Ok out ->
  d_staffing data = Some out ->
  in_int64 (total_positive_gap_hours (summarize_staffing out)) = true ->
  match wage_per_hour with
  | PyFloat _ => True
  | PyInt w =>
      in_int64 (total_positive_gap_hours (summarize_staffing out) * w) = true
  end ->
  exists hours cost,
    extra_headcount_hours_needed (compute_kpis data) = Some hours
    /\ estimated_cost_to_hit_target (compute_kpis data) = Some cost
    /\ hours = total_positive_gap_hours (summarize_staffing out)
    /\ cost == total_cost_impact (summarize_staffing out)
    /\ cost == number_value wage_per_hour * inject_Z hours.
Proof.
  intros Hout Hdata _ Hfit. unfold compute_kpis. rewrite Hdata. simpl.
  destruct (costs_of_positive_gaps (number_value wage_per_hour) out
              (staffing_costs_exact _ _ _ _ _ Hout Hfit)) as [H1 H2].
  eexists. eexists. split; [reflexivity|]. split; [reflexivity|].
  split; [reflexivity|]. split; [exact H2|]. now rewrite H2.
Qed.

Lemma compute_kpis_staffing_totals_witness :
  exists hours cost,
    extra_headcount_hours_needed
      (compute_kpis (mkKpiData None None None (Some staffing_table)))
    = Some hours
    /\ estimated_cost_to_hit_target
         (compute_kpis (mkKpiData None None None (Some staffing_table)))
       = Some cost
    /\ hours = total_positive_gap_hours (summarize_staffing staffing_table)
    /\ cost == total_cost_impact (summarize_staffing staffing_table)
    /\ cost == 20 * inject_Z hours.
Proof.
  apply (compute_kpis_staffing_totals
           (mkKpiData None None None (Some staffing_table)) staffing_hour
           (95 # 100) receive_uph (PyFloat 20) staffing_table).
  - vm_compute. reflexivity.
  - reflexivity.
  - reflexivity.
  - exact I.
Defined.

Lemma compute_kpis_bottleneck_share_witness :
  exists shares,
    bottleneck_share_by_step
      (compute_kpis
         (mkKpiData None None (Some bottleneck_table) None))
    = Some shares
    /\ Qsum (map snd shares) == 100.
Proof.
  destruct (compute_kpis_bottleneck_share
              (mkKpiData None None (Some bottleneck_table) None)
              bottleneck_table eq_refl)
    as (shares & Hs & Hsum & _).
  exists shares. split; [exact Hs|].
  apply Hsum. eexists. split; [left; reflexivity | reflexivity].
Defined.

(** ** [detect_bottlenecks]: how the two marks relate *)

Lemma first_max_is_max (col : Row -> Q) (g : DataFrame) (r : Row) :
  first_max col g r -> In r g /\ forall x, In x g -> col x <= col r.
Proof.
  intros (pre & post & -> & Hpre & Hpost). split.
  - apply in_or_app. right. now left.
  - intros x Hx. apply in_app_or in Hx as [Hx | [<- | Hx]].
    + apply Qlt_le_weak. now apply Hpre.
    + apply Qle_refl.
    + now apply Hpost.
Qed.

Lemma locally_sorted_app_r {A : Type} (leb : A -> A -> bool)
    (l1 l2 : list A) :
  locally_sorted leb (l1 ++ l2) -> locally_sorted leb l2.
Proof.
  induction l1 as [|x l1 IH]; intros H; [exact H|].
  apply IH. exact (locally_sorted_tail leb x (l1 ++ l2) H).
Qed.

(** The records selected from a sorted table are sorted. *)
Lemma locally_sorted_filter {A : Type} (leb : A -> A -> bool)
    (leb_trans : forall a b c, leb a b = true -> leb b c = true ->
                               leb a c = true)
    (p : A -> bool) (l : list A) :
  locally_sorted leb l -> locally_sorted leb (filter p l).
Proof.
  induction l as [|x l IH]; intros Hs; [exact I|].
  pose proof (IH (locally_sorted_tail leb x l Hs)) as Hl.
  cbn [filter]. destruct (p x); [|exact Hl].
  destruct (filter p l) as [|y t] eqn:E; [exact I|].
  split; [|exact Hl].
  apply (locally_sorted_head_le leb leb_trans l x y Hs).
  apply (proj1 (filter_In p y l)). rewrite E. now left.
Qed.

(** In a table sorted by step, the first record of maximal value is, among
    the records of maximal value, one whose step comes first in
    alphabetical order. *)
Lemma first_max_least_step (col : Row -> Q) (g : DataFrame) (r : Row) :
  locally_sorted step_ts_leb g -> first_max col g r ->
  forall r', In r' g -> col r <= col r' ->
             String.leb (step r) (step r') = true.
Proof.
  intros Hs (pre & post & -> & Hpre & _) r' Hr' Hle.
  apply in_app_or in Hr' as [Hr' | [<- | Hr']].
  - exfalso. exact (Qlt_not_le _ _ (Hpre r' Hr') Hle).
  - unfold String.leb. now rewrite string_compare_refl.
  - apply locally_sorted_app_r in Hs.
    pose proof (locally_sorted_head_le step_ts_leb step_ts_leb_trans post
                  r r' Hs Hr') as H.
    unfold step_ts_leb in H. unfold String.leb.
    destruct (String.compare (step r) (step r')); congruence.
Qed.

Lemma rows_at_sorted (ts : Z) (df : DataFrame) :
  locally_sorted step_ts_leb (rows_at ts (sort_by_step_timestamp df)).
Proof.
  unfold rows_at, group_rows.
  apply (locally_sorted_filter step_ts_leb step_ts_leb_trans).
  apply stable_sort_locally_sorted. exact step_ts_leb_total.
Qed.

(** [detect_bottlenecks] returns exactly when some record reaches the
    threshold or has a positive throughput loss, and raises the length
    mismatch otherwise.  A returned table holds the records of the table,
    each once, ordered by step and timestamp.  Every record carries the
    step selected for its hour among the records of the hour: if one
    reaches the threshold, a step of maximal utilization; otherwise, if one
    has a positive throughput loss, a step of maximal loss; otherwise
    none.  Among the steps of maximal value the first in alphabetical order
    is selected.  A flagged record reaches the threshold, and its hour
    then has a bottleneck step, whose utilization is at least that of the
    flagged record. *)
Theorem detect_bottlenecks_consistency (df : DataFrame)
    (threshold_util : Q) :
  ((exists out, detect_bottlenecks df threshold_util = Ok out)
   <-> exists r, In r df
         /\ (threshold_util <= utilization r
             \/ 0 < throughput_loss_units r))
  /\ (forall e, detect_bottlenecks df threshold_util = Raise e ->
                e = LengthMismatch)
  /\ forall out, detect_bottlenecks df threshold_util = Ok out ->
       map b_row out = sort_by_step_timestamp df
       /\ Permutation (map b_row out) df
       /\ forall b, In b out ->
            let g := rows_at (timestamp (b_row b))
                       (sort_by_step_timestamp df) in
            (forall b', In b' out ->
               timestamp (b_row b') = timestamp (b_row b) ->
               bottleneck_step b' = bottleneck_step b)
            /\ ((exists r, In r g /\ threshold_util <= utilization r) ->
                exists r,
                  first_max utilization g r
                  /\ bottleneck_step b = Some (step r)
                  /\ forall r', In r' g ->
                       utilization r <= utilization r' ->
                       String.leb (step r) (step r') = true)
            /\ ((forall r, In r g -> utilization r < threshold_util) ->
                (exists r, In r g /\ 0 < throughput_loss_units r) ->
                exists r,
                  first_max throughput_loss_units g r
                  /\ bottleneck_step b = Some (step r)
                  /\ forall r', In r' g ->
                       throughput_loss_units r <= throughput_loss_units r' ->
                       String.leb (step r) (step r') = true)
            /\ ((forall r, In r g -> utilization r < threshold_util) ->
                (forall r, In r g -> throughput_loss_units r <= 0) ->
                bottleneck_step b = None)
            /\ (is_bottleneck b = true ->
                threshold_util <= utilization (b_row b)
                /\ exists r, In r g
                     /\ bottleneck_step b = Some (step r)
                     /\ utilization (b_row b) <= utilization r).
Proof.
  split; [apply detect_bottlenecks_returns_iff|]. split.
  { intros e. unfold detect_bottlenecks, hourly_bottleneck, bind.
    destruct (existsb _ _); [discriminate | congruence]. }
  intros out Hout.
  pose proof (detect_bottlenecks_rows _ _ _ Hout) as Hrows.
  split; [exact Hrows|].
  split; [rewrite Hrows; apply stable_sort_Permutation|].
  intros b Hb g.
  pose proof (detect_bottlenecks_step _ _ _ b Hout Hb) as Hstep. fold g in Hstep.
  pose proof (rows_at_sorted (timestamp (b_row b)) df) as Hsorted.
  fold g in Hsorted.
  destruct (get_bottleneck_step_spec threshold_util g) as (H1 & H2 & H3).
  split; [|split; [|split; [|split]]].
  - intros b' Hb' Hts.
    rewrite (detect_bottlenecks_step _ _ _ b' Hout Hb'), Hts. now symmetry.
  - intros Hex. destruct (H1 Hex) as (r & Hfm & Hsel).
    exists r. split; [exact Hfm|]. split; [congruence|].
    now apply first_max_least_step.
  - intros Hlow Hex. destruct (H2 Hlow Hex) as (r & Hfm & Hsel).
    exists r. split; [exact Hfm|]. split; [congruence|].
    now apply first_max_least_step.
  - intros Hlow Hnone. rewrite Hstep. now apply H3.
  - intros Hflag.
    apply In_nth_error in Hb as [i Hi].
    destruct (detect_bottlenecks_nth _ _ _ _ _ Hout Hi) as [Hr Hbeq].
    assert (Hge : threshold_util <= utilization (b_row b)).
    { rewrite Hbeq in Hflag. simpl in Hflag.
      apply andb_true_iff in Hflag as [Hflag _].
      now apply Qle_bool_iff. }
    split; [exact Hge|].
    assert (Hing : In (b_row b) g).
    { unfold g, rows_at. apply (group_rows_In timestamp Z.eqb Z.eqb_eq).
      split; [eapply nth_error_In; exact Hr | reflexivity]. }
    destruct H1 as (r & Hfm & Hsel); [exists (b_row b); now split|].
    destruct (first_max_is_max _ _ _ Hfm) as [Hrg Hmax].
    exists r. split; [exact Hrg|]. split; [congruence|]. now apply Hmax.
Qed.

Lemma detect_bottlenecks_consistency_witness :
  exists out b,
    detect_bottlenecks two_steps_then_calm (95 # 100) = Ok out
    /\ In b out
    /\ timestamp (b_row b) = 2%Z
    /\ bottleneck_step b = None.
Proof.
  eexists. eexists. split; [reflexivity|].
  split; [right; right; left; reflexivity|].
  split; [reflexivity|].
  destruct (detect_bottlenecks_consistency two_steps_then_calm (95 # 100))
    as (_ & _ & H).
  destruct (H _ eq_refl) as (_ & _ & Hb).
  match goal with
  | |- bottleneck_step ?b = None =>
      destruct (Hb b) as (_ & _ & _ & Hnone & _);
        [right; right; left; reflexivity|]
  end.
  apply Hnone; vm_compute; intros r [<- | [<- | []]];
    first [reflexivity | discriminate].
Defined.

(** ** [compute_staffing_recommendations]: failure and coverage *)

Lemma collect_map_raise {A B : Type} (f : A -> result B) (l : list A) :
  (exists e, collect (map f l) = Raise e)
  <-> exists x, In x l /\ exists e, f x = Raise e.
Proof.
  induction l as [|a l IH]; simpl.
  - split; [intros [e H]; discriminate | intros (x & [] & _)].
  - unfold bind. destruct (f a) as [b|e] eqn:Ha.
    + destruct (collect (map f l)) as [rest|e'] eqn:Hrest.
      * split; [intros [e H]; discriminate|].
        intros (x & [<- | Hx] & e & He); [congruence|].
        destruct (proj2 IH) as [e0 H0]; [eauto | discriminate].
      * split; [|eauto]. intros _.
        destruct (proj1 IH) as (x & Hx & He); [eauto|].
        exists x. split; [now right | exact He].
    + split; [|eauto]. intros _. exists a. split; [now left | eauto].
Qed.

Lemma In_combine_l_exists {A B : Type} (l : list A) :
  forall (l' : list B) a,
    length l = length l' -> In a l -> exists b, In (a, b) (combine l l').
Proof.
  induction l as [|x l IH]; intros [|y l'] a Hlen Hin; simpl in *;
    try contradiction; try discriminate.
  destruct Hin as [<- | Hin].
  - exists y. now left.
  - destruct (IH l' a) as [b Hb]; [lia | exact Hin|].
    exists b. now right.
Qed.

Lemma staffing_row_raises (service_target : Q) (uph_by_step : uph_table)
    (wage_per_hour : number) (r : Row) (bin : Q) :
  (exists e, staffing_row service_target uph_by_step wage_per_hour r bin
             = Raise e)
  <-> dict_get (step r) uph_by_step = None
      \/ service_target == 0
      \/ exists u, dict_get (step r) uph_by_step = Some u /\ u + eps == 0.
Proof.
  unfold staffing_row. simpl.
  destruct (dict_get (step r) uph_by_step) as [u|]; simpl.
  - destruct (Qeq_bool service_target 0) eqn:E1; simpl.
    + apply Qeq_bool_eq in E1. split; [auto | eauto].
    + apply Qeq_bool_neq in E1.
      destruct (Qeq_bool (u + eps) 0) eqn:E2.
      * apply Qeq_bool_eq in E2. split; [|eauto].
        intros _. right. right. now exists u.
      * apply Qeq_bool_neq in E2.
        split; [intros [e H]; discriminate|].
        intros [H | [H | (u' & Hu & H)]]; try discriminate;
          try contradiction.
        injection Hu as <-. contradiction.
  - split; [auto | eauto].
Qed.

(** [compute_staffing_recommendations] with a target that is not zero
    fails exactly when the table has a record whose step is missing from
    [uph_by_step] or has uph + 1e-6 = 0; with a target of zero it fails on
    every table that has a record; an empty table is returned empty. *)
Theorem compute_staffing_recommendations_fails_iff (df : DataFrame)
    (service_target : Q) (uph_by_step : uph_table)
    (wage_per_hour : number) :
  let run :=
    compute_staffing_recommendations df service_target uph_by_step
      wage_per_hour in
  (~ service_target == 0 ->
   ((exists e, run = Raise e)
    <-> exists r, In r df
          /\ (dict_get (step r) uph_by_step = None
              \/ exists u, dict_get (step r) uph_by_step = Some u
                           /\ u + eps == 0)))
  /\ (service_target == 0 -> df <> [] -> exists e, run = Raise e)
  /\ (df = [] -> run = Ok []).
Proof.
  intros run. unfold run, compute_staffing_recommendations.
  set (df1 := sort_by_step_timestamp df).
  set (bins := map (fillna 0) (groupby_step_shift backlog_units df1)).
  assert (Hlen : length df1 = length bins)
    by apply sorted_backlog_ins_length.
  assert (Hin : forall r, In r df1 <-> In r df)
    by (intros r; apply stable_sort_In).
  split; [|split].
  - intros Htarget. rewrite collect_map_raise. split.
    + intros ([r b] & Hrb & Hraise). simpl in Hraise.
      apply staffing_row_raises in Hraise.
      exists r. split; [apply Hin; eapply in_combine_l; exact Hrb|].
      destruct Hraise as [H | [H | H]]; [now left | contradiction | now right].
    + intros (r & Hr & Hbad).
      destruct (In_combine_l_exists df1 bins r Hlen (proj2 (Hin r) Hr))
        as [b Hb].
      exists (r, b). split; [exact Hb|]. simpl.
      apply staffing_row_raises. destruct Hbad as [H | H]; auto.
  - intros Hzero Hne. apply collect_map_raise.
    destruct df as [|r df']; [congruence|].
    destruct (In_combine_l_exists df1 bins r Hlen
                (proj2 (Hin r) (or_introl eq_refl))) as [b Hb].
    exists (r, b). split; [exact Hb|]. simpl.
    apply staffing_row_raises. auto.
  - intros ->. reflexivity.
Qed.

Lemma compute_staffing_recommendations_fails_iff_witness :
  exists e,
    compute_staffing_recommendations staffing_hour (95 # 100) []
      (PyFloat 20)
    = Raise e.
Proof.
  apply (proj1 (compute_staffing_recommendations_fails_iff staffing_hour
                  (95 # 100) [] (PyFloat 20))).
  - intros H. discriminate H.
  - eexists. split; [left; reflexivity|]. left. reflexivity.
Defined.

(** On every record of a returned staffing table with a demand to cover
    that is not negative, a target of at most 1, a positive uph + 1e-6 and
    at most 2^63 - 1 labor hours required, the recommended headcount is
    enough and no more than enough: its capacity,
    headcount * (uph + 1e-6), covers the required capacity, which covers
    the required units, and one worker less would not cover it.  With more
    labor hours required, the recommended headcount is the most negative
    int64. *)
Theorem compute_staffing_recommendations_covers_demand (df : DataFrame)
    (service_target : Q) (uph_by_step : uph_table) (wage_per_hour : number)
    (out : list StaffingRow) :
  compute_staffing_recommendations df service_target uph_by_step
    wage_per_hour = Ok out ->
  0 < service_target -> service_target <= 1 ->
  forall s, In s out ->
    0 <= required_units s -> 0 < uph (s_row s) + eps ->
    (required_labor_hours s <= inject_Z int64_max ->
     required_units s <= required_capacity_units s
     /\ required_capacity_units s
        <= inject_Z (recommended_headcount s) * (uph (s_row s) + eps)
     /\ inject_Z (recommended_headcount s - 1) * (uph (s_row s) + eps)
        < required_capacity_units s
     /\ (0 <= recommended_headcount s)%Z)
    /\ (inject_Z int64_max < required_labor_hours s ->
        recommended_headcount s = int64_min).
Proof.
  unfold compute_staffing_recommendations.
  intros Hout Ht0 Ht1 s Hs Hreq Huph.
  apply In_nth_error in Hs as [i Hi].
  destruct (collect_map_nth _ _ out Hout i s Hi) as ([r b] & _ & Hf).
  simpl in Hf.
  destruct (staffing_row_ok _ _ _ _ _ _ Hf)
    as (_ & _ & _ & _ & _ & _ & _ & Hrc & Hrl & Hrh & _).
  assert (Hcap : required_units s <= required_capacity_units s).
  { rewrite Hrc. apply Qle_shift_div_l; [exact Ht0|].
    rewrite <- (Qmult_1_r (required_units s)) at 2.
    rewrite !(Qmult_comm (required_units s)).
    now apply Qmult_le_compat_r. }
  assert (Hlabor : required_labor_hours s * (uph (s_row s) + eps)
                   == required_capacity_units s).
  { rewrite Hrl. field. intros H0. rewrite H0 in Huph.
    exact (Qlt_irrefl _ Huph). }
  assert (Hl0 : 0 <= required_labor_hours s).
  { rewrite Hrl. apply Qdiv_nonneg; [|exact Huph].
    now apply Qle_trans with (required_units s). }
  split; [|intros Hpast; rewrite Hrh; now apply ceil_past_range].
  intros Hfit.
  assert (Hceil : recommended_headcount s
                  = Qceiling (required_labor_hours s)).
  { rewrite Hrh. apply ceil_in_range; [|exact Hfit].
    eapply Qlt_le_trans; [|exact Hl0]. reflexivity. }
  split; [exact Hcap|]. split; [|split].
  - rewrite <- Hlabor. apply Qmult_le_compat_r; [|now apply Qlt_le_weak].
    rewrite Hceil. apply Qle_ceiling.
  - rewrite <- Hlabor. apply Qmult_lt_compat_r; [exact Huph|].
    rewrite Hceil. apply Qceiling_lt.
  - rewrite Hceil. now apply Qceiling_nonneg.
Qed.

Lemma compute_staffing_recommendations_covers_demand_witness :
  Forall (fun s =>
            required_units s <= required_capacity_units s
            /\ required_capacity_units s
               <= inject_Z (recommended_headcount s) * (uph (s_row s) + eps)
            /\ inject_Z (recommended_headcount s - 1) * (uph (s_row s) + eps)
               < required_capacity_units s
            /\ (0 <= recommended_headcount s)%Z)
         staffing_table.
Proof.
  assert (Hpos : Forall (fun s => 0 <= required_units s
                                  /\ 0 < uph (s_row s) + eps
                                  /\ required_labor_hours s
                                     <= inject_Z int64_max)
                        staffing_table).
  { repeat constructor; vm_compute; discriminate. }
  apply (proj2 (Forall_forall _ _)). intros s Hs.
  destruct (proj1 (Forall_forall _ _) Hpos s Hs) as (Hreq & Huph & Hfit).
  apply (compute_staffing_recommendations_covers_demand staffing_hour
           (95 # 100) receive_uph (PyFloat 20) staffing_table).
  - vm_compute. reflexivity.
  - reflexivity.
  - unfold Qle. simpl. lia.
  - exact Hs.
  - exact Hreq.
  - exact Huph.
  - exact Hfit.
Defined.

(** ** [generate_fc_data] *)

Lemma string_compare_le_trans (a b c : string) :
  String.compare a b <> Gt -> String.compare b c <> Gt ->
  String.compare a c <> Gt.
Proof.
  destruct (String.compare a b) eqn:Hab; [| |congruence];
    destruct (String.compare b c) eqn:Hbc; try congruence; intros _ _.
  - apply String.compare_eq_iff in Hab, Hbc. subst.
    rewrite string_compare_refl. discriminate.
  - apply String.compare_eq_iff in Hab. subst. rewrite Hbc. discriminate.
  - apply String.compare_eq_iff in Hbc. subst. rewrite Hab. discriminate.
  - rewrite (string_compare_lt_trans _ _ _ Hab Hbc). discriminate.
Qed.

Lemma ts_step_leb_iff (a b : Sim.t) :
  ts_step_leb a b = true
  <-> (Sim.timestamp a < Sim.timestamp b)%Z
      \/ (Sim.timestamp a = Sim.timestamp b
          /\ String.compare (Sim.step a) (Sim.step b) <> Gt).
Proof.
  unfold ts_step_leb.
  destruct (Z.compare_spec (Sim.timestamp a) (Sim.timestamp b)) as [E|E|E].
  - destruct (String.compare (Sim.step a) (Sim.step b)); split;
      try (intros _; right; split; [exact E | discriminate]);
      try reflexivity; try discriminate.
    intros [H | [_ H]]; [lia | congruence].
  - split; [now left | reflexivity].
  - split; [discriminate | intros [H | [H _]]; lia].
Qed.

Lemma ts_step_leb_total (a b : Sim.t) :
  ts_step_leb a b = false -> ts_step_leb b a = true.
Proof.
  intros H. apply ts_step_leb_iff.
  destruct (Z.compare_spec (Sim.timestamp a) (Sim.timestamp b)) as [E|E|E].
  - right. split; [now symmetry|].
    rewrite String.compare_antisym.
    destruct (String.compare (Sim.step a) (Sim.step b)) eqn:C;
      try discriminate;
      exfalso; rewrite (proj2 (ts_step_leb_iff a b)) in H;
      try discriminate; right; (split; [exact E | congruence]).
  - rewrite (proj2 (ts_step_leb_iff a b)) in H; [discriminate | now left].
  - now left.
Qed.

Lemma ts_step_leb_trans (a b c : Sim.t) :
  ts_step_leb a b = true -> ts_step_leb b c = true ->
  ts_step_leb a c = true.
Proof.
  rewrite !ts_step_leb_iff.
  intros [H1 | [H1 S1]] [H2 | [H2 S2]]; try (left; lia).
  right. split; [congruence|]. eapply string_compare_le_trans; eassumption.
Qed.

Section SortFilter.
Context {A : Type}.
Variable leb : A -> A -> bool.
Hypothesis leb_trans :
  forall a b c, leb a b = true -> leb b c = true -> leb a c = true.
Variable p : A -> bool.

Lemma filter_insert_sorted (x : A) (l : list A) :
  locally_sorted leb l ->
  filter p (insert_sorted leb x l)
  = if p x then insert_sorted leb x (filter p l) else filter p l.
Proof.
  induction l as [|y l IH]; intros Hs.
  - simpl. now destruct (p x).
  - cbn [insert_sorted]. destruct (leb x y) eqn:Hxy.
    + assert (Hfront : insert_sorted leb x (filter p (y :: l))
                       = x :: filter p (y :: l)).
      { destruct (filter p (y :: l)) as [|w t] eqn:Hf; [reflexivity|].
        cbn [insert_sorted].
        assert (Hw : In w (y :: l)).
        { apply (proj1 (filter_In p w (y :: l))). rewrite Hf. now left. }
        assert (Hxw : leb x w = true).
        { destruct Hw as [<- | Hw]; [exact Hxy|].
          apply leb_trans with y; [exact Hxy|].
          now apply (locally_sorted_head_le leb leb_trans l). }
        now rewrite Hxw. }
      rewrite Hfront.
      change (filter p (x :: y :: l))
        with (if p x then x :: filter p (y :: l) else filter p (y :: l)).
      reflexivity.
    + cbn [filter]. rewrite (IH (locally_sorted_tail leb y l Hs)).
      destruct (p y), (p x); cbn [insert_sorted]; try reflexivity.
      now rewrite Hxy.
Qed.

(** Selecting from a sorted table is sorting the selection. *)
Lemma filter_stable_sort (leb_total :
    forall a b, leb a b = false -> leb b a = true) (l : list A) :
  filter p (stable_sort leb l) = stable_sort leb (filter p l).
Proof.
  induction l as [|x l IH]; [reflexivity|].
  cbn [stable_sort filter].
  rewrite filter_insert_sorted
    by (apply stable_sort_locally_sorted; exact leb_total).
  rewrite IH. now destruct (p x).
Qed.
End SortFilter.

Lemma hours_locally_sorted (a : Z) (m : nat) :
  forall b,
    locally_sorted Z.leb (map (fun k => (a + Z.of_nat k)%Z) (seq b m)).
Proof.
  induction m as [|m IH]; intros b; [exact I|].
  destruct m as [|m]; [exact I|].
  specialize (IH (S b)). cbn [seq map] in *. split; [|exact IH].
  apply Z.leb_le. lia.
Qed.

Lemma one_step_locally_sorted (s : string) (df : list Sim.t) :
  (forall r, In r df -> Sim.step r = s) ->
  locally_sorted Z.leb (map Sim.timestamp df) ->
  locally_sorted ts_step_leb df.
Proof.
  induction df as [|a df IH]; intros Hstep Hts; [exact I|].
  destruct df as [|b df]; [exact I|].
  simpl in Hts. destruct Hts as [Hab Hts]. split.
  - apply ts_step_leb_iff. apply Z.leb_le in Hab.
    destruct (Z.eq_dec (Sim.timestamp a) (Sim.timestamp b)) as [E|E];
      [right | left; lia].
    split; [exact E|].
    rewrite (Hstep a (or_introl eq_refl)).
    rewrite (Hstep b (or_intror (or_introl eq_refl))).
    rewrite string_compare_refl. discriminate.
  - apply IH; [|exact Hts]. intros r Hr. apply Hstep. now right.
Qed.

Lemma concat_one_step (steps : list string) (all_data : list (list Sim.t)) :
  Forall2 (fun s df => forall r, In r df -> Sim.step r = s) steps all_data ->
  forall r, In r (concat all_data) -> In (Sim.step r) steps.
Proof.
  induction 1 as [|s df steps all_data Hs _ IH]; intros r Hr;
    [contradiction|].
  cbn [concat] in Hr. apply in_app_or in Hr as [Hr | Hr].
  - left. symmetry. now apply Hs.
  - right. now apply IH.
Qed.

Lemma filter_all {A : Type} (p : A -> bool) (l : list A) :
  (forall x, In x l -> p x = true) -> filter p l = l.
Proof.
  intros H. apply forallb_filter_id. now apply forallb_forall.
Qed.

(** In the concatenation of tables of different steps, the records of a
    step are the table of the step. *)
Lemma filter_concat_step (steps : list string)
    (all_data : list (list Sim.t)) :
  Forall2 (fun s df => forall r, In r df -> Sim.step r = s) steps all_data ->
  NoDup steps ->
  forall i s df,
    nth_error steps i = Some s -> nth_error all_data i = Some df ->
    filter (fun r => String.eqb (Sim.step r) s) (concat all_data) = df.
Proof.
  induction 1 as [|s0 df0 steps all_data Hs0 Hrest IH];
    intros Hnd i s df Hs Hdf.
  - destruct i; discriminate.
  - inversion Hnd as [|? ? Hnotin Hnd']; subst.
    cbn [concat]. rewrite filter_app. destruct i as [|i]; simpl in Hs, Hdf.
    + injection Hs as ->. injection Hdf as ->.
      rewrite filter_all, filter_none; [apply app_nil_r| |].
      * intros r Hr. apply String.eqb_neq. intros E. apply Hnotin.
        rewrite <- E. now apply (concat_one_step steps all_data).
      * intros r Hr. apply String.eqb_eq. now apply Hs0.
    + rewrite filter_none; [now apply (IH Hnd' i)|].
      intros r Hr. apply String.eqb_neq. rewrite (Hs0 r Hr).
      intros ->. apply Hnotin. eapply nth_error_In. exact Hs.
Qed.

Lemma length_concat_same {A : Type} (n : nat) (ls : list (list A)) :
  Forall (fun l => length l = n) ls ->
  length (concat ls) = (length ls * n)%nat.
Proof.
  induction 1 as [|l ls Hl _ IH]; [reflexivity|].
  cbn [concat length]. rewrite length_app, Hl, IH. reflexivity.
Qed.

Section DatasetFacts.
Variable rng : Type.
Variable seed_state : Z -> rng.
Variable gauss : rng -> Q * rng.
Variable random_sample : rng -> Q * rng.
Variable permutation : rng -> Z -> list Z * rng.
Variable py_hash : string -> Z.

Local Abbreviation one_step config demand_df s c u b g :=
  (generate_step_data rng seed_state gauss random_sample py_hash
     demand_df s c
     (Config.variability_std (Config.capacity config))
     (Config.downtime_probability (Config.capacity config))
     (Config.downtime_severity (Config.capacity config))
     u b
     (Config.congestion_multiplier_max (Config.cycle_time config))
     (Config.random_state config) g).

Local Abbreviation the_demand config g :=
  (generate_hourly_demand rng seed_state gauss permutation
     (Config.start_date config) (Config.num_days config)
     (Config.base_demand_mean (Config.demand config))
     (Config.hourly_seasonality (Config.demand config))
     (Config.day_of_week (Config.demand config))
     (Config.promo_days (Config.demand config))
     (Config.promo_multiplier (Config.demand config))
     (Config.random_state config) g).

Local Abbreviation fc_data :=
  (generate_fc_data rng seed_state gauss random_sample permutation py_hash).

Local Abbreviation the_loop :=
  (steps_loop rng seed_state gauss random_sample py_hash).

(** The hours of the demand table, one after the other. *)
Lemma generate_hourly_demand_timestamps (config : Config.t) (g : rng)
    (demand_df : list Demand.t) (g0 : rng) :
  the_demand config g = Ok (demand_df, g0) ->
  map Demand.timestamp demand_df
  = map (fun k => (Config.start_date config * 24 + Z.of_nat k)%Z)
        (seq 0 (24 * Z.to_nat (Config.num_days config))).
Proof.
  unfold generate_hourly_demand, bind.
  destruct (np_random_seed rng seed_state _ g) as [g1|]; [|discriminate].
  destruct (np_random_choice rng permutation _ _ g1) as [[idx g2]|];
    [|discriminate].
  simpl fst; simpl snd. intros H. injection H as H.
  match type of H with
  | days_loop rng gauss ?s ?b ?h ?d ?p ?m ?days ?gg = _ =>
      pose proof (days_loop_rows rng gauss s b h d p m days gg) as Hrows
  end.
  cbv zeta in Hrows. rewrite H in Hrows. simpl fst in Hrows.
  destruct Hrows as [Hts _]. rewrite Hts. unfold range at 2.
  rewrite (day_hours_flat _ (Z.to_nat (Config.num_days config)) 0).
  reflexivity.
Qed.

(** What the loop over the steps has collected when it ends: one table per
    step, in the order of [steps], each the table [generate_step_data]
    returns with the entries of the step in the three dicts. *)
Lemma steps_loop_inv (config : Config.t) (demand_df : list Demand.t)
    (steps : list string) :
  forall g all_data g',
    the_loop config demand_df steps g = Returns (all_data, g') ->
    Forall2
      (fun s df =>
         exists c u b g1 g2,
           dict_get s (Config.step_capacity_base (Config.capacity config))
           = Some c
           /\ dict_get s (Config.uph_by_step config) = Some u
           /\ dict_get s (Config.base_min (Config.cycle_time config))
              = Some b
           /\ one_step config demand_df s c u b g1 = Ok (df, g2))
      steps all_data.
Proof.
  induction steps as [|s steps IH]; intros g all_data g' H.
  - simpl in H. injection H as <- _. constructor.
  - cbn [steps_loop] in H.
    destruct (dict_get s _) as [c|] eqn:Hc; [|discriminate].
    destruct (dict_get s (Config.uph_by_step config)) as [u|] eqn:Hu;
      [|discriminate].
    destruct (dict_get s (Config.base_min _)) as [b|] eqn:Hb;
      [|discriminate].
    destruct (one_step config demand_df s c u b g) as [[df g1]|] eqn:Hrun;
      [|discriminate].
    destruct (the_loop config demand_df steps g1) as [[rest g2]|] eqn:Hrest;
      [|discriminate].
    injection H as <- _. constructor; [|now apply (IH g1 rest g2)].
    exists c, u, b, g, g1. auto.
Qed.

(** When the loop over the steps raises. *)
Lemma steps_loop_raises (config : Config.t) (demand_df : list Demand.t)
    (steps : list string) :
  forall g e,
    the_loop config demand_df steps g = Raises e ->
    (exists e', e = Generator e')
    \/ exists k, e = KeyError k /\ In k steps
         /\ (dict_get k (Config.step_capacity_base (Config.capacity config))
             = None
             \/ dict_get k (Config.uph_by_step config) = None
             \/ dict_get k (Config.base_min (Config.cycle_time config))
                = None).
Proof.
  induction steps as [|s steps IH]; intros g e H; [discriminate|].
  cbn [steps_loop] in H.
  destruct (dict_get s _) as [c|] eqn:Hc;
    [|injection H as <-; right; exists s; simpl; auto].
  destruct (dict_get s (Config.uph_by_step config)) as [u|] eqn:Hu;
    [|injection H as <-; right; exists s; simpl; auto].
  destruct (dict_get s (Config.base_min _)) as [b|] eqn:Hb;
    [|injection H as <-; right; exists s; simpl; auto].
  destruct (one_step config demand_df s c u b g) as [[df g1]|e1];
    [|injection H as <-; left; eauto].
  destruct (the_loop config demand_df steps g1) as [[rest g2]|e2] eqn:Hrest;
    [discriminate|].
  injection H as <-.
  destruct (IH g1 e2 Hrest) as [H | (k & -> & Hk & Hmiss)]; [now left|].
  right. exists k. simpl. auto.
Qed.

(** A step without an entry in one of the dicts stops the loop. *)
Lemma steps_loop_missing (config : Config.t) (demand_df : list Demand.t)
    (steps : list string) (k : string) :
  In k steps ->
  dict_get k (Config.step_capacity_base (Config.capacity config)) = None
  \/ dict_get k (Config.uph_by_step config) = None
  \/ dict_get k (Config.base_min (Config.cycle_time config)) = None ->
  forall g, exists e, the_loop config demand_df steps g = Raises e.
Proof.
  intros Hk Hmiss. induction steps as [|s steps IH]; intros g;
    [contradiction|].
  cbn [steps_loop].
  destruct (dict_get s _) as [c|] eqn:Hc; [|eauto].
  destruct (dict_get s (Config.uph_by_step config)) as [u|] eqn:Hu; [|eauto].
  destruct (dict_get s (Config.base_min _)) as [b|] eqn:Hb; [|eauto].
  destruct (one_step config demand_df s c u b g) as [[df g1]|e1]; [|eauto].
  destruct Hk as [-> | Hk].
  - destruct Hmiss as [H | [H | H]]; congruence.
  - destruct (IH Hk g1) as [e He]. rewrite He. eauto.
Qed.

(** The dataset [generate_fc_data] returns has one record per listed step
    and hour of the horizon: [steps] is not empty, the table has
    len(steps) * 24 * num_days records in the order of (timestamp, step),
    every record is of a listed step at an hour of the horizon, and every
    listed step has a record at every hour. *)
Theorem generate_fc_data_grid (config : Config.t) (g : rng)
    (out : list Sim.t) (g' : rng) :
  fc_data config g = Returns (out, g') ->
  Config.steps config <> []
  /\ length out
     = (length (Config.steps config)
        * (24 * Z.to_nat (Config.num_days config)))%nat
  /\ locally_sorted ts_step_leb out
  /\ (forall r, In r out ->
        In (Sim.step r) (Config.steps config)
        /\ (Config.start_date config * 24 <= Sim.timestamp r
            < Config.start_date config * 24
              + 24 * Z.of_nat (Z.to_nat (Config.num_days config)))%Z)
  /\ (forall s k, In s (Config.steps config) ->
        (0 <= k < 24 * Config.num_days config)%Z ->
        exists r, In r out /\ Sim.step r = s
                  /\ Sim.timestamp r = (Config.start_date config * 24 + k)%Z).
Proof.
  unfold generate_fc_data.
  destruct (the_demand config g) as [[demand_df g0]|] eqn:Hdemand;
    [|discriminate].
  destruct (the_loop config demand_df (Config.steps config) g0)
    as [[all_data g1]|] eqn:Hloop; [|discriminate].
  pose proof (steps_loop_inv _ _ _ _ _ _ Hloop) as Hall.
  pose proof (generate_hourly_demand_timestamps _ _ _ _ Hdemand) as Hts.
  destruct all_data as [|df0 rest] eqn:Hdata; [discriminate|].
  rewrite <- Hdata in *. intros H. injection H as <- _.
  assert (Hrows : Forall2
            (fun s df =>
               map Sim.timestamp df = map Demand.timestamp demand_df
               /\ forall r, In r df -> Sim.step r = s)
            (Config.steps config) all_data).
  { eapply Forall2_impl; [|exact Hall].
    intros s df (c & u & b & g2 & g3 & _ & _ & _ & Hrun).
    exact (generate_step_data_rows _ _ _ _ _ _ _ _ _ _ _ _ _ _ _ _ _ _ Hrun). }
  assert (Hsteps : Forall2 (fun s df => forall r, In r df -> Sim.step r = s)
                     (Config.steps config) all_data).
  { eapply Forall2_impl; [|exact Hrows]. now intros s df [_ H]. }
  split; [|split; [|split; [|split]]].
  - intros E. rewrite E in Hall. inversion Hall. congruence.
  - rewrite stable_sort_length.
    rewrite (length_concat_same (24 * Z.to_nat (Config.num_days config))).
    + now rewrite (Forall2_length Hall).
    + clear - Hrows Hts. induction Hrows as [|s df ss dfs [H _] _ IH];
        constructor; [|exact IH].
      rewrite <- (length_map Sim.timestamp), H, Hts, length_map.
      apply length_seq.
  - apply stable_sort_locally_sorted. exact ts_step_leb_total.
  - intros r Hr. apply (proj1 (stable_sort_In ts_step_leb r _)) in Hr.
    split; [now apply (concat_one_step _ all_data)|].
    apply in_concat in Hr as (df & Hdf & Hr).
    assert (Hin : In (Sim.timestamp r) (map Demand.timestamp demand_df)).
    { clear - Hrows Hdf Hr. induction Hrows as [|s d ss dfs [H _] _ IH];
        [contradiction|].
      destruct Hdf as [-> | Hdf]; [|now apply IH].
      rewrite <- H. now apply in_map. }
    rewrite Hts in Hin. apply in_map_iff in Hin as (k & <- & Hk).
    apply in_seq in Hk. lia.
  - intros s k Hs Hk.
    apply In_nth_error in Hs as [i Hi].
    destruct (nth_error all_data i) as [df|] eqn:Hdf.
    2:{ apply nth_error_None in Hdf.
        assert (i < length (Config.steps config))%nat
          by (apply nth_error_Some; congruence).
        rewrite (Forall2_length Hall) in *. lia. }
    assert (Hpair : map Sim.timestamp df = map Demand.timestamp demand_df
                    /\ forall r, In r df -> Sim.step r = s).
    { clear - Hrows Hi Hdf. revert i Hi Hdf.
      induction Hrows as [|s0 d ss dfs H0 _ IH]; intros [|i] Hi Hdf;
        simpl in *; try discriminate.
      - injection Hi as <-. injection Hdf as <-. exact H0.
      - now apply (IH i). }
    destruct Hpair as [Hdts Hdstep].
    assert (Hk' : In (Config.start_date config * 24 + k)%Z
                     (map Sim.timestamp df)).
    { rewrite Hdts, Hts. apply in_map_iff. exists (Z.to_nat k).
      split; [lia|]. apply in_seq. lia. }
    apply in_map_iff in Hk' as (r & Hr & Hin).
    exists r. split; [|split; [now apply Hdstep | exact Hr]].
    apply (proj2 (stable_sort_In ts_step_leb r _)).
    apply in_concat. exists df. split; [|exact Hin].
    eapply nth_error_In. exact Hdf.
Qed.

(** The records of a step in the dataset are the table
    [generate_step_data] returns for the step on the generated demand, in
    the same order, whatever the state of the generator before the call:
    with steps listed once, the dataset is the per-step tables interleaved
    hour by hour. *)
Theorem generate_fc_data_step_rows (config : Config.t) (g : rng)
    (out : list Sim.t) (g' : rng) :
  fc_data config g = Returns (out, g') ->
  NoDup (Config.steps config) ->
  exists demand_df g0,
    the_demand config g = Ok (demand_df, g0)
    /\ forall s, In s (Config.steps config) ->
         exists c u b,
           dict_get s (Config.step_capacity_base (Config.capacity config))
           = Some c
           /\ dict_get s (Config.uph_by_step config) = Some u
           /\ dict_get s (Config.base_min (Config.cycle_time config))
              = Some b
           /\ forall g1, exists g2,
                one_step config demand_df s c u b g1
                = Ok (filter (fun r => String.eqb (Sim.step r) s) out, g2).
Proof.
  unfold generate_fc_data.
  destruct (the_demand config g) as [[demand_df g0]|] eqn:Hdemand;
    [|discriminate].
  destruct (the_loop config demand_df (Config.steps config) g0)
    as [[all_data g1]|] eqn:Hloop; [|discriminate].
  pose proof (steps_loop_inv _ _ _ _ _ _ Hloop) as Hall.
  pose proof (generate_hourly_demand_timestamps _ _ _ _ Hdemand) as Hts.
  destruct all_data as [|df0 rest] eqn:Hdata; [discriminate|].
  rewrite <- Hdata in *. intros H Hnd. injection H as <- _.
  exists demand_df, g0. split; [reflexivity|].
  intros s Hs. apply In_nth_error in Hs as [i Hi].
  destruct (nth_error all_data i) as [df|] eqn:Hdf.
  2:{ apply nth_error_None in Hdf.
      assert (i < length (Config.steps config))%nat
        by (apply nth_error_Some; congruence).
      rewrite (Forall2_length Hall) in *. lia. }
  assert (Hone : exists c u b g2 g3,
             dict_get s (Config.step_capacity_base (Config.capacity config))
             = Some c
             /\ dict_get s (Config.uph_by_step config) = Some u
             /\ dict_get s (Config.base_min (Config.cycle_time config))
                = Some b
             /\ one_step config demand_df s c u b g2 = Ok (df, g3)).
  { clear - Hall Hi Hdf. revert i Hi Hdf.
    induction Hall as [|s0 d ss dfs H0 _ IH]; intros [|i] Hi Hdf;
      simpl in *; try discriminate.
    - injection Hi as <-. injection Hdf as <-. exact H0.
    - now apply (IH i). }
  destruct Hone as (c & u & b & g2 & g3 & Hc & Hu & Hb & Hrun).
  exists c, u, b. split; [exact Hc|]. split; [exact Hu|]. split; [exact Hb|].
  assert (Hsteps : Forall2 (fun s df => forall r, In r df -> Sim.step r = s)
                     (Config.steps config) all_data).
  { eapply Forall2_impl; [|exact Hall].
    intros s' df' (c' & u' & b' & g4 & g5 & _ & _ & _ & Hrun').
    exact (proj2 (generate_step_data_rows _ _ _ _ _ _ _ _ _ _ _ _ _ _ _ _ _
                    _ Hrun')). }
  destruct (generate_step_data_rows _ _ _ _ _ _ _ _ _ _ _ _ _ _ _ _ _ _ Hrun)
    as [Hdts Hdstep].
  assert (Hslice : filter (fun r => String.eqb (Sim.step r) s)
                     (stable_sort ts_step_leb (concat all_data)) = df).
  { rewrite (filter_stable_sort ts_step_leb ts_step_leb_trans _
               ts_step_leb_total).
    rewrite (filter_concat_step _ _ Hsteps Hnd i s df Hi Hdf).
    apply stable_sort_sorted. apply (one_step_locally_sorted s).
    - exact Hdstep.
    - rewrite Hdts, Hts. apply hours_locally_sorted. }
  rewrite Hslice. intros g4. exists g3. rewrite <- Hrun.
  apply generate_step_data_reseeds.
Qed.

(** How [generate_fc_data] fails: with no step listed it never returns,
    and raises the error of [pd.concat] once the demand is generated; that
    error is raised for an empty list of steps only; a [KeyError] names a
    listed step that one of the three dicts lacks; and a listed step that
    one of the dicts lacks keeps the call from returning. *)
Theorem generate_fc_data_raises (config : Config.t) (g : rng) :
  (Config.steps config = [] ->
   (forall demand_df g0, the_demand config g = Ok (demand_df, g0) ->
      fc_data config g = Raises NoObjectsToConcatenate)
   /\ forall e, the_demand config g = Raise e ->
        fc_data config g = Raises (Generator e))
  /\ (fc_data config g = Raises NoObjectsToConcatenate ->
      Config.steps config = [])
  /\ (forall k, fc_data config g = Raises (KeyError k) ->
        In k (Config.steps config)
        /\ (dict_get k (Config.step_capacity_base (Config.capacity config))
            = None
            \/ dict_get k (Config.uph_by_step config) = None
            \/ dict_get k (Config.base_min (Config.cycle_time config))
               = None))
  /\ (forall k, In k (Config.steps config) ->
        dict_get k (Config.step_capacity_base (Config.capacity config))
        = None
        \/ dict_get k (Config.uph_by_step config) = None
        \/ dict_get k (Config.base_min (Config.cycle_time config)) = None ->
        exists e, fc_data config g = Raises e).
Proof.
  unfold generate_fc_data. split; [|split; [|split]].
  - intros Hsteps. split.
    + intros demand_df g0 ->. now rewrite Hsteps.
    + now intros e ->.
  - destruct (the_demand config g) as [[demand_df g0]|]; [|discriminate].
    destruct (the_loop config demand_df (Config.steps config) g0)
      as [[all_data g1]|e] eqn:Hloop.
    + pose proof (steps_loop_inv _ _ _ _ _ _ Hloop) as Hall.
      destruct all_data; [|discriminate]. intros _. now inversion Hall.
    + intros H. injection H as ->.
      destruct (steps_loop_raises _ _ _ _ _ Hloop)
        as [[e' H] | (k & H & _)]; discriminate.
  - intros k.
    destruct (the_demand config g) as [[demand_df g0]|]; [|discriminate].
    destruct (the_loop config demand_df (Config.steps config) g0)
      as [[all_data g1]|e] eqn:Hloop.
    + destruct all_data; discriminate.
    + intros H. injection H as ->.
      destruct (steps_loop_raises _ _ _ _ _ Hloop)
        as [[e' H] | (k' & H & Hk & Hmiss)]; [discriminate|].
      injection H as ->. auto.
  - intros k Hk Hmiss.
    destruct (the_demand config g) as [[demand_df g0]|]; [|eauto].
    destruct (steps_loop_missing config demand_df _ k Hk Hmiss g0)
      as [e He].
    rewrite He. eauto.
Qed.
End DatasetFacts.

(** A run that returns is the table and the state read off it. *)
Lemma returned_dataset (m : outcome (list Sim.t * Lcg.rng)) :
  returned m = true -> m = Returns (dataset_of m, generator_of m).
Proof. destruct m as [[out g]|e]; [reflexivity | discriminate]. Qed.

Lemma is_ok_table {A : Type} (m : result (list A * Lcg.rng)) :
  is_ok m = true -> m = Ok (table_of m, state_of m).
Proof. destruct m as [[out g]|e]; [reflexivity | discriminate]. Qed.

Lemma generate_fc_data_grid_witness :
  let out := dataset_of (run_fc two_step_config 7%Z) in
  Config.steps two_step_config <> []
  /\ length out = (2 * (24 * 1))%nat
  /\ locally_sorted ts_step_leb out
  /\ (forall r, In r out ->
        In (Sim.step r) ["receive"; "pick"]%string
        /\ (738000 * 24 <= Sim.timestamp r < 738000 * 24 + 24 * 1)%Z)
  /\ (forall s k, In s ["receive"; "pick"]%string ->
        (0 <= k < 24 * 1)%Z ->
        exists r, In r out /\ Sim.step r = s
                  /\ Sim.timestamp r = (738000 * 24 + k)%Z).
Proof.
  apply (generate_fc_data_grid Lcg.rng Lcg.seed_state Lcg.gauss
           Lcg.random_sample Lcg.permutation hash_of_process_a
           two_step_config 7%Z
           (dataset_of (run_fc two_step_config 7%Z))
           (generator_of (run_fc two_step_config 7%Z))).
  apply (returned_dataset (run_fc two_step_config 7%Z)). reflexivity.
Defined.

Lemma generate_fc_data_step_rows_witness :
  exists demand_df g0,
    run_demand 1 0 7%Z = Ok (demand_df, g0)
    /\ forall s, In s (Config.steps two_step_config) ->
         exists c u b,
           dict_get s (Config.step_capacity_base
                         (Config.capacity two_step_config)) = Some c
           /\ dict_get s (Config.uph_by_step two_step_config) = Some u
           /\ dict_get s (Config.base_min
                            (Config.cycle_time two_step_config)) = Some b
           /\ forall g1, exists g2,
                generate_step_data Lcg.rng Lcg.seed_state Lcg.gauss
                  Lcg.random_sample hash_of_process_a demand_df s c
                  (1 # 10) (3 # 10) (1 # 2) u b 2 42 g1
                = Ok (filter (fun r => String.eqb (Sim.step r) s)
                        (dataset_of (run_fc two_step_config 7%Z)), g2).
Proof.
  apply (generate_fc_data_step_rows Lcg.rng Lcg.seed_state Lcg.gauss
           Lcg.random_sample Lcg.permutation hash_of_process_a
           two_step_config 7%Z
           (dataset_of (run_fc two_step_config 7%Z))
           (generator_of (run_fc two_step_config 7%Z))).
  - apply (returned_dataset (run_fc two_step_config 7%Z)). reflexivity.
  - constructor; [simpl; intros [H | []]; discriminate|].
    constructor; [simpl; tauto | constructor].
Defined.

Lemma generate_fc_data_raises_witness :
  run_fc no_step_config 7%Z = Raises NoObjectsToConcatenate.
Proof.
  apply (proj1 (proj1 (generate_fc_data_raises Lcg.rng Lcg.seed_state
                         Lcg.gauss Lcg.random_sample Lcg.permutation
                         hash_of_process_a no_step_config 7%Z) eq_refl)
           (table_of (run_demand 1 0 7%Z)) (state_of (run_demand 1 0 7%Z))).
  apply (is_ok_table (run_demand 1 0 7%Z)). reflexivity.
Defined.
